(** * Text-to-SQL orchestrator: a shallow embedding and its properties

    This development embeds the query pipeline of [api/clickhouse_client.py]
    ([TextToSQLClient]), the tool dispatcher of [api/clickhouse_server.py]
    ([call_tool]) and the table-selection endpoint of [api/main.py]
    ([select_table]).

    Modelling conventions.
    - Python [str] is [string]; characters are taken in the ASCII range, so
      [str.strip] removes the ASCII characters for which [str.isspace] holds.
    - A Python [dict] literal with string keys is an association list.
    - The two external services (the chat-completion API and the MCP tool
      session) are capability records over an abstract [World]; a call takes
      the world, answers or raises, and yields the next world, so that any
      history-dependent behaviour of a service is an instance.
    - An exception is an instance of Python's [Exception], carried as the
      text [str(e)]; [print] and logging are not modelled.
    - Every call of a service made by the query pipeline and by the schema
      lookup is logged as an [Event]. *)

From Stdlib Require Import String Ascii List ZArith Bool Lia DecimalString.
Import ListNotations.
Local Open Scope string_scope.
Local Open Scope list_scope.
Local Open Scope Z_scope.

(** String concatenation, kept apart from list append. *)
Infix "+++" := String.append (at level 60, right associativity).

(** ** Python string operations used by the sources *)

Module PyStr.

(** [sub in s] *)
Fixpoint contains (sub s : string) : bool :=
  if String.prefix sub s then true
  else match s with
       | EmptyString => false
       | String _ rest => contains sub rest
       end.

Fixpoint drop (n : nat) (s : string) : string :=
  match n, s with
  | O, _ => s
  | S _, EmptyString => EmptyString
  | S k, String _ rest => drop k rest
  end.

(** [s.partition(sep)] when [sep] occurs: the text before the leftmost
    occurrence and the text after it. *)
Fixpoint partition (sep s : string) : option (string * string) :=
  if String.prefix sep s then Some (EmptyString, drop (String.length sep) s)
  else match s with
       | EmptyString => None
       | String c rest =>
           match partition sep rest with
           | Some (before, after) => Some (String c before, after)
           | None => None
           end
       end.

Fixpoint split_fuel (fuel : nat) (sep s : string) : list string :=
  match fuel with
  | O => [s]
  | S k =>
      match partition sep s with
      | Some (before, after) => before :: split_fuel k sep after
      | None => [s]
      end
  end.

(** [s.split(sep)] for a non-empty separator (Python raises [ValueError]
    on an empty one; the only separator in the sources is a non-empty
    constant).  Each cut consumes at least one character, so the length of
    [s] bounds the number of cuts. *)
Definition split (sep s : string) : list string :=
  split_fuel (String.length s) sep s.

(** ASCII characters with [str.isspace]: TAB, LF, VT, FF, CR, FS, GS, RS,
    US and SPACE. *)
Definition isspace (c : ascii) : bool :=
  let n := nat_of_ascii c in
  ((9 <=? n) && (n <=? 13) || (28 <=? n) && (n <=? 32))%nat.

Fixpoint lstrip_chars (l : list ascii) : list ascii :=
  match l with
  | c :: rest => if isspace c then lstrip_chars rest else l
  | [] => []
  end.

(** [s.strip()] *)
Definition strip (s : string) : string :=
  string_of_list_ascii
    (rev (lstrip_chars (rev (lstrip_chars (list_ascii_of_string s))))).

End PyStr.

(** ** Python values, exceptions and results *)

Inductive PyValue : Type :=
| PyStr (s : string)
| PyList (items : list string).

(** A [dict] with string keys, as written in a literal. *)
Definition PyDict : Type := list (string * PyValue).

Fixpoint dict_get {V : Type} (k : string) (d : list (string * V)) : option V :=
  match d with
  | [] => None
  | (k', v) :: rest => if String.eqb k k' then Some v else dict_get k rest
  end.

(** [k in d] *)
Definition has_key {V : Type} (k : string) (d : list (string * V)) : bool :=
  match dict_get k d with Some _ => true | None => false end.

(** [d[k] = v]: an existing key keeps its position. *)
Fixpoint dict_set {V : Type} (k : string) (v : V) (d : list (string * V))
  : list (string * V) :=
  match d with
  | [] => [(k, v)]
  | (k', v') :: rest =>
      if String.eqb k k' then (k, v) :: rest else (k', v') :: dict_set k v rest
  end.

(** An instance of [Exception]; [str e] is Python's [str(e)]. *)
Inductive PyException : Type := Exception (message : string).

Definition str (e : PyException) : string :=
  match e with Exception message => message end.

(** What a call of an external service gives. *)
Inductive outcome (A : Type) : Type :=
| Ok (a : A)
| Raise (e : PyException).
Arguments Ok {A} a.
Arguments Raise {A} e.

Definition outcome_map {A B : Type} (f : A -> B) (o : outcome A) : outcome B :=
  match o with Ok a => Ok (f a) | Raise e => Raise e end.

(** What running a modelled function gives; [OutOfFuel] is the model's own
    marker for a loop that was not given enough iterations. *)
Inductive Result (A : Type) : Type :=
| Returned (a : A)
| Raised (e : PyException)
| OutOfFuel.
Arguments Returned {A} a.
Arguments Raised {A} e.
Arguments OutOfFuel {A}.

(** ** Data exchanged with the services *)

(** The decoded classification answer: [result["query_type"]] and
    [result["queries"]]. *)
Record Verdict : Type := { query_type : string; queries : list string }.

(** Items of [tool_result.content]: an object with a [text] attribute, a
    plain [dict], or anything else. *)
Inductive ContentItem : Type :=
| TextContent (text : string)
| DictContent (entries : list (string * string))
| OtherContent.

(** [content = None] stands for a result without a [content] attribute. *)
Record ToolResult : Type := { content : option (list ContentItem) }.

(** The chat-completion service: one method per prompt of the client.  Each
    takes the values substituted into the prompt template and yields the
    message content ([classify]: yields the content decoded by [json.loads]);
    building the prompt, the request and the decoding may all raise. *)
Class ReasoningGateway (World : Type) : Type := {
  classify : string -> World -> outcome Verdict * World;
  generate : string -> string -> string -> World -> outcome string * World;
  repair : string -> string -> string -> string -> string ->
           World -> outcome string * World;
  summarize : string -> string -> World -> outcome string * World
}.

(** The MCP session: [session.call_tool(name, arguments)], including opening
    and initialising the session. *)
Class ExecutionGateway (World : Type) : Type := {
  session_call_tool :
    string -> list (string * string) -> World -> outcome ToolResult * World
}.

(** One logged service call: its arguments and what it gave. *)
Inductive Event : Type :=
| EvClassify (user_query : string) (answer : outcome Verdict)
| EvGenerate (rephrased_query table_name table_schema : string)
             (answer : outcome string)
| EvRepair (error_message original_query table_name table_schema
            rephrased_query : string) (answer : outcome string)
| EvSummarize (user_query sql_output : string) (answer : outcome string)
| EvExecute (sql_query table_name : string) (answer : outcome string)
| EvGetSchema (table_name : string) (answer : outcome (option string)).

(** ** The monad of the model: world passing, exceptions, call log *)

Module Run.
Section Monad.
Context {World : Type}.

Definition M (A : Type) : Type := World -> Result A * World * list Event.

Definition ret {A : Type} (a : A) : M A := fun w => (Returned a, w, []).

Definition raise {A : Type} (e : PyException) : M A :=
  fun w => (Raised e, w, []).

Definition out_of_fuel {A : Type} : M A := fun w => (OutOfFuel, w, []).

Definition bind {A B : Type} (m : M A) (k : A -> M B) : M B :=
  fun w =>
    match m w with
    | (Returned a, w1, log1) =>
        match k a w1 with (r, w2, log2) => (r, w2, log1 ++ log2) end
    | (Raised e, w1, log1) => (Raised e, w1, log1)
    | (OutOfFuel, w1, log1) => (OutOfFuel, w1, log1)
    end.

(** [try: m  except Exception as e: return handler(e)] *)
Definition try_except {A : Type} (m : M A) (handler : PyException -> A)
  : M A :=
  fun w =>
    match m w with
    | (Raised e, w1, log1) => (Returned (handler e), w1, log1)
    | other => other
    end.

(** A service call, logged. *)
Definition call {A : Type} (service : World -> outcome A * World)
           (event : outcome A -> Event) : M A :=
  fun w =>
    match service w with
    | (Ok a, w1) => (Returned a, w1, [event (Ok a)])
    | (Raise e, w1) => (Raised e, w1, [event (Raise e)])
    end.
End Monad.
End Run.

Declare Scope run_scope.
Delimit Scope run_scope with run.
Notation "x <- m ;; k" := (Run.bind m (fun x => k))
  (at level 61, m at next level, right associativity) : run_scope.

(** ** [api/clickhouse_client.py]: class [TextToSQLClient] *)

(** The two attributes set on the client after a table was chosen;
    [None] stands for an attribute that is not set ([hasattr] is false). *)
Record Session : Type := {
  selected_table : option string;
  table_schema : option string
}.

Definition SENTINEL : string := "Error executing custom query:".

(** [default max_retries=3] *)
Definition default_max_retries : Z := 3.

(** The loop variables of [process_query_for_selected_table]. *)
Record LoopState : Type := {
  current_query : string;
  retry_count : Z;
  error_messages : list string
}.

(** What one pass through the loop body ends in: the next test of the loop
    condition, or a [return]. *)
Inductive Step : Type :=
| Continue (st : LoopState)
| Return (envelope : PyDict).

Module Client.

(** The [dict] literals returned by [process_query_for_selected_table]. *)

Definition no_table_envelope : PyDict :=
  [("error", PyStr "No table has been selected for this session")].

Definition error_envelope (user_query : string) (e : PyException) : PyDict :=
  [("user_query", PyStr user_query); ("error", PyStr (str e))].

Definition exhausted_envelope
  (user_query rephrased_query table original_query : string)
  (errors : list string) (final_query : string) : PyDict :=
  [("user_query", PyStr user_query);
   ("rephrased_query", PyStr rephrased_query);
   ("selected_table", PyStr table);
   ("original_sql_query", PyStr original_query);
   ("error_messages", PyList errors);
   ("final_sql_query", PyStr final_query);
   ("result", PyStr
      "All query correction attempts failed. Please try rephrasing your question.")].

Definition repaired_envelope
  (user_query rephrased_query table original_query : string)
  (errors : list string) (final_query result summary : string) : PyDict :=
  [("user_query", PyStr user_query);
   ("rephrased_query", PyStr rephrased_query);
   ("selected_table", PyStr table);
   ("original_sql_query", PyStr original_query);
   ("error_messages", PyList errors);
   ("final_sql_query", PyStr final_query);
   ("result", PyStr result);
   ("summary", PyStr summary)].

Definition direct_envelope
  (user_query rephrased_query table sql_query result summary : string)
  : PyDict :=
  [("user_query", PyStr user_query);
   ("rephrased_query", PyStr rephrased_query);
   ("selected_table", PyStr table);
   ("sql_query", PyStr sql_query);
   ("result", PyStr result);
   ("summary", PyStr summary)].

(** The first item of a content list that carries text, as the loop in
    [execute_query] finds it. *)
Fixpoint first_text_or_entry (items : list ContentItem) : option string :=
  match items with
  | [] => None
  | TextContent text :: _ => Some text
  | DictContent entries :: rest =>
      match dict_get "text" entries with
      | Some text => Some text
      | None => first_text_or_entry rest
      end
  | OtherContent :: rest => first_text_or_entry rest
  end.

(** The same for the loop in [get_table_schema], which only looks at the
    [text] attribute. *)
Fixpoint first_text (items : list ContentItem) : option string :=
  match items with
  | [] => None
  | TextContent text :: _ => Some text
  | _ :: rest => first_text rest
  end.

Section Methods.
Context {World : Type}.
Context {reasoning : ReasoningGateway World}.
Context {execution : ExecutionGateway World}.
(** [f"{tool_result}"] *)
Variable format_tool_result : ToolResult -> string.

Local Open Scope run_scope.
Import Run.
Local Abbreviation M := (@Run.M World).

Definition get_table_schema (table_name : string) : M (option string) :=
  call
    (fun w =>
       let (answer, w1) :=
         session_call_tool "get_table_schema"
           [("table_name", table_name)] w in
       (outcome_map
          (fun tool_result =>
             match content tool_result with
             | Some items => first_text items
             | None => None
             end) answer, w1))
    (EvGetSchema table_name).

Definition rephrase_query (user_query : string) : M string :=
  result <- call (classify user_query) (EvClassify user_query) ;;
  if String.eqb (query_type result) "wrong" then
    raise (Exception
      "Invalid or irrelevant query. Please ask a database-related question.")
  else
    ret (match queries result with
         | first :: _ => first
         | [] => user_query
         end).

Definition generate_sql (rephrased_query table_name table_schema : string)
  : M string :=
  answer <- call (generate rephrased_query table_name table_schema)
                 (EvGenerate rephrased_query table_name table_schema) ;;
  ret (PyStr.strip answer).

Definition retry_failed_query
  (error_message original_query table_name table_schema
   rephrased_query : string) : M string :=
  answer <- call (repair error_message original_query table_name
                         table_schema rephrased_query)
                 (EvRepair error_message original_query table_name
                           table_schema rephrased_query) ;;
  ret (PyStr.strip answer).

Definition execute_text (tool_result : ToolResult) : string :=
  match match content tool_result with
        | Some items => first_text_or_entry items
        | None => None
        end with
  | Some text => text
  | None =>
      "Query executed, but couldn't parse the result: "
        +++ format_tool_result tool_result
  end.

Definition execute_query (sql_query table_name : string) : M string :=
  call
    (fun w =>
       let (answer, w1) :=
         session_call_tool "execute_custom_query"
           [("query", sql_query); ("table_name", table_name)] w in
       (outcome_map execute_text answer, w1))
    (EvExecute sql_query table_name).

Definition summarize_results (user_query sql_output : string) : M string :=
  answer <- call (summarize user_query sql_output)
                 (EvSummarize user_query sql_output) ;;
  ret (PyStr.strip answer).

(** [result.split("Error executing custom query:")[1].strip()];
    the index raises [IndexError] when the list is too short. *)
Definition extract_error_message (result : string) : M string :=
  match nth_error (PyStr.split SENTINEL result) 1 with
  | Some piece => ret (PyStr.strip piece)
  | None => raise (Exception "list index out of range")
  end.

Section Loop.
Variables (user_query : string) (max_retries : Z).
Variables (table schema rephrased_query sql_query : string).

(** One pass through the body of the [while] loop. *)
Definition loop_body (st : LoopState) : M Step :=
  result <- execute_query (current_query st) table ;;
  if PyStr.contains SENTINEL result then
    error_message <- extract_error_message result ;;
    let errors := error_messages st ++ [error_message] in
    corrected_sql <- retry_failed_query error_message (current_query st)
                       table schema rephrased_query ;;
    let count := retry_count st + 1 in
    if count =? max_retries then
      final_result <- execute_query corrected_sql table ;;
      if PyStr.contains SENTINEL final_result then
        ret (Return (exhausted_envelope user_query rephrased_query table
                       sql_query errors corrected_sql))
      else
        summary <- summarize_results user_query final_result ;;
        ret (Return (repaired_envelope user_query rephrased_query table
                       sql_query errors corrected_sql final_result
                       summary))
    else
      ret (Continue {| current_query := corrected_sql;
                       retry_count := count;
                       error_messages := errors |})
  else
    summary <- summarize_results user_query result ;;
    if retry_count st =? 0 then
      ret (Return (direct_envelope user_query rephrased_query table
                     sql_query result summary))
    else
      ret (Return (repaired_envelope user_query rephrased_query table
                     sql_query (error_messages st) (current_query st)
                     result summary)).

(** [while retry_count < max_retries: ...]; leaving the loop by its
    condition reaches the end of the function, which returns [None]. *)
Fixpoint while_loop (fuel : nat) (st : LoopState) : M (option PyDict) :=
  if retry_count st <? max_retries then
    match fuel with
    | O => out_of_fuel
    | S fuel' =>
        step <- loop_body st ;;
        match step with
        | Continue st' => while_loop fuel' st'
        | Return envelope => ret (Some envelope)
        end
    end
  else ret None.
End Loop.

(** [process_query_for_selected_table], the loop being given [fuel]
    passes. *)
Definition process_with_fuel (fuel : nat) (self : Session)
  (user_query : string) (max_retries : Z) : M (option PyDict) :=
  try_except
    (match selected_table self, table_schema self with
     | Some table, Some schema =>
         rephrased_query <- rephrase_query user_query ;;
         sql_query <- generate_sql rephrased_query table schema ;;
         while_loop user_query max_retries table schema rephrased_query
           sql_query fuel
           {| current_query := sql_query;
              retry_count := 0;
              error_messages := [] |}
     | _, _ => ret (Some no_table_envelope)
     end)
    (fun e => Some (error_envelope user_query e)).

(** The loop makes at most [max_retries] passes. *)
Definition process_query_for_selected_table (self : Session)
  (user_query : string) (max_retries : Z) : M (option PyDict) :=
  process_with_fuel (Z.to_nat max_retries) self user_query max_retries.

End Methods.
End Client.

(** ** [api/clickhouse_server.py]: the tool handler [call_tool] *)

(** A JSON document as the handler builds it before [json.dumps]. *)
#[local] Unset Elimination Schemes.
Inductive Json : Type :=
| JString (s : string)
| JArray (items : list Json)
| JObject (members : list (string * Json)).
#[local] Set Elimination Schemes.

(** What [client.query] returns: the rows and the column names.  A cell is
    written as text; whether [json.dumps] accepts the value behind it is
    told by [Server.dumps_error]. *)
Record QueryResult : Type := {
  result_set : list (list string);
  column_names : list string
}.

Module Server.
Section Handler.
(** [client.query(query)] of the database driver. *)
Variable client_query : string -> outcome QueryResult.
(** [json.dumps(value, indent=2)] *)
Variable json_dumps : Json -> string.
(** The [IndexError] of the driver's row type. *)
Variable index_error : PyException.
(** The [TypeError] that [json.dumps(result_json, indent=2)] raises when a
    cell of the rows is of a type it cannot serialise (a date, a decimal,
    a UUID), if it does; [json_dumps] is its text otherwise. *)
Variable dumps_error : Json -> option PyException.

(** [row[i]] *)
Definition index (row : list string) (i : nat) : outcome string :=
  match nth_error row i with
  | Some cell => Ok cell
  | None => Raise index_error
  end.

(** The loop filling [schema_json[table_name]["row_data"]]. *)
Fixpoint fill_row_data (rows : list (list string))
  (row_data : list (string * Json)) : outcome (list (string * Json)) :=
  match rows with
  | [] => Ok row_data
  | row :: rest =>
      match index row 0 with
      | Raise e => Raise e
      | Ok column_name =>
          match index row 1 with
          | Raise e => Raise e
          | Ok data_type =>
              fill_row_data rest
                (dict_set column_name
                   (JObject [("type", JString data_type)]) row_data)
          end
      end
  end.

(** The body of the [try] of the [get_table_schema] branch: the text of
    the answer, or the exception the [except] clause receives. *)
Definition describe_table (table_name : string) : outcome string :=
  match client_query ("DESCRIBE TABLE " +++ table_name) with
  | Raise e => Raise e
  | Ok result =>
      match result_set result with
      | [] => Ok ("Table " +++ table_name +++ " not found or has no columns.")
      | rows =>
          match fill_row_data rows [] with
          | Raise e => Raise e
          | Ok row_data =>
              Ok (json_dumps
                    (JObject
                       [(table_name,
                         JObject [("row_data", JObject row_data)])]))
          end
      end
  end.

(** [dict(zip(result.column_names, row))] *)
Definition row_object (names row : list string) : Json :=
  JObject
    (fold_left (fun members kv => dict_set (fst kv) (JString (snd kv)) members)
       (combine names row) []).

(** [result_json] of the [execute_custom_query] branch. *)
Definition result_json (result : QueryResult) : Json :=
  JObject
    [("columns",
      JArray
        (map (fun col =>
                JObject [("name", JString col); ("type", JString "unknown")])
           (column_names result)));
     ("rows",
      JArray (map (row_object (column_names result)) (result_set result)))].

(** The body of the [try] of the [execute_custom_query] branch. *)
Definition run_query (query : string) : outcome string :=
  match client_query query with
  | Raise e => Raise e
  | Ok result =>
      match result_set result with
      | [] => Ok "Query executed successfully, but returned no data."
      | _ :: _ =>
          match dumps_error (result_json result) with
          | Some e => Raise e
          | None =>
              Ok ("Query executed successfully:" +++ String "010"
                    (String "010" (json_dumps (result_json result))))
          end
      end
  end.

(** [call_tool(name, arguments)]; a missing required argument raises
    [KeyError] before the [try]. *)
Definition call_tool (name : string) (arguments : list (string * string))
  : outcome (list ContentItem) :=
  if String.eqb name "get_table_schema" then
    match dict_get "table_name" arguments with
    | None => Raise (Exception "'table_name'")
    | Some table_name =>
        match describe_table table_name with
        | Ok text => Ok [TextContent text]
        | Raise e =>
            Ok [TextContent
                  ("Error retrieving schema for table " +++ table_name
                     +++ ": " +++ str e)]
        end
    end
  else if String.eqb name "execute_custom_query" then
    match dict_get "query" arguments with
    | None => Raise (Exception "'query'")
    | Some query =>
        match run_query query with
        | Ok text => Ok [TextContent text]
        | Raise e =>
            Ok [TextContent ("Error executing custom query: " +++ str e)]
        end
    end
  else Raise (Exception ("Tool not found: " +++ name)).

(** The session a client gets when the transport hands over the content
    list of the handler as it is; the database is outside the world. *)
Definition served : ExecutionGateway unit :=
  {| session_call_tool := fun name arguments w =>
       (outcome_map (fun items => {| content := Some items |})
          (call_tool name arguments), w) |}.
End Handler.
End Server.

(** ** [api/main.py]: the endpoint [select_table] *)

(** [HTTPException(status_code, detail)] *)
Record HTTPException : Type := { status_code : Z; detail : string }.

Module Main.
Section Endpoints.
Context {World : Type}.
Context {execution : ExecutionGateway World}.
(** [str(e)] for an [HTTPException]. *)
Variable str_http : HTTPException -> string.

Local Open Scope run_scope.
Import Run.

(** [select_table(table_name)] on the module's [client]: the response
    or the [HTTPException] that leaves the endpoint, and the client's
    attributes afterwards.  The [HTTPException] with status 404 is
    raised inside the [try] whose [except Exception] clause wraps every
    exception into one with status 500. *)
Definition select_table (table_name : string) (client : Session)
  : @M World ((HTTPException + PyDict) * Session) :=
  try_except
    (answer <- Client.get_table_schema table_name ;;
     match answer with
     | Some (String _ _ as schema) =>
         ret (inr [("message",
                    PyStr ("Table '" +++ table_name
                             +++ "' selected successfully."));
                   ("schema", PyStr schema)],
              {| selected_table := Some table_name;
                 table_schema := Some schema |})
     | _ =>
         ret (inl {| status_code := 500;
                     detail := "Error selecting table: "
                       +++ str_http
                             {| status_code := 404;
                                detail := "Schema for table '"
                                  +++ table_name +++ "' not found." |} |},
              client)
     end)
    (fun e =>
       (inl {| status_code := 500;
               detail := "Error selecting table: " +++ str e |}, client)).
End Endpoints.
End Main.

(** ** Test doubles for the two services *)

Module Stub.

(** A chat service that gives the same four answers whatever it is asked. *)
Definition reasoning {World : Type} (verdict : outcome Verdict)
  (sql corrected summary : outcome string) : ReasoningGateway World :=
  {| classify := fun _ w => (verdict, w);
     generate := fun _ _ _ w => (sql, w);
     repair := fun _ _ _ _ _ w => (corrected, w);
     summarize := fun _ _ w => (summary, w) |}.

Definition text_result (text : string) : outcome ToolResult :=
  Ok {| content := Some [TextContent text] |}.

(** A tool session that plays a script: the world counts the calls made, the
    n-th call gets the n-th answer, and calls beyond the script get [last]. *)
Definition execution (script : list (outcome ToolResult))
  (last : outcome ToolResult) : ExecutionGateway nat :=
  {| session_call_tool := fun _ _ n => (nth n script last, S n) |}.

Definition valid (candidates : list string) : outcome Verdict :=
  Ok {| query_type := "valid"; queries := candidates |}.

Definition format_tool_result (_ : ToolResult) : string := "<tool result>".

(** A chat service that accepts every question and answers every request
    for SQL, first or corrected, with the same statement. *)
Definition stubborn : ReasoningGateway nat :=
  reasoning (valid ["total revenue last week"])
    (Ok "SELECT SUM(total) FROM orders WHERE")
    (Ok "SELECT SUM(total) FROM orders WHERE")
    (Ok "Total revenue was 1000.").

(** A tool session in which every statement fails. *)
Definition always_failing : ExecutionGateway nat :=
  execution []
    (text_result "Error executing custom query: Syntax error near WHERE").

(** A chat service whose summarisation request fails. *)
Definition unsummarizing : ReasoningGateway nat :=
  reasoning (valid ["total revenue last week"])
    (Ok "SELECT SUM(total) FROM orders")
    (Ok "SELECT SUM(total) FROM orders")
    (Raise (Exception "Request timed out.")).

(** A tool session in which every statement gives rows. *)
Definition always_rows : ExecutionGateway nat :=
  execution [] (text_result "Query executed successfully: [{total: 1000}]").

(** A database in which [DESCRIBE TABLE] gives no row for any table. *)
Definition no_columns (query : string) : outcome QueryResult :=
  Ok {| result_set := []; column_names := ["name"; "type"] |}.

(** A database that rejects every statement with the same exception. *)
Definition rejecting (e : PyException) (query : string)
  : outcome QueryResult := Raise e.

(** A tool session in which the first statement fails and the later ones
    give rows. *)
Definition failing_once : ExecutionGateway nat :=
  execution
    [text_result "Error executing custom query: Unknown column revenue"]
    (text_result "Query executed successfully: [{total: 1000}]").

Definition chosen : Session :=
  {| selected_table := Some "orders";
     table_schema := Some "{id: Int, total: Float}" |}.

Definition unset : Session :=
  {| selected_table := None; table_schema := None |}.

End Stub.

(** ** Reading a call log and an envelope *)

Module Log.

Definition is_execution (ev : Event) : bool :=
  match ev with EvExecute _ _ _ => true | _ => false end.

Definition is_repair (ev : Event) : bool :=
  match ev with EvRepair _ _ _ _ _ _ => true | _ => false end.

(** An execution that answered with a text holding the sentinel. *)
Definition is_failed_execution (ev : Event) : bool :=
  match ev with
  | EvExecute _ _ (Ok text) => PyStr.contains SENTINEL text
  | _ => false
  end.

(** An execution that answered with a text free of the sentinel. *)
Definition is_rows (ev : Event) : bool :=
  match ev with
  | EvExecute _ _ (Ok text) => negb (PyStr.contains SENTINEL text)
  | _ => false
  end.

(** A summarisation call that answered. *)
Definition is_summary (ev : Event) : bool :=
  match ev with EvSummarize _ _ (Ok _) => true | _ => false end.

Definition count (p : Event -> bool) (log : list Event) : nat :=
  List.length (filter p log).

Definition executions : list Event -> nat := count is_execution.
Definition repairs : list Event -> nat := count is_repair.
Definition failed_executions : list Event -> nat := count is_failed_execution.

End Log.

(** [key in result] for what the function returned, [None] included. *)
Definition carries (key : string) (result : option PyDict) : bool :=
  match result with
  | Some envelope => has_key key envelope
  | None => false
  end.

(** The message the loop takes out of a failed answer. *)
Definition error_message_of (result : string) : string :=
  PyStr.strip (nth 1 (PyStr.split SENTINEL result) EmptyString).

(** The rephrased query chosen from a verdict. *)
Definition chosen_rephrasing (user_query : string) (verdict : Verdict) : string :=
  match queries verdict with
  | first :: _ => first
  | [] => user_query
  end.

Definition result_of {A : Type} (o : outcome A) : Result A :=
  match o with Ok a => Returned a | Raise e => Raised e end.

Definition REJECTED : PyException :=
  Exception "Invalid or irrelevant query. Please ask a database-related question.".

(** *** The runs of the retry loop

    [LoopRun st log o]: started at the loop test with variables [st], the
    loop makes the calls [log] and ends in [o] (a returned value, [None] when
    the loop is left by its test, or an exception on its way to the handler). *)
Section Runs.
Variables (user_query : string) (max_retries : Z).
Variables (table schema rephrased_query sql_query : string).

Inductive LoopRun : LoopState -> list Event -> outcome (option PyDict) -> Prop :=
| run_exit st :
    max_retries <= retry_count st ->
    LoopRun st [] (Ok None)
| run_execute_raises st e :
    retry_count st < max_retries ->
    LoopRun st [EvExecute (current_query st) table (Raise e)] (Raise e)
| run_rows st result summary :
    retry_count st < max_retries ->
    PyStr.contains SENTINEL result = false ->
    LoopRun st
      [EvExecute (current_query st) table (Ok result);
       EvSummarize user_query result (Ok summary)]
      (Ok (Some
         (if retry_count st =? 0 then
            Client.direct_envelope user_query rephrased_query table sql_query
              result (PyStr.strip summary)
          else
            Client.repaired_envelope user_query rephrased_query table
              sql_query (error_messages st) (current_query st) result
              (PyStr.strip summary))))
| run_rows_unsummarized st result e :
    retry_count st < max_retries ->
    PyStr.contains SENTINEL result = false ->
    LoopRun st
      [EvExecute (current_query st) table (Ok result);
       EvSummarize user_query result (Raise e)]
      (Raise e)
| run_repair_raises st result e :
    retry_count st < max_retries ->
    PyStr.contains SENTINEL result = true ->
    LoopRun st
      [EvExecute (current_query st) table (Ok result);
       EvRepair (error_message_of result) (current_query st) table schema
         rephrased_query (Raise e)]
      (Raise e)
| run_retry st result corrected log o :
    retry_count st < max_retries ->
    PyStr.contains SENTINEL result = true ->
    retry_count st + 1 <> max_retries ->
    LoopRun {| current_query := PyStr.strip corrected;
               retry_count := retry_count st + 1;
               error_messages :=
                 error_messages st ++ [error_message_of result] |} log o ->
    LoopRun st
      (EvExecute (current_query st) table (Ok result)
         :: EvRepair (error_message_of result) (current_query st) table schema
              rephrased_query (Ok corrected)
         :: log) o
| run_last_raises st result corrected e :
    retry_count st < max_retries ->
    PyStr.contains SENTINEL result = true ->
    retry_count st + 1 = max_retries ->
    LoopRun st
      [EvExecute (current_query st) table (Ok result);
       EvRepair (error_message_of result) (current_query st) table schema
         rephrased_query (Ok corrected);
       EvExecute (PyStr.strip corrected) table (Raise e)]
      (Raise e)
| run_exhausted st result corrected final :
    retry_count st < max_retries ->
    PyStr.contains SENTINEL result = true ->
    retry_count st + 1 = max_retries ->
    PyStr.contains SENTINEL final = true ->
    LoopRun st
      [EvExecute (current_query st) table (Ok result);
       EvRepair (error_message_of result) (current_query st) table schema
         rephrased_query (Ok corrected);
       EvExecute (PyStr.strip corrected) table (Ok final)]
      (Ok (Some
         (Client.exhausted_envelope user_query rephrased_query table sql_query
            (error_messages st ++ [error_message_of result])
            (PyStr.strip corrected))))
| run_last_rows st result corrected final summary :
    retry_count st < max_retries ->
    PyStr.contains SENTINEL result = true ->
    retry_count st + 1 = max_retries ->
    PyStr.contains SENTINEL final = false ->
    LoopRun st
      [EvExecute (current_query st) table (Ok result);
       EvRepair (error_message_of result) (current_query st) table schema
         rephrased_query (Ok corrected);
       EvExecute (PyStr.strip corrected) table (Ok final);
       EvSummarize user_query final (Ok summary)]
      (Ok (Some
         (Client.repaired_envelope user_query rephrased_query table sql_query
            (error_messages st ++ [error_message_of result])
            (PyStr.strip corrected) final (PyStr.strip summary))))
| run_last_unsummarized st result corrected final e :
    retry_count st < max_retries ->
    PyStr.contains SENTINEL result = true ->
    retry_count st + 1 = max_retries ->
    PyStr.contains SENTINEL final = false ->
    LoopRun st
      [EvExecute (current_query st) table (Ok result);
       EvRepair (error_message_of result) (current_query st) table schema
         rephrased_query (Ok corrected);
       EvExecute (PyStr.strip corrected) table (Ok final);
       EvSummarize user_query final (Raise e)]
      (Raise e).
End Runs.

(** What leaves the function once the handler has seen the loop's end. *)
Definition finish (user_query : string) (o : outcome (option PyDict))
  : option PyDict :=
  match o with
  | Ok result => result
  | Raise e => Some (Client.error_envelope user_query e)
  end.

(** *** The runs of [process_query_for_selected_table] *)
Inductive ProcessRun (self : Session) (user_query : string) (max_retries : Z)
  : list Event -> option PyDict -> Prop :=
| process_no_table :
    selected_table self = None \/ table_schema self = None ->
    ProcessRun self user_query max_retries []
      (Some Client.no_table_envelope)
| process_classify_raises table schema e :
    selected_table self = Some table ->
    table_schema self = Some schema ->
    ProcessRun self user_query max_retries
      [EvClassify user_query (Raise e)]
      (Some (Client.error_envelope user_query e))
| process_rejected table schema verdict :
    selected_table self = Some table ->
    table_schema self = Some schema ->
    query_type verdict = "wrong" ->
    ProcessRun self user_query max_retries
      [EvClassify user_query (Ok verdict)]
      (Some (Client.error_envelope user_query REJECTED))
| process_generate_raises table schema verdict e :
    selected_table self = Some table ->
    table_schema self = Some schema ->
    query_type verdict <> "wrong" ->
    ProcessRun self user_query max_retries
      [EvClassify user_query (Ok verdict);
       EvGenerate (chosen_rephrasing user_query verdict) table schema
         (Raise e)]
      (Some (Client.error_envelope user_query e))
| process_loop table schema verdict sql log o :
    selected_table self = Some table ->
    table_schema self = Some schema ->
    query_type verdict <> "wrong" ->
    LoopRun user_query max_retries table schema
      (chosen_rephrasing user_query verdict) (PyStr.strip sql)
      {| current_query := PyStr.strip sql;
         retry_count := 0;
         error_messages := [] |} log o ->
    ProcessRun self user_query max_retries
      (EvClassify user_query (Ok verdict)
         :: EvGenerate (chosen_rephrasing user_query verdict) table schema
              (Ok sql)
         :: log)
      (finish user_query o).

(** *** The envelopes by kind *)

(** [{user_query, error}] *)
Inductive ErrorEnvelope (user_query : string) : PyDict -> Prop :=
| is_error_envelope e :
    ErrorEnvelope user_query (Client.error_envelope user_query e).

(** The envelope of a run that used up its retries. *)
Inductive FailureEnvelope (user_query : string) : PyDict -> Prop :=
| is_exhausted_envelope rephrased table original errors final :
    FailureEnvelope user_query
      (Client.exhausted_envelope user_query rephrased table original errors
         final).

(** The two envelopes that carry rows and a summary. *)
Inductive SuccessEnvelope (user_query : string) : PyDict -> Prop :=
| is_direct_envelope rephrased table sql result summary :
    SuccessEnvelope user_query
      (Client.direct_envelope user_query rephrased table sql result summary)
| is_repaired_envelope rephrased table original errors final result summary :
    SuccessEnvelope user_query
      (Client.repaired_envelope user_query rephrased table original errors
         final result summary).

(** A repair call in a log is driven by a failed execution when the call
    just before it is the execution of the query under repair, its answer
    holds the sentinel, and the message sent for repair is taken from it. *)
Definition repair_driven_by_failure (log : list Event) : Prop :=
  forall before message query table schema rephrased answer after,
    log = before
            ++ EvRepair message query table schema rephrased answer :: after ->
    exists earlier text,
      before = earlier ++ [EvExecute query table (Ok text)]
      /\ PyStr.contains SENTINEL text = true
      /\ message = error_message_of text.

(** An execution whose answer holds the sentinel is treated as failed: it is
    the last call of the run, or the very next call is the repair of its
    query with the message taken from it. *)
Definition failure_drives_repair (log : list Event) : Prop :=
  forall before query table text after,
    log = before ++ EvExecute query table (Ok text) :: after ->
    PyStr.contains SENTINEL text = true ->
    after = []
    \/ exists schema rephrased answer rest,
         after = EvRepair (error_message_of text) query table schema rephrased
                   answer :: rest.

(** A summarisation call that raised. *)
Definition summary_raised (ev : Event) : bool :=
  match ev with EvSummarize _ _ (Raise _) => true | _ => false end.

(** An execution whose answer is free of the sentinel is treated as
    successful: the very next call is the summarisation of that answer for
    the raw user query, nothing follows it, and the value returned shows the
    answer as [result] together with the stripped summary, or is
    [{user_query, error}] when the summarisation raised. *)
Definition success_drives_summary (user_query : string)
  (value : option PyDict) (log : list Event) : Prop :=
  forall before query table text after,
    log = before ++ EvExecute query table (Ok text) :: after ->
    PyStr.contains SENTINEL text = false ->
    exists answer,
      after = [EvSummarize user_query text answer]
      /\ match answer with
         | Ok summary =>
             exists envelope,
               value = Some envelope
               /\ dict_get "result" envelope = Some (PyStr text)
               /\ dict_get "summary" envelope
                  = Some (PyStr (PyStr.strip summary))
               /\ has_key "error" envelope = false
         | Raise e =>
             value
             = Some [("user_query", PyStr user_query);
                     ("error", PyStr (str e))]
         end.

(** When the call that ends a run is an execution whose answer holds the
    sentinel, the value returned reports the failure: its [result] is the
    fixed text of exhausted retries, its [final_sql_query] is the statement
    of that execution, and it has neither [summary] nor [error]. *)
Definition last_failure_is_reported (value : option PyDict)
  (log : list Event) : Prop :=
  forall before query table text,
    log = before ++ [EvExecute query table (Ok text)] ->
    PyStr.contains SENTINEL text = true ->
    exists envelope,
      value = Some envelope
      /\ dict_get "result" envelope
         = Some (PyStr
             "All query correction attempts failed. Please try rephrasing your question.")
      /\ dict_get "final_sql_query" envelope = Some (PyStr query)
      /\ has_key "summary" envelope = false
      /\ has_key "error" envelope = false.

(** The envelope of exhausted retries is returned only by a run whose last
    call is an execution whose answer holds the sentinel. *)
Definition failure_reported_after_failure (user_query : string)
  (value : option PyDict) (log : list Event) : Prop :=
  forall envelope,
    value = Some envelope ->
    FailureEnvelope user_query envelope ->
    exists before query table text,
      log = before ++ [EvExecute query table (Ok text)]
      /\ PyStr.contains SENTINEL text = true.

(** * The rest of the three files *)

(** ** [api/clickhouse_server.py]: resources and the list of tools *)

Module Explorer.

(** [types.Resource(uri=..., name=..., description=..., mime_type=...)] *)
Record Resource : Type := {
  uri : string;
  name : string;
  description : string;
  mime_type : string
}.

(** [types.Tool]: the name, the description, and from [inputSchema] the
    properties (name, type, description) and the [required] names. *)
Record Tool : Type := {
  tool_name : string;
  tool_description : string;
  properties : list (string * (string * string));
  required : list string
}.

Definition URI_PREFIX : string := "clickhouse:table:".

(** The resource appended for one table name; [any_url] is the text of the
    [uri] field, which [types.Resource] validates as a URL and keeps in
    the URL's normal form. *)
Definition resource_of (any_url : string -> string) (table_name : string)
  : Resource :=
  {| uri := any_url (URI_PREFIX +++ table_name);
     name := table_name;
     description := "ClickHouse table: " +++ table_name;
     mime_type := "application/x-clickhouse-table" |}.

(** [list_tools()] *)
Definition list_tools : list Tool :=
  [{| tool_name := "get_table_schema";
      tool_description :=
        "Retrieve the schema (column definitions) for a specific ClickHouse table";
      properties :=
        [("table_name", ("string", "Name of the table to get schema for"))];
      required := ["table_name"] |};
   {| tool_name := "execute_custom_query";
      tool_description := "Execute a custom SQL query on ClickHouse database";
      properties :=
        [("query", ("string", "Custom SQL query to execute"));
         ("table_name", ("string", "Name of the table being queried"))];
      required := ["query"] |}].

Section Handlers.
(** [client.query(query)] of the database driver. *)
Variable client_query : string -> outcome QueryResult.
(** [json.dumps(value, indent=2)] *)
Variable json_dumps : Json -> string.
(** The [IndexError] of the driver's row type. *)
Variable index_error : PyException.
(** [pd.DataFrame(rows, columns=names).to_string()] *)
Variable frame_to_string : list (list string) -> list string -> outcome string.
(** [str(AnyUrl(text))]: the text of a [uri] after its validation. *)
Variable any_url : string -> string.

(** The loop of [list_resources] over the rows of [SHOW TABLES]. *)
Fixpoint collect_resources (rows : list (list string))
  (resources : list Resource) : outcome (list Resource) :=
  match rows with
  | [] => Ok resources
  | row :: rest =>
      match Server.index index_error row 0 with
      | Raise e => Raise e
      | Ok table_name =>
          collect_resources rest
            (resources ++ [resource_of any_url table_name])
      end
  end.

(** [list_resources()]: any exception is logged and answered with [[]]. *)
Definition list_resources : list Resource :=
  match client_query "SHOW TABLES" with
  | Raise _ => []
  | Ok result =>
      match collect_resources (result_set result) [] with
      | Ok resources => resources
      | Raise _ => []
      end
  end.

(** The text added for the sample rows; the inner [try] of [read_resource]
    gives up on any exception. *)
Definition sample_text (table_name : string) : option string :=
  match client_query ("SELECT * FROM " +++ table_name +++ " LIMIT 5") with
  | Raise _ => None
  | Ok sample =>
      match result_set sample with
      | [] => None
      | _ :: _ =>
          match frame_to_string (result_set sample) (column_names sample) with
          | Raise _ => None
          | Ok frame =>
              Some (String "010" (String "010"
                      ("Sample data (first 5 rows):"
                         +++ String "010" (String "010" frame))))
          end
      end
  end.

(** The body of the outer [try] of [read_resource]. *)
Definition read_table (uri : string) : outcome (list ContentItem) :=
  if String.prefix URI_PREFIX uri then
    match nth_error (PyStr.split URI_PREFIX uri) 1 with
    | None => Raise (Exception "list index out of range")
    | Some table_name =>
        match client_query ("DESCRIBE TABLE " +++ table_name) with
        | Raise e => Raise e
        | Ok result =>
            match result_set result with
            | [] =>
                Ok [TextContent
                      ("Table " +++ table_name
                         +++ " not found or has no columns.")]
            | _ :: _ =>
                match Server.fill_row_data index_error (result_set result) []
                with
                | Raise e => Raise e
                | Ok row_data =>
                    let schema_text :=
                      json_dumps
                        (JObject
                           [(table_name,
                             JObject [("row_data", JObject row_data)])]) in
                    match sample_text table_name with
                    | Some sample =>
                        Ok [TextContent schema_text; TextContent sample]
                    | None => Ok [TextContent schema_text]
                    end
                end
            end
        end
    end
  else Ok [TextContent ("Unknown resource URI format: " +++ uri)].

(** [read_resource(uri)] *)
Definition read_resource (uri : string) : list ContentItem :=
  match read_table uri with
  | Ok items => items
  | Raise e =>
      [TextContent ("Error reading resource " +++ uri +++ ": " +++ str e)]
  end.

End Handlers.
End Explorer.

(** The MCP session: [session.list_resources()], including opening and
    initialising the session; the answer's [resources]. *)
Class ResourceGateway (World : Type) : Type := {
  session_list_resources : World -> outcome (list Explorer.Resource) * World
}.

(** The resource side of the session served by the handlers above. *)
Definition served_resources (client_query : string -> outcome QueryResult)
  (index_error : PyException) (any_url : string -> string)
  : ResourceGateway unit :=
  {| session_list_resources := fun w =>
       (Ok (Explorer.list_resources client_query index_error any_url), w) |}.

(** ** [api/clickhouse_client.py]: [list_tables] and the display of [main] *)

Module Tables.

(** [list_tables()]: the names of the resources. *)
Definition list_tables {World : Type} {resources : ResourceGateway World}
  (w : World) : outcome (list string) * World :=
  let (answer, w1) := session_list_resources w in
  (outcome_map (map Explorer.name) answer, w1).

End Tables.

Module Cli.

(** What the display has printed, one text per [print], and the exception
    that ended it, if any. *)
Definition Printed : Type := list string * option PyException.

Definition print (line : string) : Printed := ([line], None).

Definition fails (e : PyException) : Printed := ([], Some e).

(** Sequencing: what follows an exception is not printed. *)
Definition followed_by (first second : Printed) : Printed :=
  match first with
  | (lines, Some e) => (lines, Some e)
  | (lines, None) => (lines ++ fst second, snd second)
  end.

(** [i + 1] in decimal. *)
Definition attempt_number (i : nat) : string :=
  NilZero.string_of_uint (Nat.to_uint (S i)).

Section Display.
(** [str(value)] for a list. *)
Variable format_list : list string -> string.

(** [str(value)] *)
Definition text_of (value : PyValue) : string :=
  match value with
  | PyStr s => s
  | PyList items => format_list items
  end.

(** What a [for] loop over the value goes through. *)
Definition items_of (value : PyValue) : list string :=
  match value with
  | PyList items => items
  | PyStr s => map (fun c => String c EmptyString) (list_ascii_of_string s)
  end.

(** [print(prefix + str(result[key]))], raising [KeyError] on a missing
    key. *)
Definition print_field (prefix key : string) (result : PyDict) : Printed :=
  match dict_get key result with
  | Some value => print (prefix +++ text_of value)
  | None => fails (Exception ("'" +++ key +++ "'"))
  end.

Fixpoint print_attempts (i : nat) (errors : list string) : Printed :=
  match errors with
  | [] => ([], None)
  | error :: rest =>
      followed_by
        (print ("Attempt " +++ attempt_number i +++ ": " +++ error))
        (print_attempts (S i) rest)
  end.

Definition NL : string := String "010" EmptyString.

(** The display of one result in the loop of [main]. *)
Definition display (result : option PyDict) : Printed :=
  match result with
  | None => fails (Exception "argument of type 'NoneType' is not iterable")
  | Some envelope =>
      if has_key "error" envelope then
        print_field (NL +++ "Error: ") "error" envelope
      else
        followed_by (print (NL +++ "Rephrased Query:"))
       (followed_by (print_field EmptyString "rephrased_query" envelope)
       (followed_by
          (if has_key "original_sql_query" envelope
              && has_key "final_sql_query" envelope
           then
             followed_by (print (NL +++ "Original SQL Query (Failed):"))
            (followed_by (print_field EmptyString "original_sql_query" envelope)
            (followed_by (print (NL +++ "Error Messages:"))
            (followed_by
               (match dict_get "error_messages" envelope with
                | Some errors => print_attempts 0 (items_of errors)
                | None => fails (Exception "'error_messages'")
                end)
            (followed_by (print (NL +++ "Final SQL Query:"))
               (print_field EmptyString "final_sql_query" envelope)))))
           else
             followed_by (print (NL +++ "SQL Query:"))
               (print_field EmptyString "sql_query" envelope))
       (followed_by (print (NL +++ "Result:"))
       (followed_by (print_field EmptyString "result" envelope)
          (if has_key "summary" envelope then
             followed_by (print (NL +++ "Summary:"))
               (print_field EmptyString "summary" envelope)
           else ([], None))))))
  end.

End Display.
End Cli.

(** ** [api/main.py]: the endpoints [list_tables] and [execute_query] *)

(** [s.split(sep, 1)] *)
Definition split_once (sep s : string) : list string :=
  match PyStr.partition sep s with
  | Some (before, after) => [before; after]
  | None => [s]
  end.

(** The answer of [/query]: [{"sql_query": ..., "result": rows}]; the
    [sql_query] is [None] when the envelope has neither key. *)
Record QueryResponse : Type := {
  response_sql : option PyValue;
  response_rows : Json
}.

(** What is raised inside the [try] of an endpoint: an [HTTPException] or
    any other exception.  Both are instances of [Exception]. *)
Inductive Thrown : Type :=
| ThrownHttp (e : HTTPException)
| ThrownOther (e : PyException).

Module Api.
Section Endpoints.
Context {World : Type}.
Context {reasoning : ReasoningGateway World}.
Context {execution : ExecutionGateway World}.
Context {resources : ResourceGateway World}.
(** [f"{tool_result}"] *)
Variable format_tool_result : ToolResult -> string.
(** [str(e)] for an [HTTPException]. *)
Variable str_http : HTTPException -> string.
(** [str(value)] for a list. *)
Variable format_list : list string -> string.
(** [json.loads(text)] *)
Variable json_loads : string -> outcome Json.

Local Open Scope run_scope.
Import Run.

Definition str_thrown (t : Thrown) : string :=
  match t with
  | ThrownHttp e => str_http e
  | ThrownOther e => str e
  end.

(** [GET /tables]: the names, or the exception wrapped with status 500. *)
Definition list_tables (w : World) : (HTTPException + list string) * World :=
  match Tables.list_tables w with
  | (Ok tables, w1) => (inr tables, w1)
  | (Raise e, w1) =>
      (inl {| status_code := 500;
              detail := "Error fetching tables: " +++ str e |}, w1)
  end.

(** [result_json.get("rows", [])] *)
Definition rows_of (value : Json) : Thrown + Json :=
  match value with
  | JObject members =>
      inr (match dict_get "rows" members with
           | Some rows => rows
           | None => JArray []
           end)
  | JArray _ =>
      inl (ThrownOther (Exception "'list' object has no attribute 'get'"))
  | JString _ =>
      inl (ThrownOther (Exception "'str' object has no attribute 'get'"))
  end.

(** [result["result"].split("\n\n", 1)[1]] *)
Definition payload_of (envelope : PyDict) : Thrown + string :=
  match dict_get "result" envelope with
  | None => inl (ThrownOther (Exception "'result'"))
  | Some (PyList _) =>
      inl (ThrownOther (Exception "'list' object has no attribute 'split'"))
  | Some (PyStr text) =>
      match nth_error (split_once (String "010" (String "010" EmptyString)) text) 1
      with
      | Some payload => inr payload
      | None => inl (ThrownOther (Exception "list index out of range"))
      end
  end.

(** The part of [execute_query] after the call of the client: what is
    raised inside the [try], or the answer. *)
Definition answer_of (result : option PyDict) : Thrown + QueryResponse :=
  match result with
  | None =>
      inl (ThrownOther (Exception "argument of type 'NoneType' is not iterable"))
  | Some envelope =>
      if has_key "error" envelope then
        inl (ThrownHttp
               {| status_code := 400;
                  detail := match dict_get "error" envelope with
                            | Some value => Cli.text_of format_list value
                            | None => EmptyString
                            end |})
      else
        match payload_of envelope with
        | inl t => inl t
        | inr payload =>
            match json_loads payload with
            | Raise e => inl (ThrownOther e)
            | Ok value =>
                match rows_of value with
                | inl t => inl t
                | inr rows =>
                    inr {| response_sql :=
                             match dict_get "sql_query" envelope with
                             | Some sql => Some sql
                             | None => dict_get "final_sql_query" envelope
                             end;
                           response_rows := rows |}
                end
            end
        end
  end.

(** [except Exception as e: raise HTTPException(500, ...)] *)
Definition wrap (t : Thrown) : HTTPException :=
  {| status_code := 500;
     detail := "Error processing query: " +++ str_thrown t |}.

(** [POST /query] on the module's [client]. *)
Definition execute_query (client : Session) (user_query : string)
  : @M World (HTTPException + QueryResponse) :=
  match selected_table client, table_schema client with
  | Some _, Some _ =>
      try_except
        (result <- Client.process_query_for_selected_table format_tool_result
                     client user_query default_max_retries ;;
         ret (match answer_of result with
              | inl t => inl (wrap t)
              | inr response => inr response
              end))
        (fun e => inl (wrap (ThrownOther e)))
  | _, _ =>
      ret (inl (wrap (ThrownHttp
                        {| status_code := 400;
                           detail :=
                             "No table has been selected for this session." |})))
  end.

End Endpoints.
End Api.

(** ** Reading a call log, continued *)

Module Trace.

(** The exception a logged call raised, if it raised. *)
Definition raised_by (ev : Event) : option PyException :=
  match ev with
  | EvClassify _ (Raise e)
  | EvGenerate _ _ _ (Raise e)
  | EvRepair _ _ _ _ _ (Raise e)
  | EvSummarize _ _ (Raise e)
  | EvExecute _ _ (Raise e)
  | EvGetSchema _ (Raise e) => Some e
  | _ => None
  end.

(** The messages sent with the repair calls, in call order. *)
Fixpoint repair_messages (log : list Event) : list string :=
  match log with
  | [] => []
  | EvRepair message _ _ _ _ _ :: rest => message :: repair_messages rest
  | _ :: rest => repair_messages rest
  end.

(** The statement and the answer of the last execution call. *)
Fixpoint last_execution (log : list Event) : option (string * outcome string) :=
  match log with
  | [] => None
  | EvExecute query _ answer :: rest =>
      match last_execution rest with
      | Some later => Some later
      | None => Some (query, answer)
      end
  | _ :: rest => last_execution rest
  end.

(** The SQL text a call hands to the next execution: the stripped answer of
    a generation or of a repair. *)
Definition sql_given (ev : Event) : option string :=
  match ev with
  | EvGenerate _ _ _ (Ok answer) => Some (PyStr.strip answer)
  | EvRepair _ _ _ _ _ (Ok answer) => Some (PyStr.strip answer)
  | _ => None
  end.

End Trace.

(** Every execution in a log runs, on [table], the statement given by the
    call just before it. *)
Definition executes_what_was_given (table : string) (log : list Event) : Prop :=
  forall before query table' answer after,
    log = before ++ EvExecute query table' answer :: after ->
    table' = table
    /\ exists earlier previous,
         before = earlier ++ [previous]
         /\ Trace.sql_given previous = Some query.

(** Every repair call in a log is given [table], [schema] and the rephrased
    query [rephrased]. *)
Definition repairs_are_given (table schema rephrased : string)
  (log : list Event) : Prop :=
  forall message query table' schema' rephrased' answer,
    In (EvRepair message query table' schema' rephrased' answer) log ->
    table' = table /\ schema' = schema /\ rephrased' = rephrased.

(** A summarisation call in a log is the last call, follows an execution
    that answered, and is given the raw user query and that answer. *)
Definition summary_closes (user_query : string) (log : list Event) : Prop :=
  forall before question output answer after,
    log = before ++ EvSummarize question output answer :: after ->
    after = [] /\ question = user_query
    /\ exists earlier query table,
         before = earlier ++ [EvExecute query table (Ok output)].

(** [adjacent P previous log]: [P] holds of every call and the call right
    after it, from [previous] through [log]. *)
Fixpoint adjacent (P : Event -> Event -> Prop) (previous : Event)
  (log : list Event) : Prop :=
  match log with
  | [] => True
  | ev :: rest => P previous ev /\ adjacent P ev rest
  end.

(** An execution runs, on [table], the statement its predecessor gave. *)
Definition hands_over (table : string) (previous ev : Event) : Prop :=
  match ev with
  | EvExecute query table' _ =>
      table' = table /\ Trace.sql_given previous = Some query
  | _ => True
  end.

(** Nothing follows a summarisation, and a summarisation is given the raw
    user query and the answer of the execution before it. *)
Definition closes (user_query : string) (previous ev : Event) : Prop :=
  match previous with EvSummarize _ _ _ => False | _ => True end
  /\ match ev with
     | EvSummarize question output _ =>
         question = user_query
         /\ exists query table, previous = EvExecute query table (Ok output)
     | _ => True
     end.

(** Nothing follows a call that raised. *)
Definition quiet (previous ev : Event) : Prop :=
  Trace.raised_by previous = None.

(** The exception raised by the last call of a log, if it raised. *)
Definition last_raised (log : list Event) : option PyException :=
  fold_left (fun _ ev => Trace.raised_by ev) log None.

(** A call that raised is the last call, and [ended] holds of what it
    raised. *)
Definition raising_call_is_last (log : list Event)
  (ended : PyException -> Prop) : Prop :=
  forall before ev after e,
    log = before ++ ev :: after ->
    Trace.raised_by ev = Some e ->
    after = [] /\ ended e.

(** Counting the calls of the chat service by kind. *)
Module Count.

Definition is_classification (ev : Event) : bool :=
  match ev with EvClassify _ _ => true | _ => false end.

Definition is_generation (ev : Event) : bool :=
  match ev with EvGenerate _ _ _ _ => true | _ => false end.

Definition is_summarization (ev : Event) : bool :=
  match ev with EvSummarize _ _ _ => true | _ => false end.

Definition classifications : list Event -> nat := Log.count is_classification.
Definition generations : list Event -> nat := Log.count is_generation.
Definition summarizations : list Event -> nat := Log.count is_summarization.

End Count.

(** A logged call carries an answer the service gives to that call in some
    world. *)
Definition answered_by_services {World : Type}
  {reasoning : ReasoningGateway World} {execution : ExecutionGateway World}
  (format_tool_result : ToolResult -> string) (ev : Event) : Prop :=
  match ev with
  | EvClassify user_query answer =>
      exists w, fst (classify user_query w) = answer
  | EvGenerate rephrased table schema answer =>
      exists w, fst (generate rephrased table schema w) = answer
  | EvRepair message query table schema rephrased answer =>
      exists w, fst (repair message query table schema rephrased w) = answer
  | EvSummarize user_query output answer =>
      exists w, fst (summarize user_query output w) = answer
  | EvExecute query table answer =>
      exists w,
        outcome_map (Client.execute_text format_tool_result)
          (fst (session_call_tool "execute_custom_query"
                  [("query", query); ("table_name", table)] w)) = answer
  | EvGetSchema table answer =>
      exists w,
        outcome_map
          (fun tool_result =>
             match content tool_result with
             | Some items => Client.first_text items
             | None => None
             end)
          (fst (session_call_tool "get_table_schema"
                  [("table_name", table)] w)) = answer
  end.

(** Every call logged by a computation carries an answer of the services. *)
Definition logs_answers {World : Type}
  {reasoning : ReasoningGateway World} {execution : ExecutionGateway World}
  (format_tool_result : ToolResult -> string) {A : Type}
  (m : @Run.M World A) : Prop :=
  forall w r w1 log,
    m w = (r, w1, log) ->
    Forall (answered_by_services format_tool_result) log.

(** * Properties *)

(** ** Strings *)

Example contains_ex1 : PyStr.contains "b c" "a b c d" = true.
Proof. reflexivity. Qed.
Example contains_ex2 : PyStr.contains "bd" "a b c d" = false.
Proof. reflexivity. Qed.
Example split_ex1 : PyStr.split ", " "a, b, c" = ["a"; "b"; "c"].
Proof. reflexivity. Qed.
Example split_ex2 : PyStr.split "aa" "aaa" = [""; "a"].
Proof. reflexivity. Qed.
Example split_ex3 : PyStr.split "x" "abc" = ["abc"].
Proof. reflexivity. Qed.
Example strip_ex1 : PyStr.strip (String "009" " a b  " +++ String "010" "") = "a b".
Proof. reflexivity. Qed.

Lemma prefix_append (a b : string) : String.prefix a (a +++ b) = true.
Proof.
  induction a as [|c a IH]; simpl.
  - now destruct b.
  - destruct (ascii_dec c c) as [_|ne]; [exact IH | now elim ne].
Qed.

Lemma prefix_inv (a s : string) :
  String.prefix a s = true -> exists rest, s = a +++ rest.
Proof.
  revert s; induction a as [|c a IH]; intros s H.
  - now exists s.
  - destruct s as [|c' s]; simpl in H; [discriminate|].
    destruct (ascii_dec c c') as [->|_]; [|discriminate].
    destruct (IH _ H) as [rest ->]. now exists rest.
Qed.

Lemma prefix_nil_inv (sub : string) :
  String.prefix sub EmptyString = true -> sub = EmptyString.
Proof. destruct sub; simpl; [reflexivity | discriminate]. Qed.

Lemma contains_unfold (sub s : string) :
  PyStr.contains sub s =
  if String.prefix sub s then true
  else match s with
       | EmptyString => false
       | String _ rest => PyStr.contains sub rest
       end.
Proof. destruct s; reflexivity. Qed.

Lemma contains_append (before sub after : string) :
  PyStr.contains sub (before +++ sub +++ after) = true.
Proof.
  induction before as [|c before IH].
  - rewrite contains_unfold. simpl. now rewrite prefix_append.
  - rewrite contains_unfold. simpl String.append.
    destruct (String.prefix sub _); [reflexivity | exact IH].
Qed.

Lemma contains_inv (sub s : string) :
  PyStr.contains sub s = true ->
  exists before after, s = before +++ sub +++ after.
Proof.
  induction s as [|c s IH]; rewrite contains_unfold;
    destruct (String.prefix sub _) eqn:P; intros H.
  - apply prefix_inv in P. destruct P as [rest ->]. now exists EmptyString, rest.
  - discriminate.
  - apply prefix_inv in P. destruct P as [rest ->]. now exists EmptyString, rest.
  - destruct (IH H) as (before & after & ->).
    now exists (String c before), after.
Qed.

(** [sub in s] holds exactly when [s] is some text, [sub], some text. *)
Lemma contains_iff (sub s : string) :
  PyStr.contains sub s = true <->
  exists before after, s = before +++ sub +++ after.
Proof.
  split.
  - apply contains_inv.
  - intros (before & after & ->). apply contains_append.
Qed.

Lemma partition_unfold (sep s : string) :
  PyStr.partition sep s =
  if String.prefix sep s
  then Some (EmptyString, PyStr.drop (String.length sep) s)
  else match s with
       | EmptyString => None
       | String c rest =>
           match PyStr.partition sep rest with
           | Some (before, after) => Some (String c before, after)
           | None => None
           end
       end.
Proof. destruct s; reflexivity. Qed.

Lemma partition_found (sep s : string) :
  PyStr.contains sep s = true ->
  exists before after, PyStr.partition sep s = Some (before, after).
Proof.
  induction s as [|c s IH]; rewrite contains_unfold, partition_unfold;
    destruct (String.prefix sep _); intros H; try discriminate; eauto.
  destruct (IH H) as (before & after & ->). eauto.
Qed.

Lemma drop_append (a b : string) : PyStr.drop (String.length a) (a +++ b) = b.
Proof. induction a; simpl; auto. Qed.

(** The cut is at an occurrence of the separator. *)
Lemma partition_sound (sep s before after : string) :
  PyStr.partition sep s = Some (before, after) ->
  s = before +++ sep +++ after.
Proof.
  revert before; induction s as [|c s IH]; intros before;
    rewrite partition_unfold; destruct (String.prefix sep _) eqn:P; intros H.
  - apply prefix_nil_inv in P. subst sep. now injection H as <- <-.
  - discriminate.
  - injection H as <- <-. destruct (prefix_inv _ _ P) as [rest E].
    now rewrite E, drop_append.
  - destruct (PyStr.partition sep s) as [[b a]|]; [|discriminate].
    injection H as <- <-. simpl. f_equal. now apply IH.
Qed.

Lemma split_fuel_nonempty (fuel : nat) (sep s : string) :
  exists first others, PyStr.split_fuel fuel sep s = first :: others.
Proof.
  destruct fuel; simpl; eauto.
  destruct (PyStr.partition sep s) as [[before after]|]; eauto.
Qed.

(** A text holding the sentinel has a second piece: the index [[1]] in the
    loop never raises. *)
Lemma split_sentinel_second (result : string) :
  PyStr.contains SENTINEL result = true ->
  exists piece, nth_error (PyStr.split SENTINEL result) 1 = Some piece.
Proof.
  intros H. unfold PyStr.split.
  destruct result as [|c rest]; [discriminate|].
  destruct (partition_found _ _ H) as (before & after & P).
  cbn [String.length PyStr.split_fuel]. rewrite P.
  destruct (split_fuel_nonempty (String.length rest) SENTINEL after)
    as (first & others & ->).
  now exists first.
Qed.

Lemma length_append (a b : string) :
  String.length (a +++ b) = (String.length a + String.length b)%nat.
Proof. induction a; simpl; auto. Qed.

(** More fuel than the length of the text never changes the pieces. *)
Lemma split_fuel_enough (sep : string) :
  sep <> EmptyString ->
  forall fuel s, (String.length s <= fuel)%nat ->
    PyStr.split_fuel fuel sep s = PyStr.split sep s.
Proof.
  intros Hsep. unfold PyStr.split.
  assert (forall n fuel s, (String.length s <= n)%nat -> (n <= fuel)%nat ->
            PyStr.split_fuel fuel sep s = PyStr.split_fuel n sep s) as G.
  { induction n as [|n IH]; intros fuel s Hs Hf.
    - destruct s; [|simpl in Hs; lia].
      destruct fuel; cbn [PyStr.split_fuel]; [reflexivity|].
      rewrite partition_unfold.
      destruct (String.prefix sep EmptyString) eqn:P; [|reflexivity].
      apply prefix_nil_inv in P. contradiction.
    - destruct fuel as [|fuel]; [lia|]. cbn [PyStr.split_fuel].
      destruct (PyStr.partition sep s) as [[before after]|] eqn:P;
        [|reflexivity].
      f_equal. apply IH; [|lia].
      apply partition_sound in P. subst s.
      rewrite !length_append in Hs.
      destruct sep; [contradiction|]. simpl in Hs. lia. }
  intros fuel s Hs. apply G; [lia | exact Hs].
Qed.

(** ** The model's runs are the runs of the relations *)

Section Adequacy.
Context {World : Type}.
Context {reasoning : ReasoningGateway World}.
Context {execution : ExecutionGateway World}.
Variable format_tool_result : ToolResult -> string.

Local Abbreviation execute_query := (Client.execute_query format_tool_result).
Local Abbreviation loop_body := (Client.loop_body format_tool_result).
Local Abbreviation while_loop := (Client.while_loop format_tool_result).
Local Abbreviation process_with_fuel :=
  (Client.process_with_fuel format_tool_result).

Lemma extract_error_message_run (result : string) (w : World) :
  PyStr.contains SENTINEL result = true ->
  Client.extract_error_message result w
  = (Returned (error_message_of result), w, []).
Proof.
  intros H. destruct (split_sentinel_second _ H) as [piece E].
  unfold Client.extract_error_message, error_message_of.
  rewrite E, (nth_error_nth _ _ EmptyString E). reflexivity.
Qed.

(** Each call of the execution service is one logged event. *)
Lemma execute_query_run (sql table : string) (w : World) :
  exists answer w1,
    execute_query sql table w = (result_of answer, w1, [EvExecute sql table answer]).
Proof.
  unfold Client.execute_query, Run.call.
  destruct (session_call_tool _ _ w) as [[tool_result|e] w1];
    [ exists (Ok (Client.execute_text format_tool_result tool_result)), w1
    | exists (Raise e), w1 ]; reflexivity.
Qed.

Lemma retry_failed_query_run (message query table schema rephrased : string)
  (w : World) :
  exists answer w1,
    Client.retry_failed_query message query table schema rephrased w
    = (result_of (outcome_map PyStr.strip answer), w1,
       [EvRepair message query table schema rephrased answer]).
Proof.
  unfold Client.retry_failed_query, Run.bind, Run.call.
  destruct (repair _ _ _ _ _ w) as [[answer|e] w1];
    [ exists (Ok answer), w1 | exists (Raise e), w1 ]; reflexivity.
Qed.

Lemma summarize_results_run (user_query output : string) (w : World) :
  exists answer w1,
    Client.summarize_results user_query output w
    = (result_of (outcome_map PyStr.strip answer), w1,
       [EvSummarize user_query output answer]).
Proof.
  unfold Client.summarize_results, Run.bind, Run.call.
  destruct (summarize _ _ w) as [[answer|e] w1];
    [ exists (Ok answer), w1 | exists (Raise e), w1 ]; reflexivity.
Qed.

Section Loop.
Variables (user_query : string) (max_retries : Z).
Variables (table schema rephrased_query sql_query : string).

Local Abbreviation Runs :=
  (LoopRun user_query max_retries table schema rephrased_query sql_query).

Lemma while_loop_run (fuel : nat) :
  forall (st : LoopState) (w : World),
    (Z.to_nat (max_retries - retry_count st) <= fuel)%nat ->
    exists o w1 log,
      while_loop user_query max_retries table schema rephrased_query
        sql_query fuel st w = (result_of o, w1, log)
      /\ Runs st log o.
Proof.
  induction fuel as [|fuel IH]; intros st w Hfuel; cbn [Client.while_loop];
    destruct (retry_count st <? max_retries) eqn:Hc;
    try (apply Z.ltb_ge in Hc; exists (Ok None), w, []; split;
         [reflexivity | now constructor]).
  - apply Z.ltb_lt in Hc. lia.
  - apply Z.ltb_lt in Hc.
    unfold Client.loop_body, Run.bind; cbv beta.
    destruct (execute_query_run (current_query st) table w)
      as ([result|e] & w1 & ->); cbn [result_of];
      [|exists (Raise e), w1; eexists; split;
        [reflexivity | now constructor]].
    destruct (PyStr.contains SENTINEL result) eqn:Hs.
    + rewrite (extract_error_message_run _ _ Hs).
      destruct (retry_failed_query_run (error_message_of result)
                  (current_query st) table schema rephrased_query w1)
        as ([corrected|e] & w2 & ->); cbn [result_of outcome_map];
        [|exists (Raise e), w2; eexists; split;
          [reflexivity | now constructor]].
      destruct (retry_count st + 1 =? max_retries) eqn:Hlast.
      * apply Z.eqb_eq in Hlast.
        destruct (execute_query_run (PyStr.strip corrected) table w2)
          as ([final|e] & w3 & ->); cbn [result_of];
          [|exists (Raise e), w3; eexists; split;
            [reflexivity | now constructor]].
        destruct (PyStr.contains SENTINEL final) eqn:Hf.
        -- eexists (Ok _), w3, _; split;
             [reflexivity | now apply run_exhausted].
        -- destruct (summarize_results_run user_query final w3)
             as ([summary|e] & w4 & ->); cbn [result_of outcome_map].
           ++ eexists (Ok _), w4, _; split;
                [reflexivity | now apply run_last_rows].
           ++ exists (Raise e), w4; eexists; split;
                [reflexivity | now apply run_last_unsummarized].
      * apply Z.eqb_neq in Hlast. cbn [Run.ret].
        destruct (IH {| current_query := PyStr.strip corrected;
                        retry_count := retry_count st + 1;
                        error_messages :=
                          error_messages st ++ [error_message_of result] |}
                     w2) as (o & w3 & log & E & R);
          [cbn [retry_count]; lia|].
        rewrite E. exists o, w3; eexists; split;
          [reflexivity | now apply run_retry].
    + destruct (summarize_results_run user_query result w1)
        as ([summary|e] & w2 & ->); cbn [result_of outcome_map].
      * destruct (retry_count st =? 0) eqn:Hz;
          eexists (Ok _), w2, _; (split; [reflexivity|]).
        -- generalize (run_rows user_query max_retries table schema
                         rephrased_query sql_query st result summary Hc Hs).
           now rewrite Hz.
        -- generalize (run_rows user_query max_retries table schema
                         rephrased_query sql_query st result summary Hc Hs).
           now rewrite Hz.
      * exists (Raise e), w2; eexists; split;
          [reflexivity | now apply run_rows_unsummarized].
Qed.
End Loop.

(** With at least [max_retries] passes allowed, the function returns, and
    its log and value form one of the runs of [ProcessRun]. *)
Lemma process_run (fuel : nat) (self : Session) (user_query : string)
  (max_retries : Z) (w : World) :
  (Z.to_nat max_retries <= fuel)%nat ->
  exists result w1 log,
    process_with_fuel fuel self user_query max_retries w
    = (Returned result, w1, log)
    /\ ProcessRun self user_query max_retries log result.
Proof.
  intros Hfuel. unfold Client.process_with_fuel, Run.try_except.
  destruct (selected_table self) as [table|] eqn:Ht;
    [|exists (Some Client.no_table_envelope), w, []; split;
      [reflexivity | constructor; now left]].
  destruct (table_schema self) as [schema|] eqn:Hs;
    [|exists (Some Client.no_table_envelope), w, []; split;
      [reflexivity | constructor; now right]].
  unfold Client.rephrase_query, Client.generate_sql, Run.bind, Run.call;
    cbv beta.
  destruct (classify user_query w) as [[verdict|e] w1];
    [|eexists _, w1, _; split;
      [reflexivity | eapply process_classify_raises; eassumption]].
  destruct (String.eqb (query_type verdict) "wrong") eqn:Hq.
  { apply String.eqb_eq in Hq. eexists _, w1, _; split;
      [reflexivity | eapply process_rejected; eassumption]. }
  apply String.eqb_neq in Hq. cbn [Run.ret].
  fold (chosen_rephrasing user_query verdict).
  destruct (generate (chosen_rephrasing user_query verdict) table schema w1)
    as [[sql|e] w2];
    [|eexists _, w2, _; split;
      [reflexivity | eapply process_generate_raises; eassumption]].
  destruct (while_loop_run user_query max_retries table schema
              (chosen_rephrasing user_query verdict) (PyStr.strip sql) fuel
              {| current_query := PyStr.strip sql;
                 retry_count := 0;
                 error_messages := [] |} w2)
    as (o & w3 & log & E & R);
    [cbn [retry_count]; rewrite Z.sub_0_r; exact Hfuel|].
  rewrite E.
  exists (finish user_query o), w3; eexists; split;
    [destruct o; reflexivity | eapply process_loop; eassumption].
Qed.

(** *** More passes than needed change nothing *)

Lemma while_loop_S (user_query : string) (max_retries : Z)
  (table schema rephrased_query sql_query : string) (fuel : nat)
  (st : LoopState) :
  while_loop user_query max_retries table schema rephrased_query sql_query
    (S fuel) st
  = if retry_count st <? max_retries then
      Run.bind
        (loop_body user_query max_retries table schema rephrased_query
           sql_query st)
        (fun step =>
           match step with
           | Continue st' =>
               while_loop user_query max_retries table schema rephrased_query
                 sql_query fuel st'
           | Return envelope => Run.ret (Some envelope)
           end)
    else Run.ret None.
Proof. reflexivity. Qed.

Lemma while_loop_more_fuel (user_query : string) (max_retries : Z)
  (table schema rephrased_query sql_query : string) (fuel : nat) :
  forall st w r w1 log,
    while_loop user_query max_retries table schema rephrased_query sql_query
      fuel st w = (r, w1, log) ->
    r <> OutOfFuel ->
    while_loop user_query max_retries table schema rephrased_query sql_query
      (S fuel) st w = (r, w1, log).
Proof.
  induction fuel as [|fuel IH]; intros st w r w1 log E Hr.
  - rewrite while_loop_S. cbn [Client.while_loop] in E.
    destruct (retry_count st <? max_retries); [|exact E].
    injection E as <- _ _. now elim Hr.
  - rewrite while_loop_S in E. rewrite (while_loop_S _ _ _ _ _ _ (S fuel)).
    destruct (retry_count st <? max_retries); [|exact E].
    unfold Run.bind in *.
    destruct (loop_body _ _ _ _ _ _ st w) as [[[step|e|] w'] log'];
      try exact E.
    destruct step as [st'|envelope]; [|exact E].
    destruct (while_loop _ _ _ _ _ _ fuel st' w') as [[r' w''] log''] eqn:E'.
    injection E as <- <- <-.
    now rewrite (IH _ _ _ _ _ E' Hr).
Qed.

Lemma process_one_more (fuel : nat) (self : Session) (user_query : string)
  (max_retries : Z) (w : World) result w1 log :
  process_with_fuel fuel self user_query max_retries w
  = (Returned result, w1, log) ->
  process_with_fuel (S fuel) self user_query max_retries w
  = (Returned result, w1, log).
Proof.
  unfold Client.process_with_fuel, Run.try_except.
  destruct (selected_table self) as [table|]; [|trivial].
  destruct (table_schema self) as [schema|]; [|trivial].
  unfold Run.bind.
  destruct (Client.rephrase_query user_query w) as [[[rephrased|e|] w2] log2];
    trivial.
  destruct (Client.generate_sql rephrased table schema w2)
    as [[[sql|e|] w3] log3]; trivial.
  destruct (while_loop _ _ _ _ _ _ fuel _ w3) as [[r w4] log4] eqn:E.
  intros H.
  assert (r <> OutOfFuel) as Hr by (intros ->; discriminate H).
  now rewrite (while_loop_more_fuel _ _ _ _ _ _ _ _ _ _ _ _ E Hr).
Qed.

(** Any number of passes from [max_retries] on gives the run of the
    function. *)
Lemma process_enough_fuel (fuel : nat) (self : Session) (user_query : string)
  (max_retries : Z) (w : World) :
  (Z.to_nat max_retries <= fuel)%nat ->
  process_with_fuel fuel self user_query max_retries w
  = Client.process_query_for_selected_table format_tool_result self
      user_query max_retries w.
Proof.
  unfold Client.process_query_for_selected_table.
  induction 1 as [|fuel Hle IH]; [reflexivity|].
  destruct (process_run fuel self user_query max_retries w Hle)
    as (result & w1 & log & E & _).
  rewrite <- IH, E. now apply process_one_more.
Qed.

End Adequacy.

(** ** What every run of the loop satisfies *)

Lemma driven_nil : repair_driven_by_failure [].
Proof. intros [|? ?] * E; discriminate E. Qed.

Lemma driven_skip (ev : Event) (log : list Event) :
  Log.is_repair ev = false ->
  repair_driven_by_failure log ->
  repair_driven_by_failure (ev :: log).
Proof.
  intros Hev Hlog [|first before] * E; cbn [app] in E; injection E as E1 E2.
  - subst ev. discriminate Hev.
  - destruct (Hlog _ _ _ _ _ _ _ _ E2) as (earlier & text & -> & Hs & Hm).
    exists (first :: earlier), text. auto.
Qed.

Lemma driven_pair (query table schema rephrased text : string)
  (answer : outcome string) (log : list Event) :
  PyStr.contains SENTINEL text = true ->
  repair_driven_by_failure log ->
  repair_driven_by_failure
    (EvExecute query table (Ok text)
       :: EvRepair (error_message_of text) query table schema rephrased answer
       :: log).
Proof.
  intros Hs Hlog [|first [|second before]] * E; cbn [app] in E.
  - discriminate E.
  - injection E as E1 E2 E3 E4 E5 E6 E7 E8. subst.
    exists [], text. auto.
  - injection E as E1 E2 E3.
    destruct (Hlog _ _ _ _ _ _ _ _ E3) as (earlier & text' & -> & Hs' & Hm).
    exists (first :: second :: earlier), text'. auto.
Qed.

Lemma drives_nil : failure_drives_repair [].
Proof. intros [|? ?] * E; discriminate E. Qed.

Lemma drives_single (ev : Event) : failure_drives_repair [ev].
Proof.
  intros [|first [|? ?]] * E _; cbn [app] in E; try discriminate E.
  injection E as _ <-. now left.
Qed.

Lemma drives_skip (ev : Event) (log : list Event) :
  (forall query table text,
     ev = EvExecute query table (Ok text) ->
     PyStr.contains SENTINEL text = false) ->
  failure_drives_repair log ->
  failure_drives_repair (ev :: log).
Proof.
  intros Hev Hlog [|first before] * E Hs; cbn [app] in E; injection E as E1 E2.
  - rewrite (Hev _ _ _ E1) in Hs. discriminate Hs.
  - exact (Hlog _ _ _ _ _ E2 Hs).
Qed.

Lemma drives_pair (query table schema rephrased text : string)
  (answer : outcome string) (log : list Event) :
  failure_drives_repair log ->
  failure_drives_repair
    (EvExecute query table (Ok text)
       :: EvRepair (error_message_of text) query table schema rephrased answer
       :: log).
Proof.
  intros Hlog [|first [|second before]] * E Hs; cbn [app] in E.
  - injection E as <- <- <- <-. right. eauto.
  - discriminate E.
  - injection E as _ _ E. exact (Hlog _ _ _ _ _ E Hs).
Qed.

Ltac count_log :=
  unfold Log.executions, Log.repairs, Log.failed_executions, Log.count in *;
  cbn [filter existsb Log.is_execution Log.is_repair Log.is_failed_execution
       Log.is_rows Log.is_summary List.length negb] in *;
  repeat match goal with
    | H : PyStr.contains SENTINEL _ = _ |- _ => rewrite H in *
    end;
  cbn [filter existsb List.length negb orb andb] in *.

Ltac drives :=
  repeat first
    [ apply drives_nil
    | assumption
    | apply drives_single
    | apply drives_pair
    | apply drives_skip;
      [ let E := fresh in
        intros ? ? ? E;
        first [ discriminate E | injection E as _ _ <-; assumption ] | ] ].

Lemma answered_nil user_query value :
  success_drives_summary user_query value [].
Proof. intros [|? ?] * E; discriminate E. Qed.

Lemma answered_skip user_query value (ev : Event) (log : list Event) :
  (forall query table text,
     ev = EvExecute query table (Ok text) ->
     PyStr.contains SENTINEL text = true) ->
  success_drives_summary user_query value log ->
  success_drives_summary user_query value (ev :: log).
Proof.
  intros Hev Hlog [|first before] * E Hs; cbn [app] in E; injection E as E1 E2.
  - rewrite (Hev _ _ _ E1) in Hs. discriminate Hs.
  - exact (Hlog _ _ _ _ _ E2 Hs).
Qed.

Lemma answered_rows user_query value (query table text : string)
  (answer : outcome string) :
  match answer with
  | Ok summary =>
      exists envelope,
        value = Some envelope
        /\ dict_get "result" envelope = Some (PyStr text)
        /\ dict_get "summary" envelope = Some (PyStr (PyStr.strip summary))
        /\ has_key "error" envelope = false
  | Raise e =>
      value
      = Some [("user_query", PyStr user_query); ("error", PyStr (str e))]
  end ->
  success_drives_summary user_query value
    [EvExecute query table (Ok text); EvSummarize user_query text answer].
Proof.
  intros Hvalue [|first [|second before]] * E Hs; cbn [app] in E.
  - injection E as <- <- <- <-. exists answer. auto.
  - discriminate E.
  - injection E as _ _ E. destruct before; discriminate E.
Qed.

Lemma reported_nil value : last_failure_is_reported value [].
Proof. intros [|? ?] * E; discriminate E. Qed.

Lemma reported_push value (ev : Event) (log : list Event) :
  (forall query table text,
     ev = EvExecute query table (Ok text) ->
     PyStr.contains SENTINEL text = false) ->
  last_failure_is_reported value log ->
  last_failure_is_reported value (ev :: log).
Proof.
  intros Hev Hlog [|first before] * E Hs; cbn [app] in E; injection E as E1 E2.
  - rewrite (Hev _ _ _ E1) in Hs. discriminate Hs.
  - exact (Hlog _ _ _ _ E2 Hs).
Qed.

Lemma reported_skip value (ev next : Event) (log : list Event) :
  last_failure_is_reported value (next :: log) ->
  last_failure_is_reported value (ev :: next :: log).
Proof.
  intros Hlog [|first before] * E Hs; cbn [app] in E.
  - discriminate E.
  - injection E as _ E. exact (Hlog _ _ _ _ E Hs).
Qed.

Lemma reported_last value (query table text : string) :
  (exists envelope,
     value = Some envelope
     /\ dict_get "result" envelope
        = Some (PyStr
            "All query correction attempts failed. Please try rephrasing your question.")
     /\ dict_get "final_sql_query" envelope = Some (PyStr query)
     /\ has_key "summary" envelope = false
     /\ has_key "error" envelope = false) ->
  last_failure_is_reported value [EvExecute query table (Ok text)].
Proof.
  intros Hvalue [|first before] * E Hs; cbn [app] in E.
  - injection E as <- _ _. exact Hvalue.
  - injection E as _ E. destruct before; discriminate E.
Qed.

Ltac answered :=
  repeat first
    [ apply answered_nil
    | assumption
    | apply answered_skip;
      [ let E := fresh in
        intros ? ? ? E;
        first [ discriminate E | injection E as _ _ <-; assumption ] | ] ].

Ltac reported :=
  repeat first
    [ apply reported_nil
    | assumption
    | apply reported_skip
    | apply reported_push;
      [ let E := fresh in
        intros ? ? ? E;
        first [ discriminate E | injection E as _ _ <-; assumption ] | ] ].

Section LoopFacts.
Variables (user_query : string) (max_retries : Z).
Variables (table schema rephrased_query sql_query : string).

Local Abbreviation Runs :=
  (LoopRun user_query max_retries table schema rephrased_query sql_query).

(** From [retry_count] on, the loop executes at most once per remaining
    retry plus once, and repairs at most once per remaining retry. *)
Lemma loop_bounds st log o :
  Runs st log o ->
  retry_count st <= max_retries ->
  Z.of_nat (Log.executions log) <= max_retries - retry_count st + 1
  /\ Z.of_nat (Log.repairs log) <= max_retries - retry_count st.
Proof.
  induction 1; intros Hle; count_log; try lia.
  cbn [retry_count] in IHLoopRun. lia.
Qed.

(** A run in which every possible execution failed ends in the envelope of
    exhausted retries, with one message per repair. *)
Lemma loop_exhausted st log o :
  Runs st log o ->
  retry_count st <= max_retries ->
  Z.of_nat (List.length (error_messages st)) = retry_count st ->
  Z.of_nat (Log.failed_executions log) = max_retries - retry_count st + 1 ->
  exists errors final,
    o = Ok (Some (Client.exhausted_envelope user_query rephrased_query table
                    sql_query errors final))
    /\ Z.of_nat (List.length errors) = max_retries.
Proof.
  induction 1; intros Hle Hlen Hall; count_log; try lia.
  - apply IHLoopRun; cbn [retry_count error_messages].
    + lia.
    + rewrite length_app; cbn [List.length]; lia.
    + lia.
  - eexists _, _; split; [reflexivity|].
    rewrite length_app; cbn [List.length]; lia.
Qed.


Lemma loop_driven st log o : Runs st log o -> repair_driven_by_failure log.
Proof.
  induction 1;
    repeat first
      [ apply driven_nil
      | assumption
      | apply driven_pair; [assumption|]
      | apply driven_skip; [reflexivity|] ].
Qed.

Lemma loop_drives st log o : Runs st log o -> failure_drives_repair log.
Proof. induction 1; drives. Qed.

(** A summary is in the value exactly when the log holds rows and an
    answered summarisation. *)
Lemma loop_summary st log o :
  Runs st log o ->
  carries "summary" (finish user_query o)
  = existsb Log.is_rows log && existsb Log.is_summary log.
Proof.
  induction 1; count_log; try reflexivity; try assumption.
  destruct (retry_count st =? 0); reflexivity.
Qed.

(** Every dictionary the loop hands over is one of the envelopes. *)
Lemma loop_envelope st log o envelope :
  Runs st log o ->
  finish user_query o = Some envelope ->
  ErrorEnvelope user_query envelope
  \/ FailureEnvelope user_query envelope
  \/ SuccessEnvelope user_query envelope.
Proof.
  induction 1; cbn [finish]; intros E; try discriminate E;
    try (injection E as <-); auto using ErrorEnvelope, FailureEnvelope.
  - destruct (retry_count st =? 0); auto using SuccessEnvelope.
  - right; right. constructor.
Qed.

(** The rephrased query shown in an envelope is the one the loop was
    started with. *)
Lemma loop_rephrased st log o envelope :
  Runs st log o ->
  finish user_query o = Some envelope ->
  has_key "rephrased_query" envelope = true ->
  dict_get "rephrased_query" envelope = Some (PyStr rephrased_query).
Proof.
  induction 1; cbn [finish]; intros E; try discriminate E;
    try (injection E as <-); intros Hk;
    try (destruct (retry_count st =? 0));
    first [reflexivity | discriminate Hk | now apply IHLoopRun].
Qed.

(** A run whose first execution answers with rows makes that one execution,
    asks for the summary and ends. *)
Lemma loop_first_rows st log o query table' text :
  Runs st log o ->
  find Log.is_execution log = Some (EvExecute query table' (Ok text)) ->
  PyStr.contains SENTINEL text = false ->
  query = current_query st /\ table' = table
  /\ exists answer,
       log = [EvExecute query table' (Ok text);
              EvSummarize user_query text answer]
       /\ o = match answer with
              | Ok summary =>
                  Ok (Some
                    (if retry_count st =? 0 then
                       Client.direct_envelope user_query rephrased_query table
                         sql_query text (PyStr.strip summary)
                     else
                       Client.repaired_envelope user_query rephrased_query
                         table sql_query (error_messages st)
                         (current_query st) text (PyStr.strip summary)))
              | Raise e => Raise e
              end.
Proof.
  destruct 1; cbn [find Log.is_execution]; intros E Hs;
    try discriminate E; injection E as <- <- <-;
    try (rewrite Hs in *; discriminate);
    repeat split; eexists; split; reflexivity.
Qed.

(** A summary is in the value exactly when the log holds rows and no
    summarisation call that raised. *)
Lemma loop_summary_unless_raised st log o :
  Runs st log o ->
  carries "summary" (finish user_query o)
  = existsb Log.is_rows log && negb (existsb summary_raised log).
Proof.
  induction 1; count_log; cbn [summary_raised orb andb negb];
    try reflexivity; try assumption.
  destruct (retry_count st =? 0); reflexivity.
Qed.

Lemma loop_answered st log o :
  Runs st log o ->
  success_drives_summary user_query (finish user_query o) log.
Proof.
  induction 1; cbn [finish] in *; answered;
    apply answered_rows; try reflexivity;
    try match goal with
      | |- context [if ?c then _ else _] => destruct c
      end;
    eexists; repeat split; reflexivity.
Qed.

Lemma loop_reported st log o :
  Runs st log o -> last_failure_is_reported (finish user_query o) log.
Proof.
  induction 1; cbn [finish] in *; reported.
  apply reported_last. eexists; repeat split; reflexivity.
Qed.

Lemma loop_failure_last st log o :
  Runs st log o ->
  failure_reported_after_failure user_query (finish user_query o) log.
Proof.
  induction 1; cbn [finish] in *; intros envelope E F;
    try discriminate E; try (injection E as <-);
    try match goal with
      | H : context [if ?c then _ else _] |- _ => destruct c
      end;
    try (now inversion F).
  - destruct (IHLoopRun _ E F) as (before & query & table' & text & -> & Hs).
    eexists (_ :: _ :: before), _, _, _. split; [reflexivity | exact Hs].
  - eexists [_; _], _, _, _. split; [reflexivity | assumption].
Qed.

End LoopFacts.

(** ** What every run of the function satisfies *)

Section ProcessFacts.
Variables (self : Session) (user_query : string) (max_retries : Z).

Local Abbreviation Runs := (ProcessRun self user_query max_retries).

Lemma process_bounds log result :
  Runs log result ->
  0 <= max_retries ->
  Z.of_nat (Log.executions log) <= max_retries + 1
  /\ Z.of_nat (Log.repairs log) <= max_retries.
Proof.
  destruct 1 as [| | | |table schema verdict sql log o Ht Hs Hq Hloop];
    intros Hmax; try (count_log; lia).
  apply loop_bounds in Hloop; [|exact Hmax].
  cbn [retry_count] in Hloop. count_log. lia.
Qed.

Lemma process_exhausted log result :
  Runs log result ->
  0 <= max_retries ->
  Z.of_nat (Log.failed_executions log) = max_retries + 1 ->
  exists rephrased table original errors final,
    result = Some (Client.exhausted_envelope user_query rephrased table
                     original errors final)
    /\ Z.of_nat (List.length errors) = max_retries.
Proof.
  destruct 1 as [| | | |table schema verdict sql log o Ht Hs Hq Hloop];
    intros Hmax Hall; try (count_log; lia).
  apply loop_exhausted in Hloop; cbn [retry_count error_messages List.length];
    [|lia|reflexivity|count_log; lia].
  destruct Hloop as (errors & final & -> & Hlen). cbn [finish]. eauto 8.
Qed.


Lemma process_driven log result :
  Runs log result -> repair_driven_by_failure log.
Proof.
  destruct 1 as [| | | |table schema verdict sql log o Ht Hs Hq Hloop];
    repeat first [ apply driven_nil | apply driven_skip; [reflexivity|] ].
  eapply loop_driven; eassumption.
Qed.

Lemma process_drives log result :
  Runs log result -> failure_drives_repair log.
Proof.
  destruct 1 as [| | | |table schema verdict sql log o Ht Hs Hq Hloop];
    drives.
  eapply loop_drives; eassumption.
Qed.

Lemma process_summary log result :
  Runs log result ->
  carries "summary" result
  = existsb Log.is_rows log && existsb Log.is_summary log.
Proof.
  destruct 1 as [| | | |table schema verdict sql log o Ht Hs Hq Hloop];
    try reflexivity.
  cbn [existsb Log.is_rows Log.is_summary orb].
  eapply loop_summary; eassumption.
Qed.

Lemma process_envelope log envelope :
  Runs log (Some envelope) ->
  envelope = Client.no_table_envelope
  \/ ErrorEnvelope user_query envelope
  \/ FailureEnvelope user_query envelope
  \/ SuccessEnvelope user_query envelope.
Proof.
  inversion 1 as [| | | |table schema verdict sql log' o Ht Hs Hq Hloop E1 E2];
    auto using ErrorEnvelope.
  right. eapply loop_envelope; [eassumption | now symmetry].
Qed.

Lemma process_summary_unless_raised log result :
  Runs log result ->
  carries "summary" result
  = existsb Log.is_rows log && negb (existsb summary_raised log).
Proof.
  destruct 1 as [| | | |table schema verdict sql log o Ht Hs Hq Hloop];
    try reflexivity.
  cbn [existsb Log.is_rows summary_raised orb].
  eapply loop_summary_unless_raised; eassumption.
Qed.

Lemma process_answered log result :
  Runs log result -> success_drives_summary user_query result log.
Proof.
  destruct 1 as [| | | |table schema verdict sql log o Ht Hs Hq Hloop];
    answered.
  eapply loop_answered; eassumption.
Qed.

Lemma process_reported log result :
  Runs log result -> last_failure_is_reported result log.
Proof.
  destruct 1 as [| | | |table schema verdict sql log o Ht Hs Hq Hloop];
    reported.
  eapply loop_reported; eassumption.
Qed.

Lemma process_failure_last log result :
  Runs log result ->
  failure_reported_after_failure user_query result log.
Proof.
  destruct 1 as [| | | |table schema verdict sql log o Ht Hs Hq Hloop];
    intros envelope E F; try (injection E as <-; now inversion F).
  destruct (loop_failure_last _ _ _ _ _ _ _ _ _ Hloop _ E F)
    as (before & query & table' & text & -> & Hsent).
  eexists (_ :: _ :: before), _, _, _. split; [reflexivity | exact Hsent].
Qed.

End ProcessFacts.

(** ** Two runs on test doubles *)

(** Rows at the first execution: one execution, the envelope with the single
    statement and the summary. *)
Example run_with_rows :
  Client.process_query_for_selected_table
    (reasoning := Stub.stubborn) (execution := Stub.always_rows)
    Stub.format_tool_result Stub.chosen "total revenue last week"
    default_max_retries 0%nat
  = (Returned
       (Some
          [("user_query", PyStr "total revenue last week");
           ("rephrased_query", PyStr "total revenue last week");
           ("selected_table", PyStr "orders");
           ("sql_query", PyStr "SELECT SUM(total) FROM orders WHERE");
           ("result", PyStr "Query executed successfully: [{total: 1000}]");
           ("summary", PyStr "Total revenue was 1000.")]),
     1%nat,
     [EvClassify "total revenue last week"
        (Stub.valid ["total revenue last week"]);
      EvGenerate "total revenue last week" "orders" "{id: Int, total: Float}"
        (Ok "SELECT SUM(total) FROM orders WHERE");
      EvExecute "SELECT SUM(total) FROM orders WHERE" "orders"
        (Ok "Query executed successfully: [{total: 1000}]");
      EvSummarize "total revenue last week"
        "Query executed successfully: [{total: 1000}]"
        (Ok "Total revenue was 1000.")]).
Proof. reflexivity. Qed.

(** A failure, a repair, then rows: two executions, one error message, a
    summary. *)
Example run_with_one_repair :
  let run :=
    Client.process_query_for_selected_table
      (reasoning := Stub.stubborn) (execution := Stub.failing_once)
      Stub.format_tool_result Stub.chosen "total revenue last week"
      default_max_retries 0%nat in
  fst (fst run)
  = Returned
      (Some
         [("user_query", PyStr "total revenue last week");
          ("rephrased_query", PyStr "total revenue last week");
          ("selected_table", PyStr "orders");
          ("original_sql_query", PyStr "SELECT SUM(total) FROM orders WHERE");
          ("error_messages", PyList ["Unknown column revenue"]);
          ("final_sql_query", PyStr "SELECT SUM(total) FROM orders WHERE");
          ("result", PyStr "Query executed successfully: [{total: 1000}]");
          ("summary", PyStr "Total revenue was 1000.")])
  /\ Log.executions (snd run) = 2%nat
  /\ Log.repairs (snd run) = 1%nat.
Proof. repeat split. Qed.

(** * The claims *)

(** C1.  For every [max_retries >= 0] and every behaviour of the two
    services (a chat service that repeats the same broken SQL included), one
    call of [process_query_for_selected_table] returns: the loop needs no
    more than [max_retries] passes, and any larger allowance gives the same
    run.  The run makes at most [max_retries + 1] execution calls and at
    most [max_retries] repair calls. *)
Theorem process_terminates_within_retry_bound
  {World : Type} {reasoning : ReasoningGateway World}
  {execution : ExecutionGateway World}
  (format_tool_result : ToolResult -> string)
  (self : Session) (user_query : string) (max_retries : Z) (w : World) :
  0 <= max_retries ->
  exists result w1 log,
    Client.process_query_for_selected_table format_tool_result self
      user_query max_retries w = (Returned result, w1, log)
    /\ (forall fuel, (Z.to_nat max_retries <= fuel)%nat ->
          Client.process_with_fuel format_tool_result fuel self user_query
            max_retries w = (Returned result, w1, log))
    /\ Z.of_nat (Log.executions log) <= max_retries + 1
    /\ Z.of_nat (Log.repairs log) <= max_retries.
Proof.
  intros Hmax.
  destruct (process_run format_tool_result (Z.to_nat max_retries) self
              user_query max_retries w (Nat.le_refl _))
    as (result & w1 & log & E & R).
  exists result, w1, log. repeat split.
  - exact E.
  - intros fuel Hfuel.
    rewrite (process_enough_fuel format_tool_result fuel self user_query
               max_retries w Hfuel).
    exact E.
  - now apply (process_bounds _ _ _ _ _ R).
  - now apply (process_bounds _ _ _ _ _ R).
Qed.

Lemma process_terminates_within_retry_bound_witness :
  exists result w1 log,
    Client.process_query_for_selected_table
      (reasoning := Stub.stubborn) (execution := Stub.always_failing)
      Stub.format_tool_result Stub.chosen "total revenue last week" 3 0%nat
    = (Returned result, w1, log)
    /\ (forall fuel, (Z.to_nat 3 <= fuel)%nat ->
          Client.process_with_fuel
            (reasoning := Stub.stubborn) (execution := Stub.always_failing)
            Stub.format_tool_result fuel Stub.chosen
            "total revenue last week" 3 0%nat = (Returned result, w1, log))
    /\ Z.of_nat (Log.executions log) <= 3 + 1
    /\ Z.of_nat (Log.repairs log) <= 3.
Proof.
  apply (process_terminates_within_retry_bound
           (reasoning := Stub.stubborn) (execution := Stub.always_failing)
           Stub.format_tool_result Stub.chosen "total revenue last week" 3
           0%nat).
  lia.
Defined.

(** C2 (as stated, refuted).  With [max_retries = 1] and a tool session in
    which every statement fails, both executions fail, yet the envelope
    lists one error message and not two. *)
Lemma exhausted_envelope_lacks_last_error :
  let run :=
    Client.process_query_for_selected_table
      (reasoning := Stub.stubborn) (execution := Stub.always_failing)
      Stub.format_tool_result Stub.chosen "total revenue last week" 1 0%nat in
  Z.of_nat (Log.failed_executions (snd run)) = 1 + 1
  /\ ~ (exists envelope errors,
          fst (fst run) = Returned (Some envelope)
          /\ dict_get "error_messages" envelope = Some (PyList errors)
          /\ Z.of_nat (List.length errors) = 1 + 1).
Proof.
  split; [reflexivity|].
  intros (envelope & errors & E & G & L).
  vm_compute in E. injection E as <-.
  vm_compute in G. injection G as <-.
  discriminate L.
Qed.

(** C2 (amended).  If every one of the [max_retries + 1] executions fails,
    the envelope returned lists exactly [max_retries] error messages, one
    for each repair, and has no [summary] field. *)
Theorem exhausted_envelope_lists_one_error_per_repair
  {World : Type} {reasoning : ReasoningGateway World}
  {execution : ExecutionGateway World}
  (format_tool_result : ToolResult -> string)
  (self : Session) (user_query : string) (max_retries : Z) (w : World)
  (r : Result (option PyDict)) (w1 : World) (log : list Event) :
  0 <= max_retries ->
  Client.process_query_for_selected_table format_tool_result self
    user_query max_retries w = (r, w1, log) ->
  Z.of_nat (Log.failed_executions log) = max_retries + 1 ->
  exists envelope errors,
    r = Returned (Some envelope)
    /\ dict_get "error_messages" envelope = Some (PyList errors)
    /\ Z.of_nat (List.length errors) = max_retries
    /\ has_key "summary" envelope = false.
Proof.
  intros Hmax E Hall.
  destruct (process_run format_tool_result (Z.to_nat max_retries) self
              user_query max_retries w (Nat.le_refl _))
    as (result & w1' & log' & E' & R).
  unfold Client.process_query_for_selected_table in E.
  rewrite E in E'. injection E' as -> -> ->.
  destruct (process_exhausted _ _ _ _ _ R Hmax Hall)
    as (rephrased & table & original & errors & final & -> & Hlen).
  eexists _, errors. repeat split. exact Hlen.
Qed.

Lemma exhausted_envelope_lists_one_error_per_repair_witness :
  let run :=
    Client.process_query_for_selected_table
      (reasoning := Stub.stubborn) (execution := Stub.always_failing)
      Stub.format_tool_result Stub.chosen "total revenue last week" 2 0%nat in
  exists envelope errors,
    fst (fst run) = Returned (Some envelope)
    /\ dict_get "error_messages" envelope = Some (PyList errors)
    /\ Z.of_nat (List.length errors) = 2
    /\ has_key "summary" envelope = false.
Proof.
  intros run.
  apply (exhausted_envelope_lists_one_error_per_repair
           (reasoning := Stub.stubborn) (execution := Stub.always_failing)
           Stub.format_tool_result Stub.chosen "total revenue last week" 2
           0%nat (fst (fst run)) (snd (fst run)) (snd run)).
  - lia.
  - reflexivity.
  - reflexivity.
Defined.

(** C3.  If the classification answers with [query_type = "wrong"], the
    classification call is the only call made (no generation, execution or
    repair), and the function returns the envelope holding the user query
    and the error text of the rejection. *)
Theorem rejected_query_stops_pipeline
  {World : Type} {reasoning : ReasoningGateway World}
  {execution : ExecutionGateway World}
  (format_tool_result : ToolResult -> string)
  (self : Session) (table schema user_query : string) (max_retries : Z)
  (w w1 : World) (verdict : Verdict) :
  selected_table self = Some table ->
  table_schema self = Some schema ->
  classify user_query w = (Ok verdict, w1) ->
  query_type verdict = "wrong" ->
  Client.process_query_for_selected_table format_tool_result self
    user_query max_retries w
  = (Returned
       (Some
          [("user_query", PyStr user_query);
           ("error",
            PyStr
              "Invalid or irrelevant query. Please ask a database-related question.")]),
     w1, [EvClassify user_query (Ok verdict)]).
Proof.
  intros Ht Hs Hc Hq.
  unfold Client.process_query_for_selected_table, Client.process_with_fuel,
    Run.try_except, Client.rephrase_query, Run.bind, Run.call.
  rewrite Ht, Hs, Hc, Hq. reflexivity.
Qed.

Lemma rejected_query_stops_pipeline_witness :
  Client.process_query_for_selected_table
    (reasoning :=
       Stub.reasoning (Ok {| query_type := "wrong"; queries := [] |})
         (Ok "SELECT 1") (Ok "SELECT 1") (Ok "One."))
    (execution := Stub.always_failing)
    Stub.format_tool_result Stub.chosen "tell me a joke" 3 0%nat
  = (Returned
       (Some
          [("user_query", PyStr "tell me a joke");
           ("error",
            PyStr
              "Invalid or irrelevant query. Please ask a database-related question.")]),
     0%nat,
     [EvClassify "tell me a joke"
        (Ok {| query_type := "wrong"; queries := [] |})]).
Proof.
  apply (rejected_query_stops_pipeline
           (reasoning :=
              Stub.reasoning (Ok {| query_type := "wrong"; queries := [] |})
                (Ok "SELECT 1") (Ok "SELECT 1") (Ok "One."))
           (execution := Stub.always_failing)
           Stub.format_tool_result Stub.chosen "orders"
           "{id: Int, total: Float}" "tell me a joke" 3 0%nat 0%nat
           {| query_type := "wrong"; queries := [] |});
    reflexivity.
Defined.

(** C4.  The test the loop applies to an execution answer holds exactly
    when the sentinel phrase occurs somewhere in the text, whatever stands
    before and after it, and the function treats an answer as failed
    exactly when that test holds.  In every run the function returns, and:
    a repair call directly follows the execution whose answer held the
    sentinel and carries the message taken from that answer; an execution
    whose answer holds the sentinel is either the last call of the run or
    directly followed by that repair, and when it is the last call the value
    returned is the envelope of exhausted retries for its statement; that
    envelope is returned in no other case; and an execution whose answer is
    free of the sentinel is never repaired: the summarisation of its answer
    is the next and last call, and the value returned shows that answer as
    [result] with the summary, unless the summarisation raised. *)
Theorem sentinel_decides_failure :
  (forall text,
     PyStr.contains SENTINEL text = true <->
     exists before after,
       text = before +++ "Error executing custom query:" +++ after)
  /\ (forall (World : Type) (reasoning : ReasoningGateway World)
        (execution : ExecutionGateway World)
        (format_tool_result : ToolResult -> string)
        (self : Session) (user_query : string) (max_retries : Z) (w : World),
        let run :=
          Client.process_query_for_selected_table format_tool_result
            self user_query max_retries w in
        let log := snd run in
        repair_driven_by_failure log
        /\ failure_drives_repair log
        /\ exists value,
             fst (fst run) = Returned value
             /\ success_drives_summary user_query value log
             /\ last_failure_is_reported value log
             /\ failure_reported_after_failure user_query value log).
Proof.
  split.
  - intros text. apply contains_iff.
  - intros. subst log run.
    destruct (process_run format_tool_result (Z.to_nat max_retries) self
                user_query max_retries w (Nat.le_refl _))
      as (result & w1 & log & E & R).
    unfold Client.process_query_for_selected_table. rewrite E. cbn [fst snd].
    split; [|split].
    + exact (process_driven _ _ _ _ _ R).
    + exact (process_drives _ _ _ _ _ R).
    + exists result. split; [reflexivity|]. split; [|split].
      * exact (process_answered _ _ _ _ _ R).
      * exact (process_reported _ _ _ _ _ R).
      * exact (process_failure_last _ _ _ _ _ R).
Qed.

(** The error answer of the server's handler always holds the sentinel. *)
Lemma server_error_is_failure (client_query : string -> outcome QueryResult)
  (json_dumps : Json -> string) (index_error : PyException)
  (dumps_error : Json -> option PyException)
  (query : string) (e : PyException) (arguments : list (string * string)) :
  dict_get "query" arguments = Some query ->
  client_query query = Raise e ->
  exists text,
    Server.call_tool client_query json_dumps index_error dumps_error
      "execute_custom_query" arguments
    = Ok [TextContent text]
    /\ PyStr.contains SENTINEL text = true.
Proof.
  intros Ha Hq. unfold Server.call_tool, Server.run_query.
  cbn [String.eqb Ascii.eqb Bool.eqb]. rewrite Ha, Hq.
  eexists; split; [reflexivity|].
  apply (contains_append EmptyString SENTINEL (" " +++ str e)).
Qed.

(** A successful query whose formatted rows hold the sentinel phrase is
    read as a failure all the same. *)
Lemma server_rows_with_sentinel_are_failure
  (client_query : string -> outcome QueryResult)
  (json_dumps : Json -> string) (index_error : PyException)
  (dumps_error : Json -> option PyException)
  (query : string) (result : QueryResult)
  (arguments : list (string * string)) :
  dict_get "query" arguments = Some query ->
  client_query query = Ok result ->
  result_set result <> [] ->
  PyStr.contains SENTINEL (json_dumps (Server.result_json result)) = true ->
  exists text,
    Server.call_tool client_query json_dumps index_error dumps_error
      "execute_custom_query" arguments
    = Ok [TextContent text]
    /\ PyStr.contains SENTINEL text = true.
Proof.
  intros Ha Hq Hrows Hdump. unfold Server.call_tool, Server.run_query.
  cbn [String.eqb Ascii.eqb Bool.eqb]. rewrite Ha, Hq.
  destruct (result_set result) as [|row rows]; [contradiction|].
  destruct (dumps_error (Server.result_json result)) as [e|].
  { eexists; split; [reflexivity|].
    apply (contains_append EmptyString SENTINEL (" " +++ str e)). }
  eexists; split; [reflexivity|].
  destruct (proj1 (contains_iff _ _) Hdump) as (before & after & ->).
  match goal with
  | |- PyStr.contains _ (_ +++ String ?a (String ?b _)) = true =>
      apply (contains_append
               ("Query executed successfully:" +++ String a (String b before))
               SENTINEL after)
  end.
Qed.




(** C6 (as stated, refuted).  An execution answers with rows, the
    summarisation request then fails, and the envelope returned has no
    [summary] although a successful execution took place. *)
Lemma rows_without_summary :
  let run :=
    Client.process_query_for_selected_table
      (reasoning := Stub.unsummarizing) (execution := Stub.always_rows)
      Stub.format_tool_result Stub.chosen "total revenue last week" 3 0%nat in
  existsb Log.is_rows (snd run) = true
  /\ fst (fst run)
     = Returned
         (Some
            [("user_query", PyStr "total revenue last week");
             ("error", PyStr "Request timed out.")])
  /\ ~ (forall result,
          fst (fst run) = Returned result ->
          (carries "summary" result = true <->
           existsb Log.is_rows (snd run) = true)).
Proof.
  repeat split.
  intros H. specialize (H _ eq_refl). destruct H as [_ H].
  specialize (H eq_refl). discriminate H.
Qed.

(** C6 (amended).  In what the function returns, a [summary] field is
    present exactly when the run holds an execution answered without the
    sentinel and the summarisation call made for it did not raise.  That
    call is always made: an execution answered without the sentinel is
    directly followed by the summarisation of its answer, which ends the
    run, and the value then carries the stripped summary, or is
    [{user_query, error}] when the call raised.  A dictionary with an
    [error] field and the envelope of exhausted retries carry no summary. *)
Theorem summary_iff_rows_summarized
  {World : Type} {reasoning : ReasoningGateway World}
  {execution : ExecutionGateway World}
  (format_tool_result : ToolResult -> string)
  (self : Session) (user_query : string) (max_retries : Z) (w : World) :
  exists result w1 log,
    Client.process_query_for_selected_table format_tool_result self
      user_query max_retries w = (Returned result, w1, log)
    /\ carries "summary" result
       = existsb Log.is_rows log && negb (existsb summary_raised log)
    /\ carries "summary" result
       = existsb Log.is_rows log && existsb Log.is_summary log
    /\ success_drives_summary user_query result log
    /\ (forall envelope,
          result = Some envelope ->
          has_key "error" envelope = true
          \/ FailureEnvelope user_query envelope ->
          has_key "summary" envelope = false).
Proof.
  destruct (process_run format_tool_result (Z.to_nat max_retries) self
              user_query max_retries w (Nat.le_refl _))
    as (result & w1 & log & E & R).
  exists result, w1, log. split; [exact E|]. split; [|split; [|split]].
  - exact (process_summary_unless_raised _ _ _ _ _ R).
  - exact (process_summary _ _ _ _ _ R).
  - exact (process_answered _ _ _ _ _ R).
  - intros envelope -> H.
    destruct (process_envelope _ _ _ _ _ R) as [->|[Hk|[Hk|Hk]]];
      [reflexivity | destruct Hk; reflexivity | destruct Hk; reflexivity |].
    destruct Hk; destruct H as [H|H]; try discriminate H; inversion H.
Qed.

(** C7 (the code departs from the claim).  Selecting a table for which
    [DESCRIBE TABLE] gives no row, or for which the database raises, does
    not fail: the server answers with a text saying so, the client takes
    that text for the schema, and the endpoint stores table and text on the
    client and reports success. *)
Theorem select_table_accepts_missing_table :
  forall (json_dumps : Json -> string) (index_error : PyException)
  (dumps_error : Json -> option PyException)
    (str_http : HTTPException -> string)
    (table_name : string) (client : Session) (e : PyException),
    let not_found := "Table " +++ table_name +++ " not found or has no columns." in
    let failed :=
      "Error retrieving schema for table " +++ table_name +++ ": " +++ str e in
    Main.select_table
      (execution :=
         Server.served Stub.no_columns json_dumps index_error dumps_error)
      str_http table_name client tt
    = (Returned
         (inr [("message",
                PyStr ("Table '" +++ table_name +++ "' selected successfully."));
               ("schema", PyStr not_found)],
          {| selected_table := Some table_name;
             table_schema := Some not_found |}),
       tt, [EvGetSchema table_name (Ok (Some not_found))])
    /\ Main.select_table
         (execution :=
            Server.served (Stub.rejecting e) json_dumps index_error dumps_error)
         str_http table_name client tt
       = (Returned
            (inr [("message",
                   PyStr ("Table '" +++ table_name
                            +++ "' selected successfully."));
                  ("schema", PyStr failed)],
             {| selected_table := Some table_name;
                table_schema := Some failed |}),
          tt, [EvGetSchema table_name (Ok (Some failed))]).
Proof. intros. split; reflexivity. Qed.

(** When the client finds no schema text at all, the exception with status
    404 raised by the endpoint is caught by the endpoint's own handler and
    leaves with status 500; the client's attributes are untouched. *)
Lemma select_table_not_found_leaves_as_500
  {World : Type} {execution : ExecutionGateway World}
  (str_http : HTTPException -> string) (table_name : string)
  (client : Session) (w w1 : World) (tool_result : ToolResult) :
  session_call_tool "get_table_schema" [("table_name", table_name)] w
  = (Ok tool_result, w1) ->
  content tool_result = None ->
  exists detail log,
    Main.select_table str_http table_name client w
    = (Returned (inl {| status_code := 500; detail := detail |}, client),
       w1, log).
Proof.
  intros Hcall Hcontent.
  unfold Main.select_table, Run.try_except, Run.bind, Client.get_table_schema,
    Run.call.
  rewrite Hcall. cbn [outcome_map]. rewrite Hcontent.
  eexists _, _. reflexivity.
Qed.

(** C8.  If the verdict is not ["wrong"] and its candidate list is empty,
    the classification step returns the user's text itself, the generation
    call is made with that text, and an envelope that shows a rephrased
    query shows the user's text. *)
Theorem empty_candidates_keep_user_text
  {World : Type} {reasoning : ReasoningGateway World}
  {execution : ExecutionGateway World}
  (format_tool_result : ToolResult -> string)
  (self : Session) (table schema user_query : string) (max_retries : Z)
  (w w1 : World) (verdict : Verdict) :
  selected_table self = Some table ->
  table_schema self = Some schema ->
  classify user_query w = (Ok verdict, w1) ->
  query_type verdict <> "wrong" ->
  queries verdict = [] ->
  Client.rephrase_query user_query w
  = (Returned user_query, w1, [EvClassify user_query (Ok verdict)])
  /\ exists answer result w2 rest,
       Client.process_query_for_selected_table format_tool_result self
         user_query max_retries w
       = (Returned result, w2,
          EvClassify user_query (Ok verdict)
            :: EvGenerate user_query table schema answer :: rest)
       /\ (forall envelope,
             result = Some envelope ->
             has_key "rephrased_query" envelope = true ->
             dict_get "rephrased_query" envelope = Some (PyStr user_query)).
Proof.
  intros Ht Hs Hc Hq He. apply String.eqb_neq in Hq.
  assert (Client.rephrase_query user_query w
          = (Returned user_query, w1, [EvClassify user_query (Ok verdict)]))
    as Hr.
  { unfold Client.rephrase_query, Run.bind, Run.call.
    rewrite Hc, Hq, He. reflexivity. }
  split; [exact Hr|].
  unfold Client.process_query_for_selected_table, Client.process_with_fuel,
    Run.try_except.
  rewrite Ht, Hs. unfold Run.bind at 1. rewrite Hr.
  unfold Run.bind at 1.
  unfold Client.generate_sql at 1, Run.bind at 1, Run.call.
  destruct (generate user_query table schema w1) as [[sql|e] w2].
  - cbn [Run.ret].
    destruct (while_loop_run format_tool_result user_query max_retries table
                schema user_query (PyStr.strip sql) (Z.to_nat max_retries)
                {| current_query := PyStr.strip sql;
                   retry_count := 0;
                   error_messages := [] |} w2)
      as (o & w3 & log & E & R);
      [cbn [retry_count]; rewrite Z.sub_0_r; apply Nat.le_refl|].
    rewrite E.
    exists (Ok sql), (finish user_query o), w3, log. split.
    + destruct o; reflexivity.
    + intros envelope Hf. exact (loop_rephrased _ _ _ _ _ _ _ _ _ _ R Hf).
  - exists (Raise e), (Some (Client.error_envelope user_query e)), w2, [].
    split; [reflexivity|].
    intros envelope Hf Hk. injection Hf as <-. discriminate Hk.
Qed.

Lemma empty_candidates_keep_user_text_witness :
  Client.rephrase_query
    (reasoning :=
       Stub.reasoning (Stub.valid []) (Ok "SELECT SUM(total) FROM orders")
         (Ok "SELECT 1") (Ok "Total revenue was 1000."))
    "total revenue last week" 0%nat
  = (Returned "total revenue last week", 0%nat,
     [EvClassify "total revenue last week" (Stub.valid [])])
  /\ exists answer result w2 rest,
       Client.process_query_for_selected_table
         (reasoning :=
            Stub.reasoning (Stub.valid []) (Ok "SELECT SUM(total) FROM orders")
              (Ok "SELECT 1") (Ok "Total revenue was 1000."))
         (execution := Stub.always_rows)
         Stub.format_tool_result Stub.chosen "total revenue last week" 3 0%nat
       = (Returned result, w2,
          EvClassify "total revenue last week" (Stub.valid [])
            :: EvGenerate "total revenue last week" "orders"
                 "{id: Int, total: Float}" answer :: rest)
       /\ (forall envelope,
             result = Some envelope ->
             has_key "rephrased_query" envelope = true ->
             dict_get "rephrased_query" envelope
             = Some (PyStr "total revenue last week")).
Proof.
  apply (empty_candidates_keep_user_text
           (reasoning :=
              Stub.reasoning (Stub.valid [])
                (Ok "SELECT SUM(total) FROM orders") (Ok "SELECT 1")
                (Ok "Total revenue was 1000."))
           (execution := Stub.always_rows)
           Stub.format_tool_result Stub.chosen "orders"
           "{id: Int, total: Float}" "total revenue last week" 3 0%nat 0%nat
           {| query_type := "valid"; queries := [] |});
    first [reflexivity | discriminate].
Defined.

(** C9 (as stated, refuted).  The first execution answers without the
    sentinel, the summarisation request then fails, and the envelope
    returned is [{user_query, error}]: it shows neither the statement that
    ran nor its answer, so it records no attempt. *)
Lemma first_success_leaves_no_record :
  let run :=
    Client.process_query_for_selected_table
      (reasoning := Stub.unsummarizing) (execution := Stub.always_rows)
      Stub.format_tool_result Stub.chosen "total revenue last week" 3 0%nat in
  exists query table text,
    find Log.is_execution (snd run) = Some (EvExecute query table (Ok text))
    /\ PyStr.contains SENTINEL text = false
    /\ fst (fst run)
       = Returned
           (Some
              [("user_query", PyStr "total revenue last week");
               ("error", PyStr "Request timed out.")])
    /\ carries "sql_query" (Some
          [("user_query", PyStr "total revenue last week");
           ("error", PyStr "Request timed out.")]) = false
    /\ carries "result" (Some
          [("user_query", PyStr "total revenue last week");
           ("error", PyStr "Request timed out.")]) = false.
Proof. intros run. eexists _, _, _. repeat split. Qed.

(** C9 (amended).  If the first execution of a run answers without the
    sentinel, the run is the classification, the generation, that one
    execution of the generated statement, stripped, and the summarisation of
    its answer: one execution and no repair.  When the summarisation
    returns, the envelope is exactly the six fields [user_query],
    [rephrased_query], [selected_table], [sql_query] (the statement that
    ran), [result] (its answer) and [summary]; when it raises, the envelope
    is [{user_query, error}].  Neither has any of the fields
    [original_sql_query], [final_sql_query] and [error_messages]. *)
Theorem first_success_single_attempt
  {World : Type} {reasoning : ReasoningGateway World}
  {execution : ExecutionGateway World}
  (format_tool_result : ToolResult -> string)
  (self : Session) (user_query : string) (max_retries : Z) (w w1 : World)
  (r : Result (option PyDict)) (log : list Event)
  (query table text : string) :
  Client.process_query_for_selected_table format_tool_result self
    user_query max_retries w = (r, w1, log) ->
  find Log.is_execution log = Some (EvExecute query table (Ok text)) ->
  PyStr.contains SENTINEL text = false ->
  Log.executions log = 1%nat
  /\ Log.repairs log = 0%nat
  /\ exists verdict schema sql answer envelope,
       log = [EvClassify user_query (Ok verdict);
              EvGenerate (chosen_rephrasing user_query verdict) table schema
                (Ok sql);
              EvExecute query table (Ok text);
              EvSummarize user_query text answer]
       /\ query = PyStr.strip sql
       /\ selected_table self = Some table
       /\ r = Returned (Some envelope)
       /\ envelope
          = match answer with
            | Ok summary =>
                [("user_query", PyStr user_query);
                 ("rephrased_query",
                  PyStr (chosen_rephrasing user_query verdict));
                 ("selected_table", PyStr table);
                 ("sql_query", PyStr query);
                 ("result", PyStr text);
                 ("summary", PyStr (PyStr.strip summary))]
            | Raise e =>
                [("user_query", PyStr user_query); ("error", PyStr (str e))]
            end
       /\ has_key "original_sql_query" envelope = false
       /\ has_key "final_sql_query" envelope = false
       /\ has_key "error_messages" envelope = false.
Proof.
  intros E Hfirst Hrows.
  destruct (process_run format_tool_result (Z.to_nat max_retries) self
              user_query max_retries w (Nat.le_refl _))
    as (result & w1' & log' & E' & R).
  unfold Client.process_query_for_selected_table in E.
  rewrite E in E'. injection E' as -> -> ->.
  destruct R as [| | | |table' schema verdict sql log o Ht Hs Hq Hloop];
    try discriminate Hfirst.
  cbn [find Log.is_execution] in Hfirst.
  destruct (loop_first_rows _ _ _ _ _ _ _ _ _ _ _ _ Hloop Hfirst Hrows)
    as (Hquery & Htable & answer & -> & ->).
  cbn [current_query retry_count] in *. subst query table.
  count_log. split; [reflexivity|]. split; [reflexivity|].
  exists verdict, schema, sql, answer.
  destruct answer as [summary|e]; cbn [finish Z.eqb];
    eexists; repeat split; assumption.
Qed.

Lemma first_success_single_attempt_witness :
  let run :=
    Client.process_query_for_selected_table
      (reasoning := Stub.stubborn) (execution := Stub.always_rows)
      Stub.format_tool_result Stub.chosen "total revenue last week" 3 0%nat in
  Log.executions (snd run) = 1%nat
  /\ Log.repairs (snd run) = 0%nat
  /\ exists verdict schema sql answer envelope,
       snd run
       = [EvClassify "total revenue last week" (Ok verdict);
          EvGenerate (chosen_rephrasing "total revenue last week" verdict)
            "orders" schema (Ok sql);
          EvExecute "SELECT SUM(total) FROM orders WHERE" "orders"
            (Ok "Query executed successfully: [{total: 1000}]");
          EvSummarize "total revenue last week"
            "Query executed successfully: [{total: 1000}]" answer]
       /\ "SELECT SUM(total) FROM orders WHERE" = PyStr.strip sql
       /\ selected_table Stub.chosen = Some "orders"
       /\ fst (fst run) = Returned (Some envelope)
       /\ envelope
          = match answer with
            | Ok summary =>
                [("user_query", PyStr "total revenue last week");
                 ("rephrased_query",
                  PyStr (chosen_rephrasing "total revenue last week" verdict));
                 ("selected_table", PyStr "orders");
                 ("sql_query", PyStr "SELECT SUM(total) FROM orders WHERE");
                 ("result",
                  PyStr "Query executed successfully: [{total: 1000}]");
                 ("summary", PyStr (PyStr.strip summary))]
            | Raise e =>
                [("user_query", PyStr "total revenue last week");
                 ("error", PyStr (str e))]
            end
       /\ has_key "original_sql_query" envelope = false
       /\ has_key "final_sql_query" envelope = false
       /\ has_key "error_messages" envelope = false.
Proof.
  intros run.
  apply (first_success_single_attempt
           (reasoning := Stub.stubborn) (execution := Stub.always_rows)
           Stub.format_tool_result Stub.chosen "total revenue last week" 3
           0%nat (snd (fst run)) (fst (fst run)) (snd run)
           "SELECT SUM(total) FROM orders WHERE" "orders"
           "Query executed successfully: [{total: 1000}]");
    reflexivity.
Defined.

(** C10.  With [max_retries <= 0], a table selected, a classification that
    does not reject and a generation that answers, the function makes the
    classification and generation calls, makes no execution call, and
    returns [None]. *)
Theorem nonpositive_retries_return_none
  {World : Type} {reasoning : ReasoningGateway World}
  {execution : ExecutionGateway World}
  (format_tool_result : ToolResult -> string)
  (self : Session) (table schema user_query sql : string) (max_retries : Z)
  (w w1 w2 : World) (verdict : Verdict) :
  selected_table self = Some table ->
  table_schema self = Some schema ->
  classify user_query w = (Ok verdict, w1) ->
  query_type verdict <> "wrong" ->
  generate (chosen_rephrasing user_query verdict) table schema w1
  = (Ok sql, w2) ->
  max_retries <= 0 ->
  Client.process_query_for_selected_table format_tool_result self
    user_query max_retries w
  = (Returned None, w2,
     [EvClassify user_query (Ok verdict);
      EvGenerate (chosen_rephrasing user_query verdict) table schema (Ok sql)])
  /\ forall fuel,
       Client.process_with_fuel format_tool_result fuel self user_query
         max_retries w
       = Client.process_query_for_selected_table format_tool_result self
           user_query max_retries w.
Proof.
  intros Ht Hs Hc Hq Hg Hmax. apply String.eqb_neq in Hq.
  assert (forall fuel,
            Client.process_with_fuel format_tool_result fuel self user_query
              max_retries w
            = (Returned None, w2,
               [EvClassify user_query (Ok verdict);
                EvGenerate (chosen_rephrasing user_query verdict) table schema
                  (Ok sql)])) as Hall.
  { intros fuel.
    unfold Client.process_with_fuel, Run.try_except, Client.rephrase_query,
      Client.generate_sql, Run.bind, Run.call.
    rewrite Ht, Hs, Hc, Hq. cbn [Run.ret].
    fold (chosen_rephrasing user_query verdict). rewrite Hg.
    assert ((0 <? max_retries) = false) as Hlt by (apply Z.ltb_ge; exact Hmax).
    destruct fuel; cbn [Client.while_loop retry_count]; rewrite Hlt;
      reflexivity. }
  split.
  - apply Hall.
  - intros fuel. unfold Client.process_query_for_selected_table.
    now rewrite !Hall.
Qed.

Lemma nonpositive_retries_return_none_witness :
  Client.process_query_for_selected_table
    (reasoning := Stub.stubborn) (execution := Stub.always_rows)
    Stub.format_tool_result Stub.chosen "total revenue last week" 0 0%nat
  = (Returned None, 0%nat,
     [EvClassify "total revenue last week"
        (Stub.valid ["total revenue last week"]);
      EvGenerate "total revenue last week" "orders" "{id: Int, total: Float}"
        (Ok "SELECT SUM(total) FROM orders WHERE")]).
Proof.
  apply (nonpositive_retries_return_none
           (reasoning := Stub.stubborn) (execution := Stub.always_rows)
           Stub.format_tool_result Stub.chosen "orders"
           "{id: Int, total: Float}" "total revenue last week"
           "SELECT SUM(total) FROM orders WHERE" 0 0%nat 0%nat 0%nat
           {| query_type := "valid";
              queries := ["total revenue last week"] |});
    first [reflexivity | discriminate | lia].
Defined.

(** * Further properties of the three files *)

(** ** Calls next to each other in a log *)

Lemma adjacent_split (P : Event -> Event -> Prop) (log : list Event) :
  forall previous,
    adjacent P previous log ->
    forall before ev after,
      previous :: log = before ++ ev :: after ->
      before = []
      \/ exists earlier predecessor,
           before = earlier ++ [predecessor] /\ P predecessor ev.
Proof.
  induction log as [|next log IH]; intros previous Hadj before ev after E.
  - destruct before as [|b [|? ?]]; try discriminate E. now left.
  - destruct before as [|b before]; [now left|right].
    cbn [app] in E. injection E as <- E.
    destruct Hadj as [HP Hadj].
    destruct (IH _ Hadj _ _ _ E) as [->|(earlier & predecessor & -> & Hp)].
    + cbn [app] in E. injection E as <- _.
      exists [], previous. auto.
    + exists (previous :: earlier), predecessor. auto.
Qed.

Lemma adjacent_and (P Q : Event -> Event -> Prop) (log : list Event) :
  forall previous,
    adjacent P previous log -> adjacent Q previous log ->
    adjacent (fun a b => P a b /\ Q a b) previous log.
Proof.
  induction log as [|ev log IH]; intros previous HP HQ; cbn [adjacent] in *;
    [exact I|].
  destruct HP, HQ. auto.
Qed.

(** A call whose successor relation forbids any successor is the last. *)
Lemma adjacent_last (P : Event -> Event -> Prop) (log : list Event) :
  forall previous,
    adjacent P previous log ->
    forall before ev after,
      previous :: log = before ++ ev :: after ->
      (forall next, ~ P ev next) ->
      after = [].
Proof.
  induction log as [|next log IH]; intros previous Hadj before ev after E Hno.
  - destruct before as [|b [|? ?]]; try discriminate E.
    now injection E as _ <-.
  - destruct Hadj as [HP Hadj].
    destruct before as [|b before]; cbn [app] in E; injection E as <- E.
    + subst after. now elim (Hno next).
    + exact (IH _ Hadj _ _ _ E Hno).
Qed.

Section LoopTrace.
Variables (user_query : string) (max_retries : Z).
Variables (table schema rephrased_query sql_query : string).

Local Abbreviation Runs :=
  (LoopRun user_query max_retries table schema rephrased_query sql_query).

Ltac pairs :=
  cbn [adjacent hands_over closes quiet Trace.sql_given Trace.raised_by
       current_query];
  repeat split; eauto.

(** From the call that gave the loop its statement on, every call of a run
    of the loop is next to the right call. *)
Lemma loop_adjacent st log o :
  Runs st log o ->
  forall previous,
    Trace.sql_given previous = Some (current_query st) ->
    adjacent (fun a b => hands_over table a b
                         /\ closes user_query a b /\ quiet a b)
      previous log.
Proof.
  induction 1; intros previous Hp;
    assert (Trace.raised_by previous = None) as Hq
      by (destruct previous as [? []|? ? ? []|? ? ? ? ? []|? ? []|? ? []|? []];
          try reflexivity; discriminate Hp);
    assert (match previous with EvSummarize _ _ _ => False | _ => True end)
      as Hs by (destruct previous; try exact I; discriminate Hp);
    pairs.
Qed.

Lemma loop_repairs_given st log o :
  Runs st log o -> repairs_are_given table schema rephrased_query log.
Proof.
  induction 1; intros message query table' schema' rephrased' answer Hin;
    cbn [In] in Hin;
    repeat match goal with
      | H : _ \/ _ |- _ => destruct H as [H|H]
      | H : False |- _ => destruct H
      | H : EvRepair _ _ _ _ _ _ = EvRepair _ _ _ _ _ _ |- _ =>
          injection H as <- <- <- <- <- <-; auto
      | H : _ = EvRepair _ _ _ _ _ _ |- _ => discriminate H
      end.
  exact (IHLoopRun _ _ _ _ _ _ Hin).
Qed.

(** The run ends in the exception its last call raised. *)
Lemma loop_last_raised st log o e :
  Runs st log o -> last_raised log = Some e -> o = Raise e.
Proof.
  unfold last_raised.
  induction 1; cbn [fold_left Trace.raised_by]; intros E;
    try discriminate E; try (now injection E as <-).
  exact (IHLoopRun E).
Qed.

(** The error messages shown are the messages held at the loop's start
    followed by those sent with the repairs. *)
Lemma loop_messages st log o envelope errors :
  Runs st log o ->
  finish user_query o = Some envelope ->
  dict_get "error_messages" envelope = Some (PyList errors) ->
  errors = error_messages st ++ Trace.repair_messages log.
Proof.
  induction 1; intros E G; cbn [finish] in E; try discriminate E;
    try (injection E as <-); cbn [Trace.repair_messages];
    try (destruct (retry_count st =? 0));
    try discriminate G; try (injection G as <-);
    rewrite ?app_nil_r; try reflexivity.
  all: rewrite (IHLoopRun E G); cbn [error_messages];
    rewrite <- app_assoc; reflexivity.
Qed.

(** An envelope with a summary shows the single [sql_query] exactly when
    the loop started at zero and made no repair; otherwise it shows the
    history of repairs. *)
Lemma loop_direct st log o envelope :
  Runs st log o ->
  0 <= retry_count st ->
  finish user_query o = Some envelope ->
  has_key "summary" envelope = true ->
  has_key "sql_query" envelope
  = ((retry_count st =? 0) && (Log.repairs log =? 0)%nat)
  /\ has_key "error_messages" envelope
     = negb ((retry_count st =? 0) && (Log.repairs log =? 0)%nat).
Proof.
  induction 1; intros Hrc E G; cbn [finish] in E; try discriminate E;
    try (injection E as <-); count_log; try discriminate G.
  - destruct (retry_count st =? 0); split; reflexivity.
  - destruct (IHLoopRun ltac:(cbn [retry_count]; lia) E G) as [-> ->].
    cbn [retry_count].
    assert ((retry_count st + 1 =? 0) = false) as -> by lia.
    now rewrite andb_false_r.
  - now rewrite andb_false_r.
Qed.

(** The statement shown as final, or as the only one, is the statement of
    the last execution, and the result shown with a summary is its answer. *)
Lemma loop_last_execution st log o envelope query :
  Runs st log o ->
  0 <= retry_count st ->
  (retry_count st = 0 -> current_query st = sql_query) ->
  finish user_query o = Some envelope ->
  dict_get "final_sql_query" envelope = Some (PyStr query)
  \/ dict_get "sql_query" envelope = Some (PyStr query) ->
  exists answer,
    Trace.last_execution log = Some (query, answer)
    /\ (has_key "summary" envelope = true ->
        exists text,
          answer = Ok text
          /\ dict_get "result" envelope = Some (PyStr text)).
Proof.
  induction 1; intros Hrc Hfirst E G; cbn [finish] in E;
    try discriminate E; try (injection E as <-);
    cbn [Trace.last_execution];
    try (destruct G as [G|G]; discriminate G).
  - destruct (retry_count st =? 0) eqn:Hz.
    + apply Z.eqb_eq in Hz.
      destruct G as [G|G]; [discriminate G|]. injection G as <-.
      rewrite <- (Hfirst Hz). eauto.
    + destruct G as [G|G]; [|discriminate G]. injection G as <-. eauto.
  - destruct (IHLoopRun ltac:(cbn [retry_count]; lia)
                ltac:(cbn [retry_count]; lia) E G)
      as (answer & -> & Hsum).
    eauto.
  - destruct G as [G|G]; [|discriminate G]. injection G as <-.
    eexists; split; [reflexivity|]. intros Hk. discriminate Hk.
  - destruct G as [G|G]; [|discriminate G]. injection G as <-. eauto.
Qed.

End LoopTrace.

(** ** The calls of one run of [process_query_for_selected_table] *)

Ltac count_calls :=
  unfold Count.classifications, Count.generations, Count.summarizations,
    Log.executions, Log.repairs, Log.count in *;
  cbn [filter Count.is_classification Count.is_generation
       Count.is_summarization Log.is_execution Log.is_repair
       List.length] in *.

Lemma loop_chat_calls user_query max_retries table schema rephrased sql
  st log o :
  LoopRun user_query max_retries table schema rephrased sql st log o ->
  Count.classifications log = 0%nat
  /\ Count.generations log = 0%nat
  /\ (Count.summarizations log <= 1)%nat.
Proof. induction 1; count_calls; auto with arith. Qed.

Lemma loop_original user_query max_retries table schema rephrased sql
  st log o envelope query :
  LoopRun user_query max_retries table schema rephrased sql st log o ->
  finish user_query o = Some envelope ->
  dict_get "original_sql_query" envelope = Some (PyStr query) ->
  query = sql.
Proof.
  induction 1; intros E G; cbn [finish] in E; try discriminate E;
    try (injection E as <-); try (destruct (retry_count st =? 0));
    try discriminate G; try (now injection G as <-).
  all: exact (IHLoopRun E G).
Qed.

Lemma repair_messages_length (log : list Event) :
  List.length (Trace.repair_messages log) = Log.repairs log.
Proof.
  unfold Log.repairs, Log.count.
  induction log as [|[] log IH]; cbn [Trace.repair_messages filter
    Log.is_repair List.length]; auto.
Qed.

Section ProcessTrace.
Context {World : Type}.
Context {reasoning : ReasoningGateway World}.
Context {execution : ExecutionGateway World}.
Variable format_tool_result : ToolResult -> string.
Variables (self : Session) (user_query : string) (max_retries : Z).

(** What the function gave is what one of the runs gives. *)
Lemma process_run_of (w w1 : World) (r : Result (option PyDict))
  (log : list Event) :
  Client.process_query_for_selected_table format_tool_result self user_query
    max_retries w = (r, w1, log) ->
  exists result,
    r = Returned result /\ ProcessRun self user_query max_retries log result.
Proof.
  intros E.
  destruct (process_run format_tool_result (Z.to_nat max_retries) self
              user_query max_retries w (Nat.le_refl _))
    as (result & w1' & log' & E' & R).
  unfold Client.process_query_for_selected_table in E.
  rewrite E in E'. injection E' as -> -> ->. eauto.
Qed.

Lemma process_adjacent log result :
  ProcessRun self user_query max_retries log result ->
  match log with
  | [] => True
  | first :: rest =>
      exists table,
        selected_table self = Some table
        /\ (exists answer, first = EvClassify user_query answer)
        /\ adjacent (fun a b => hands_over table a b
                                /\ closes user_query a b /\ quiet a b)
             first rest
  end.
Proof.
  destruct 1 as [| | | |table schema verdict sql log o Ht Hs Hq Hloop];
    try exact I;
    (exists table; split; [assumption|]; split; [eauto|]);
    cbn [adjacent]; unfold hands_over, closes, quiet;
    cbn [Trace.raised_by]; repeat split; auto.
  eapply loop_adjacent; [eassumption | reflexivity].
Qed.

Lemma process_last_raised log result e :
  ProcessRun self user_query max_retries log result ->
  last_raised log = Some e ->
  result = Some (Client.error_envelope user_query e).
Proof.
  unfold last_raised.
  destruct 1 as [| | | |table schema verdict sql log o Ht Hs Hq Hloop];
    cbn [fold_left Trace.raised_by]; intros E; try discriminate E;
    try (now injection E as <-).
  now rewrite (loop_last_raised _ _ _ _ _ _ _ _ _ _ Hloop E).
Qed.

Lemma process_chat_calls log result :
  ProcessRun self user_query max_retries log result ->
  log = []
  \/ (Count.classifications log = 1%nat
      /\ (Count.generations log <= 1)%nat
      /\ (Count.summarizations log <= 1)%nat).
Proof.
  destruct 1 as [| | | |table schema verdict sql log o Ht Hs Hq Hloop];
    [now left|right..]; count_calls; auto.
  destruct (loop_chat_calls _ _ _ _ _ _ _ _ _ Hloop) as (Hc & Hg & Hsum).
  count_calls. rewrite Hc, Hg. auto.
Qed.

End ProcessTrace.

(** X1.  With no table selected the function calls no service, leaves the
    world as it was and returns the dictionary holding [error] alone.  With
    a table and its schema selected, the first call is the classification
    of the user query, and the run makes exactly one classification, at most
    one generation and at most one summarisation, whatever the number of
    retries. *)
Theorem classification_is_first_call
  {World : Type} {reasoning : ReasoningGateway World}
  {execution : ExecutionGateway World}
  (format_tool_result : ToolResult -> string)
  (self : Session) (user_query : string) (max_retries : Z) (w w1 : World)
  (r : Result (option PyDict)) (log : list Event) :
  Client.process_query_for_selected_table format_tool_result self user_query
    max_retries w = (r, w1, log) ->
  (selected_table self = None \/ table_schema self = None ->
   log = [] /\ w1 = w
   /\ r = Returned
           (Some
              [("error", PyStr "No table has been selected for this session")]))
  /\ (selected_table self <> None -> table_schema self <> None ->
      (exists answer rest, log = EvClassify user_query answer :: rest)
      /\ Count.classifications log = 1%nat
      /\ (Count.generations log <= 1)%nat
      /\ (Count.summarizations log <= 1)%nat).
Proof.
  intros E. split.
  - intros Hnone.
    unfold Client.process_query_for_selected_table, Client.process_with_fuel,
      Run.try_except in E.
    destruct Hnone as [Hn|Hn]; rewrite Hn in E;
      [|destruct (selected_table self)];
      cbn [Run.ret] in E; injection E as <- <- <-; auto.
  - intros Ht Hs.
    destruct (process_run_of _ _ _ _ _ _ _ _ E) as (result & -> & R).
    pose proof (process_adjacent _ _ _ _ _ R) as Hadj.
    destruct (process_chat_calls _ _ _ _ _ R) as [->|Hcount].
    + inversion R as [[Hn|Hn]| | | |]; contradiction.
    + split; [|exact Hcount].
      destruct log as [|first rest].
      * destruct Hcount as [Hc _]. discriminate Hc.
      * destruct Hadj as (table & _ & (answer & ->) & _). eauto.
Qed.

Lemma classification_is_first_call_witness :
  let run :=
    Client.process_query_for_selected_table
      (reasoning := Stub.stubborn) (execution := Stub.failing_once)
      Stub.format_tool_result Stub.chosen "total revenue last week" 3 0%nat in
  (exists answer rest,
     snd run = EvClassify "total revenue last week" answer :: rest)
  /\ Count.classifications (snd run) = 1%nat
  /\ (Count.generations (snd run) <= 1)%nat
  /\ (Count.summarizations (snd run) <= 1)%nat.
Proof.
  intros run.
  apply (classification_is_first_call
           (reasoning := Stub.stubborn) (execution := Stub.failing_once)
           Stub.format_tool_result Stub.chosen "total revenue last week" 3
           0%nat (snd (fst run)) (fst (fst run)) (snd run));
    first [reflexivity | discriminate].
Defined.

(** X2.  A service call that raises is the last call of the run, and the
    function returns [{user_query, error}] with the text of what that call
    raised: nothing is retried and nothing is called after it. *)
Theorem raising_call_ends_run
  {World : Type} {reasoning : ReasoningGateway World}
  {execution : ExecutionGateway World}
  (format_tool_result : ToolResult -> string)
  (self : Session) (user_query : string) (max_retries : Z) (w w1 : World)
  (r : Result (option PyDict)) (log : list Event) :
  Client.process_query_for_selected_table format_tool_result self user_query
    max_retries w = (r, w1, log) ->
  raising_call_is_last log
    (fun e =>
       r = Returned
             (Some [("user_query", PyStr user_query);
                    ("error", PyStr (str e))])).
Proof.
  intros E before ev after e Hlog Hraise.
  destruct (process_run_of _ _ _ _ _ _ _ _ E) as (result & -> & R).
  pose proof (process_adjacent _ _ _ _ _ R) as Hadj.
  destruct log as [|first rest]; [now destruct before|].
  destruct Hadj as (table & _ & _ & Hadj).
  assert (after = []) as ->.
  { eapply adjacent_last; [exact Hadj | exact Hlog |].
    intros next (_ & _ & Hquiet). unfold quiet in Hquiet. congruence. }
  split; [reflexivity|].
  rewrite (process_last_raised _ _ _ _ _ e R); [reflexivity|].
  rewrite Hlog. unfold last_raised. rewrite fold_left_app. exact Hraise.
Qed.

Lemma raising_call_ends_run_witness :
  let run :=
    Client.process_query_for_selected_table
      (reasoning := Stub.unsummarizing) (execution := Stub.always_rows)
      Stub.format_tool_result Stub.chosen "total revenue last week" 3 0%nat in
  raising_call_is_last (snd run)
    (fun e =>
       fst (fst run)
       = Returned
           (Some [("user_query", PyStr "total revenue last week");
                  ("error", PyStr (str e))])).
Proof.
  intros run.
  apply (raising_call_ends_run
           (reasoning := Stub.unsummarizing) (execution := Stub.always_rows)
           Stub.format_tool_result Stub.chosen "total revenue last week" 3
           0%nat (snd (fst run)) (fst (fst run)) (snd run)).
  reflexivity.
Defined.

(** X3.  The [error_messages] of a returned envelope are the messages sent
    with the repair calls, in call order, so there is one per repair; and an
    envelope with a summary shows the single [sql_query] exactly when the
    run made no repair, and the repair history otherwise. *)
Theorem envelope_lists_repair_messages
  {World : Type} {reasoning : ReasoningGateway World}
  {execution : ExecutionGateway World}
  (format_tool_result : ToolResult -> string)
  (self : Session) (user_query : string) (max_retries : Z) (w w1 : World)
  (envelope : PyDict) (log : list Event) :
  Client.process_query_for_selected_table format_tool_result self user_query
    max_retries w = (Returned (Some envelope), w1, log) ->
  (forall errors,
     dict_get "error_messages" envelope = Some (PyList errors) ->
     errors = Trace.repair_messages log
     /\ List.length errors = Log.repairs log)
  /\ (has_key "summary" envelope = true ->
      has_key "sql_query" envelope = (Log.repairs log =? 0)%nat
      /\ has_key "error_messages" envelope = negb (Log.repairs log =? 0)%nat).
Proof.
  intros E.
  destruct (process_run_of _ _ _ _ _ _ _ _ E) as (result & Hr & R).
  injection Hr as <-.
  inversion R as [| | | |table schema verdict sql log' o Ht Hs Hq Hloop E1 E2];
    subst; (split; [intros errors G; try discriminate G
                   | intros G; try discriminate G]).
  - assert (errors = Trace.repair_messages log') as ->
      by exact (loop_messages _ _ _ _ _ _ _ _ _ _ _ Hloop E2 G).
    split; [reflexivity|]. now rewrite repair_messages_length.
  - destruct (loop_direct _ _ _ _ _ _ _ _ _ _ Hloop (Z.le_refl 0)
                E2 G) as [-> ->].
    count_log. auto.
Qed.

Lemma envelope_lists_repair_messages_witness :
  let run :=
    Client.process_query_for_selected_table
      (reasoning := Stub.stubborn) (execution := Stub.failing_once)
      Stub.format_tool_result Stub.chosen "total revenue last week" 3 0%nat in
  ["Unknown column revenue"] = Trace.repair_messages (snd run)
  /\ List.length ["Unknown column revenue"] = Log.repairs (snd run).
Proof.
  intros run.
  refine (proj1
            (envelope_lists_repair_messages
               (reasoning := Stub.stubborn) (execution := Stub.failing_once)
               Stub.format_tool_result Stub.chosen "total revenue last week"
               3 0%nat (snd (fst run))
               (Client.repaired_envelope "total revenue last week"
                  "total revenue last week" "orders"
                  "SELECT SUM(total) FROM orders WHERE"
                  ["Unknown column revenue"]
                  "SELECT SUM(total) FROM orders WHERE"
                  "Query executed successfully: [{total: 1000}]"
                  "Total revenue was 1000.")
               (snd run) _)
            ["Unknown column revenue"] _);
    reflexivity.
Defined.

(** X4.  Every execution of a run is made on the selected table and runs
    the stripped answer of the call just before it, the generation or a
    repair; the generation call and every repair call are given the selected
    table, the stored schema, and the rephrasing chosen from the verdict. *)
Theorem executions_run_given_sql
  {World : Type} {reasoning : ReasoningGateway World}
  {execution : ExecutionGateway World}
  (format_tool_result : ToolResult -> string)
  (self : Session) (table schema user_query : string) (max_retries : Z)
  (w w1 : World) (r : Result (option PyDict)) (log : list Event) :
  Client.process_query_for_selected_table format_tool_result self user_query
    max_retries w = (r, w1, log) ->
  selected_table self = Some table ->
  table_schema self = Some schema ->
  executes_what_was_given table log
  /\ (forall verdict rest,
        log = EvClassify user_query (Ok verdict) :: rest ->
        repairs_are_given table schema
          (chosen_rephrasing user_query verdict) log
        /\ (forall rephrased table' schema' answer,
              In (EvGenerate rephrased table' schema' answer) log ->
              rephrased = chosen_rephrasing user_query verdict
              /\ table' = table /\ schema' = schema)).
Proof.
  intros E Ht Hs.
  destruct (process_run_of _ _ _ _ _ _ _ _ E) as (result & -> & R).
  split.
  - intros before query table' answer after Hlog.
    pose proof (process_adjacent _ _ _ _ _ R) as Hadj.
    destruct log as [|first rest]; [now destruct before|].
    destruct Hadj as (table0 & Ht0 & (first_answer & ->) & Hadj).
    rewrite Ht in Ht0. injection Ht0 as <-.
    destruct (adjacent_split _ _ _ Hadj _ _ _ Hlog)
      as [->|(earlier & previous & -> & (Hgive & _))].
    + discriminate Hlog.
    + destruct Hgive as [-> Hsql]. eauto.
  - intros verdict rest ->.
    inversion R
      as [| | | |table0 schema0 verdict0 sql log' o Ht0 Hs0 Hq Hloop E1 E2];
      subst; rewrite ?Ht in *; rewrite ?Hs in *;
      repeat match goal with
        | H : Some _ = Some _ |- _ => injection H as <-
        end.
    + split.
      * intros ? ? ? ? ? ? [Hin|[]]. discriminate Hin.
      * intros ? ? ? ? [Hin|[]]. discriminate Hin.
    + split.
      * intros ? ? ? ? ? ? [Hin|[Hin|[]]]; discriminate Hin.
      * intros ? ? ? ? [Hin|[Hin|[]]]; [discriminate Hin|].
        now injection Hin as <- <- <-.
    + split.
      * intros ? ? ? ? ? ? [Hin|[Hin|Hin]]; try discriminate Hin.
        exact (loop_repairs_given _ _ _ _ _ _ _ _ _ Hloop _ _ _ _ _ _ Hin).
      * intros ? ? ? ? [Hin|[Hin|Hin]]; [discriminate Hin| |].
        -- now injection Hin as <- <- <-.
        -- pose proof (loop_chat_calls _ _ _ _ _ _ _ _ _ Hloop)
             as (_ & Hg & _).
           unfold Count.generations, Log.count in Hg.
           apply List.length_zero_iff_nil in Hg.
           assert (In (EvGenerate rephrased table' schema' answer)
                     (filter Count.is_generation log')) as Hf
             by (apply filter_In; auto).
           rewrite Hg in Hf. destruct Hf.
Qed.

Lemma executions_run_given_sql_witness :
  let run :=
    Client.process_query_for_selected_table
      (reasoning := Stub.stubborn) (execution := Stub.failing_once)
      Stub.format_tool_result Stub.chosen "total revenue last week" 3 0%nat in
  executes_what_was_given "orders" (snd run).
Proof.
  intros run.
  apply (executions_run_given_sql
           (reasoning := Stub.stubborn) (execution := Stub.failing_once)
           Stub.format_tool_result Stub.chosen "orders"
           "{id: Int, total: Float}" "total revenue last week" 3
           0%nat (snd (fst run)) (fst (fst run)) (snd run));
    reflexivity.
Defined.

(** X5.  A summarisation call is the last call of its run; it follows an
    execution that answered, and it is given the raw user query (not the
    rephrased one) together with that answer. *)
Theorem summary_is_last_call
  {World : Type} {reasoning : ReasoningGateway World}
  {execution : ExecutionGateway World}
  (format_tool_result : ToolResult -> string)
  (self : Session) (user_query : string) (max_retries : Z) (w w1 : World)
  (r : Result (option PyDict)) (log : list Event) :
  Client.process_query_for_selected_table format_tool_result self user_query
    max_retries w = (r, w1, log) ->
  summary_closes user_query log.
Proof.
  intros E before question output answer after Hlog.
  destruct (process_run_of _ _ _ _ _ _ _ _ E) as (result & -> & R).
  pose proof (process_adjacent _ _ _ _ _ R) as Hadj.
  destruct log as [|first rest]; [now destruct before|].
  destruct Hadj as (table & _ & (first_answer & ->) & Hadj).
  split; [|].
  - eapply adjacent_last; [exact Hadj | exact Hlog |].
    intros next (_ & (Hno & _) & _). exact Hno.
  - destruct (adjacent_split _ _ _ Hadj _ _ _ Hlog)
      as [->|(earlier & previous & -> & (_ & (_ & Hsum) & _))].
    + discriminate Hlog.
    + destruct Hsum as (-> & query & table' & ->). eauto.
Qed.

Lemma summary_is_last_call_witness :
  let run :=
    Client.process_query_for_selected_table
      (reasoning := Stub.stubborn) (execution := Stub.failing_once)
      Stub.format_tool_result Stub.chosen "total revenue last week" 3 0%nat in
  summary_closes "total revenue last week" (snd run).
Proof.
  intros run.
  apply (summary_is_last_call
           (reasoning := Stub.stubborn) (execution := Stub.failing_once)
           Stub.format_tool_result Stub.chosen "total revenue last week" 3
           0%nat (snd (fst run)) (fst (fst run)) (snd run)).
  reflexivity.
Defined.

(** X6.  The statement an envelope shows as [final_sql_query], or as its
    only [sql_query], is the statement of the last execution of the run;
    with a summary, the [result] shown is the answer of that execution; and
    the [original_sql_query] shown is the stripped answer of the generation
    call. *)
Theorem envelope_shows_last_execution
  {World : Type} {reasoning : ReasoningGateway World}
  {execution : ExecutionGateway World}
  (format_tool_result : ToolResult -> string)
  (self : Session) (user_query : string) (max_retries : Z) (w w1 : World)
  (envelope : PyDict) (log : list Event) :
  Client.process_query_for_selected_table format_tool_result self user_query
    max_retries w = (Returned (Some envelope), w1, log) ->
  (forall query,
     dict_get "final_sql_query" envelope = Some (PyStr query)
     \/ dict_get "sql_query" envelope = Some (PyStr query) ->
     exists answer,
       Trace.last_execution log = Some (query, answer)
       /\ (has_key "summary" envelope = true ->
           exists text,
             answer = Ok text
             /\ dict_get "result" envelope = Some (PyStr text)))
  /\ (forall query,
        dict_get "original_sql_query" envelope = Some (PyStr query) ->
        exists rephrased table schema answer,
          In (EvGenerate rephrased table schema (Ok answer)) log
          /\ query = PyStr.strip answer).
Proof.
  intros E.
  destruct (process_run_of _ _ _ _ _ _ _ _ E) as (result & Hr & R).
  injection Hr as <-.
  inversion R as [| | | |table schema verdict sql log' o Ht Hs Hq Hloop E1 E2];
    subst;
    (split; [intros query [G|G]; try discriminate G
            | intros query G; try discriminate G]).
  - destruct (loop_last_execution _ _ _ _ _ _ _ _ _ _ query Hloop
                (Z.le_refl 0) (fun _ => eq_refl) E2 (or_introl G))
      as (answer & Hlast & Hsum).
    exists answer. cbn [Trace.last_execution]. now rewrite Hlast.
  - destruct (loop_last_execution _ _ _ _ _ _ _ _ _ _ query Hloop
                (Z.le_refl 0) (fun _ => eq_refl) E2 (or_intror G))
      as (answer & Hlast & Hsum).
    exists answer. cbn [Trace.last_execution]. now rewrite Hlast.
  - rewrite (loop_original _ _ _ _ _ _ _ _ _ _ _ Hloop E2 G).
    eexists _, _, _, sql. split; [|reflexivity]. cbn [In]. auto.
Qed.

Lemma envelope_shows_last_execution_witness :
  let run :=
    Client.process_query_for_selected_table
      (reasoning := Stub.stubborn) (execution := Stub.failing_once)
      Stub.format_tool_result Stub.chosen "total revenue last week" 3 0%nat in
  exists answer,
    Trace.last_execution (snd run)
    = Some ("SELECT SUM(total) FROM orders WHERE", answer)
    /\ (true = true ->
        exists text,
          answer = Ok text
          /\ Some (PyStr "Query executed successfully: [{total: 1000}]")
             = Some (PyStr text)).
Proof.
  intros run.
  refine (proj1
            (envelope_shows_last_execution
               (reasoning := Stub.stubborn) (execution := Stub.failing_once)
               Stub.format_tool_result Stub.chosen "total revenue last week"
               3 0%nat (snd (fst run))
               (Client.repaired_envelope "total revenue last week"
                  "total revenue last week" "orders"
                  "SELECT SUM(total) FROM orders WHERE"
                  ["Unknown column revenue"]
                  "SELECT SUM(total) FROM orders WHERE"
                  "Query executed successfully: [{total: 1000}]"
                  "Total revenue was 1000.")
               (snd run) _)
            "SELECT SUM(total) FROM orders WHERE" _);
    [reflexivity | left; reflexivity].
Defined.

(** ** The log carries the answers of the services *)

Section Answers.
Context {World : Type}.
Context {reasoning : ReasoningGateway World}.
Context {execution : ExecutionGateway World}.
Variable format_tool_result : ToolResult -> string.

Local Abbreviation faithful := (logs_answers format_tool_result).

Lemma faithful_ret {A : Type} (a : A) : faithful (Run.ret a).
Proof. intros w r w1 log E. injection E as _ _ <-. constructor. Qed.

Lemma faithful_raise {A : Type} (e : PyException) :
  faithful (@Run.raise World A e).
Proof. intros w r w1 log E. injection E as _ _ <-. constructor. Qed.

Lemma faithful_out_of_fuel {A : Type} : faithful (@Run.out_of_fuel World A).
Proof. intros w r w1 log E. injection E as _ _ <-. constructor. Qed.

Lemma faithful_bind {A B : Type} (m : Run.M A) (k : A -> Run.M B) :
  faithful m -> (forall a, faithful (k a)) -> faithful (Run.bind m k).
Proof.
  intros Hm Hk w r w1 log E. unfold Run.bind in E.
  destruct (m w) as [[[a|e|] w2] log2] eqn:Em.
  - destruct (k a w2) as [[r3 w3] log3] eqn:Ek.
    injection E as _ _ <-. apply Forall_app. split.
    + exact (Hm _ _ _ _ Em).
    + exact (Hk _ _ _ _ _ Ek).
  - injection E as _ _ <-. exact (Hm _ _ _ _ Em).
  - injection E as _ _ <-. exact (Hm _ _ _ _ Em).
Qed.

Lemma faithful_try_except {A : Type} (m : Run.M A) (handler : PyException -> A) :
  faithful m -> faithful (Run.try_except m handler).
Proof.
  intros Hm w r w1 log E. unfold Run.try_except in E.
  destruct (m w) as [[[a|e|] w2] log2] eqn:Em;
    injection E as _ _ <-; exact (Hm _ _ _ _ Em).
Qed.

Lemma faithful_call {A : Type} (service : World -> outcome A * World)
  (event : outcome A -> Event) :
  (forall w, answered_by_services format_tool_result
               (event (fst (service w)))) ->
  faithful (Run.call service event).
Proof.
  intros Hs w r w1 log E. unfold Run.call in E.
  specialize (Hs w).
  destruct (service w) as [[a|e] w2]; injection E as _ _ <-;
    constructor; auto.
Qed.

Lemma faithful_execute_query (query table : string) :
  faithful (Client.execute_query format_tool_result query table).
Proof.
  apply faithful_call. intros w. exists w.
  now destruct (session_call_tool _ _ w).
Qed.

Lemma faithful_loop_body user_query max_retries table schema rephrased sql st :
  faithful (Client.loop_body format_tool_result user_query max_retries table
              schema rephrased sql st).
Proof.
  unfold Client.loop_body.
  apply faithful_bind; [apply faithful_execute_query|intros result].
  destruct (PyStr.contains SENTINEL result).
  - apply faithful_bind.
    { unfold Client.extract_error_message.
      destruct (nth_error _ 1); [apply faithful_ret | apply faithful_raise]. }
    intros message. apply faithful_bind.
    { unfold Client.retry_failed_query.
      apply faithful_bind; [|intros; apply faithful_ret].
      apply faithful_call. intros w. now exists w. }
    intros corrected. destruct (_ =? _); [|apply faithful_ret].
    apply faithful_bind; [apply faithful_execute_query|intros final].
    destruct (PyStr.contains SENTINEL final); [apply faithful_ret|].
    apply faithful_bind; [|intros; apply faithful_ret].
    unfold Client.summarize_results.
    apply faithful_bind; [|intros; apply faithful_ret].
    apply faithful_call. intros w. now exists w.
  - apply faithful_bind.
    { unfold Client.summarize_results.
      apply faithful_bind; [|intros; apply faithful_ret].
      apply faithful_call. intros w. now exists w. }
    intros summary. destruct (_ =? _); apply faithful_ret.
Qed.

Lemma faithful_while_loop user_query max_retries table schema rephrased sql
  fuel :
  forall st,
    faithful (Client.while_loop format_tool_result user_query max_retries
                table schema rephrased sql fuel st).
Proof.
  induction fuel as [|fuel IH]; intros st; cbn [Client.while_loop];
    destruct (retry_count st <? max_retries);
    try apply faithful_ret; try apply faithful_out_of_fuel.
  apply faithful_bind; [apply faithful_loop_body|].
  intros [st'|envelope]; [apply IH | apply faithful_ret].
Qed.

(** Every call in the log of the function carries an answer of a service. *)
Lemma faithful_process (self : Session) (user_query : string)
  (max_retries : Z) :
  faithful (Client.process_query_for_selected_table format_tool_result self
              user_query max_retries).
Proof.
  unfold Client.process_query_for_selected_table, Client.process_with_fuel.
  apply faithful_try_except.
  destruct (selected_table self); [|apply faithful_ret].
  destruct (table_schema self); [|apply faithful_ret].
  apply faithful_bind.
  { unfold Client.rephrase_query. apply faithful_bind.
    - apply faithful_call. intros w. now exists w.
    - intros verdict. destruct (String.eqb _ _);
        [apply faithful_raise | apply faithful_ret]. }
  intros rephrased. apply faithful_bind; [|intros; apply faithful_while_loop].
  unfold Client.generate_sql.
  apply faithful_bind; [|intros; apply faithful_ret].
  apply faithful_call. intros w. now exists w.
Qed.

End Answers.

(** ** The failure text of the server, read back by the client *)

Lemma partition_none (sep s : string) :
  PyStr.contains sep s = false -> PyStr.partition sep s = None.
Proof.
  induction s as [|c s IH]; rewrite contains_unfold, partition_unfold;
    destruct (String.prefix sep _); intros H; try discriminate H;
    try reflexivity.
  now rewrite (IH H).
Qed.

(** A text that starts with the separator and holds it nowhere else splits
    into the empty text and the rest. *)
Lemma split_leading (sep rest : string) :
  sep <> EmptyString ->
  PyStr.contains sep rest = false ->
  PyStr.split sep (sep +++ rest) = [EmptyString; rest].
Proof.
  intros Hsep Hrest. unfold PyStr.split.
  destruct (String.length (sep +++ rest)) as [|fuel] eqn:Hlen.
  - rewrite length_append in Hlen. destruct sep; [contradiction|].
    discriminate Hlen.
  - cbn [PyStr.split_fuel]. rewrite partition_unfold, prefix_append,
      drop_append.
    f_equal. destruct fuel; cbn [PyStr.split_fuel]; [reflexivity|].
    now rewrite (partition_none _ _ Hrest).
Qed.

Lemma strip_leading_space (s : string) :
  PyStr.strip (String " " s) = PyStr.strip s.
Proof. reflexivity. Qed.

Lemma contains_after_space (s : string) :
  PyStr.contains SENTINEL (String " " s) = PyStr.contains SENTINEL s.
Proof. rewrite contains_unfold. reflexivity. Qed.

Lemma error_message_of_server_text (message : string) :
  PyStr.contains SENTINEL message = false ->
  error_message_of ("Error executing custom query: " +++ message)
  = PyStr.strip message.
Proof.
  intros H. unfold error_message_of.
  change ("Error executing custom query: " +++ message)
    with (SENTINEL +++ String " " message).
  rewrite split_leading;
    [|discriminate | now rewrite contains_after_space].
  cbn [nth]. apply strip_leading_space.
Qed.

(** X7.  When the database raises on a statement, the handler answers with
    a single text that the client reads as a failure, and the message the
    client takes from it is the text of the database exception, stripped,
    provided that text does not itself hold the sentinel phrase. *)
Theorem server_error_is_read_back
  (client_query : string -> outcome QueryResult)
  (json_dumps : Json -> string) (index_error : PyException)
  (dumps_error : Json -> option PyException)
  (query : string) (e : PyException) (arguments : list (string * string)) :
  dict_get "query" arguments = Some query ->
  client_query query = Raise e ->
  PyStr.contains SENTINEL (str e) = false ->
  exists text,
    Server.call_tool client_query json_dumps index_error dumps_error
      "execute_custom_query" arguments = Ok [TextContent text]
    /\ PyStr.contains SENTINEL text = true
    /\ error_message_of text = PyStr.strip (str e).
Proof.
  intros Ha Hq He. unfold Server.call_tool, Server.run_query.
  cbn [String.eqb Ascii.eqb Bool.eqb]. rewrite Ha, Hq.
  eexists; split; [reflexivity|]. split.
  - apply (contains_append EmptyString SENTINEL (" " +++ str e)).
  - now apply error_message_of_server_text.
Qed.

Lemma server_error_is_read_back_witness :
  exists text,
    Server.call_tool (Stub.rejecting (Exception "Code: 62. Syntax error"))
      (fun _ => EmptyString) (Exception "tuple index out of range") (fun _ => None)
      "execute_custom_query" [("query", "SELEC 1"); ("table_name", "orders")]
    = Ok [TextContent text]
    /\ PyStr.contains SENTINEL text = true
    /\ error_message_of text = PyStr.strip "Code: 62. Syntax error".
Proof.
  apply (server_error_is_read_back
           (Stub.rejecting (Exception "Code: 62. Syntax error"))
           (fun _ => EmptyString) (Exception "tuple index out of range") (fun _ => None)
           "SELEC 1" (Exception "Code: 62. Syntax error"));
    reflexivity.
Defined.

(** ** A database that rejects every statement *)

Lemma repeat_snoc {A : Type} (a : A) (n : nat) :
  repeat a n ++ [a] = a :: repeat a n.
Proof. induction n; cbn [repeat app]; [reflexivity | now rewrite IHn]. Qed.

Lemma loop_all_fail user_query max_retries table schema rephrased sql
  st log o message :
  LoopRun user_query max_retries table schema rephrased sql st log o ->
  retry_count st < max_retries ->
  (forall query table' answer,
     In (EvExecute query table' answer) log ->
     exists text,
       answer = Ok text
       /\ PyStr.contains SENTINEL text = true
       /\ error_message_of text = message) ->
  (forall message' query table' schema' rephrased' answer,
     In (EvRepair message' query table' schema' rephrased' answer) log ->
     exists corrected, answer = Ok corrected) ->
  exists final,
    o = Ok (Some
              (Client.exhausted_envelope user_query rephrased table sql
                 (error_messages st
                    ++ repeat message
                         (Z.to_nat (max_retries - retry_count st)))
                 final))
    /\ Z.of_nat (Log.executions log) = max_retries - retry_count st + 1
    /\ Z.of_nat (Log.repairs log) = max_retries - retry_count st.
Proof.
  induction 1; intros Hlt Hfail Hfix; try lia;
    try (destruct (Hfail (current_query st) table (Ok result))
           as (text & Htext & Hc & Hm);
         [cbn [In]; auto | injection Htext as <-]);
    try congruence.
  - destruct (Hfail (current_query st) table (Raise e)) as (? & Habs & _);
      [cbn [In]; auto | discriminate Habs].
  - destruct (Hfix _ _ _ _ _ _ (or_intror (or_introl eq_refl)))
      as (? & Habs). discriminate Habs.
  - destruct IHLoopRun as (final & -> & Hex & Hrep);
      [cbn [retry_count]; lia
      |intros ? ? ? Hin; eapply Hfail; cbn [In]; eauto
      |intros ? ? ? ? ? ? Hin; eapply Hfix; cbn [In]; eauto|].
    cbn [retry_count error_messages] in *.
    exists final. count_log. repeat split; try lia.
    do 3 f_equal. rewrite Hm, <- app_assoc. f_equal.
    replace (Z.to_nat (max_retries - retry_count st))
      with (S (Z.to_nat (max_retries - (retry_count st + 1)))) by lia.
    reflexivity.
  - destruct (Hfail (PyStr.strip corrected) table (Raise e))
      as (? & Habs & _); [cbn [In]; auto | discriminate Habs].
  - eexists. count_log. repeat split; try lia.
    do 3 f_equal. rewrite Hm.
    replace (Z.to_nat (max_retries - retry_count st)) with 1%nat by lia.
    reflexivity.
  - destruct (Hfail (PyStr.strip corrected) table (Ok final))
      as (? & Htext & Hc' & _); [cbn [In]; auto|].
    injection Htext as <-. congruence.
  - destruct (Hfail (PyStr.strip corrected) table (Ok final))
      as (? & Htext & Hc' & _); [cbn [In]; auto|].
    injection Htext as <-. congruence.
Qed.

(** What the client reads from the served session when the database raises
    on every statement. *)
Lemma served_execution_fails (reasoning : ReasoningGateway unit)
  (client_query : string -> outcome QueryResult)
  (json_dumps : Json -> string) (index_error : PyException)
  (dumps_error : Json -> option PyException)
  (format_tool_result : ToolResult -> string) (e : PyException)
  (query table : string) (answer : outcome string) :
  (forall statement, client_query statement = Raise e) ->
  answered_by_services
    (execution := Server.served client_query json_dumps index_error dumps_error)
    format_tool_result (EvExecute query table answer) ->
  answer = Ok ("Error executing custom query: " +++ str e).
Proof.
  intros Hdb [w <-].
  cbn [session_call_tool Server.served fst].
  unfold Server.call_tool, Server.run_query.
  cbn [String.eqb Ascii.eqb Bool.eqb dict_get]. rewrite Hdb. reflexivity.
Qed.

(** X8.  Against a database that raises the same exception on every
    statement, with a chat service that accepts the question and answers
    every request for SQL, a run with [max_retries >= 1] makes exactly
    [max_retries + 1] executions and [max_retries] repairs and returns the
    envelope of exhausted retries, whose error messages are [max_retries]
    copies of the stripped text of the database exception. *)
Theorem database_down_exhausts_retries
  (reasoning : ReasoningGateway unit)
  (client_query : string -> outcome QueryResult)
  (json_dumps : Json -> string) (index_error : PyException)
  (dumps_error : Json -> option PyException)
  (format_tool_result : ToolResult -> string)
  (self : Session) (table schema user_query : string) (max_retries : Z)
  (e : PyException) (r : Result (option PyDict)) (log : list Event) :
  Client.process_query_for_selected_table
    (execution := Server.served client_query json_dumps index_error dumps_error)
    format_tool_result self user_query max_retries tt = (r, tt, log) ->
  selected_table self = Some table ->
  table_schema self = Some schema ->
  1 <= max_retries ->
  (forall statement, client_query statement = Raise e) ->
  PyStr.contains SENTINEL (str e) = false ->
  (forall question w,
     exists verdict,
       fst (classify question w) = Ok verdict
       /\ query_type verdict <> "wrong") ->
  (forall rephrased table' schema' w,
     exists sql, fst (generate rephrased table' schema' w) = Ok sql) ->
  (forall message query table' schema' rephrased w,
     exists sql,
       fst (repair message query table' schema' rephrased w) = Ok sql) ->
  exists rephrased original final,
    r = Returned
          (Some
             (Client.exhausted_envelope user_query rephrased table original
                (repeat (PyStr.strip (str e)) (Z.to_nat max_retries)) final))
    /\ Z.of_nat (Log.executions log) = max_retries + 1
    /\ Z.of_nat (Log.repairs log) = max_retries.
Proof.
  intros E Ht Hs Hmax Hdb He Hclassify Hgenerate Hrepair.
  pose proof (faithful_process format_tool_result self user_query max_retries
                _ _ _ _ E) as Hans.
  destruct (process_run_of _ _ _ _ _ _ _ _ E) as (result & -> & R).
  rewrite Forall_forall in Hans.
  destruct R as [[Hn|Hn]| | | |table0 schema0 verdict sql log o Ht0 Hs0 Hq Hloop];
    try congruence.
  - destruct (Hans _ (or_introl eq_refl)) as [w Hw].
    destruct (Hclassify user_query w) as (v & Hv & _). congruence.
  - destruct (Hans _ (or_introl eq_refl)) as [w Hw].
    destruct (Hclassify user_query w) as (v & Hv & Hok).
    rewrite Hw in Hv. injection Hv as <-. contradiction.
  - destruct (Hans _ (or_intror (or_introl eq_refl))) as [w Hw].
    destruct (Hgenerate (chosen_rephrasing user_query verdict) table0 schema0 w)
      as (s & Hg). congruence.
  - rewrite Ht in Ht0. injection Ht0 as <-.
    assert (forall ev, In ev log ->
              answered_by_services
                (execution :=
                   Server.served client_query json_dumps index_error dumps_error)
                format_tool_result ev) as Hloop_ans
      by (intros ev Hin; apply Hans; cbn [In]; auto).
    destruct (loop_all_fail _ _ _ _ _ _ _ _ _ (PyStr.strip (str e)) Hloop)
      as (final & -> & Hex & Hrep).
    + cbn [retry_count]. lia.
    + intros query table' answer Hin.
      rewrite (served_execution_fails _ _ _ _ _ _ _ _ _ _ Hdb
                 (Hloop_ans _ Hin)).
      eexists; split; [reflexivity|]. split.
      * apply (contains_append EmptyString SENTINEL (" " +++ str e)).
      * now apply error_message_of_server_text.
    + intros message' query table' schema' rephrased' answer Hin.
      destruct (Hloop_ans _ Hin) as [w Hw].
      destruct (Hrepair message' query table' schema' rephrased' w)
        as (s & Hg).
      exists s. congruence.
    + cbn [retry_count error_messages app finish] in *.
      rewrite Z.sub_0_r in *.
      eexists _, _, final. count_log. repeat split; lia.
Qed.

Lemma database_down_exhausts_retries_witness :
  let run :=
    Client.process_query_for_selected_table
      (reasoning :=
         Stub.reasoning (World := unit) (Stub.valid ["total revenue"])
           (Ok "SELECT SUM(total) FROM orders") (Ok "SELECT SUM(total) FROM o")
           (Ok "Total revenue was 1000."))
      (execution :=
         Server.served (Stub.rejecting (Exception "Connection refused"))
           (fun _ => EmptyString) (Exception "tuple index out of range") (fun _ => None))
      Stub.format_tool_result Stub.chosen "total revenue last week" 2 tt in
  exists rephrased original final,
    fst (fst run)
    = Returned
        (Some
           (Client.exhausted_envelope "total revenue last week" rephrased
              "orders" original
              (repeat (PyStr.strip "Connection refused") (Z.to_nat 2)) final))
    /\ Z.of_nat (Log.executions (snd run)) = 2 + 1
    /\ Z.of_nat (Log.repairs (snd run)) = 2.
Proof.
  intros run.
  apply (database_down_exhausts_retries
           (Stub.reasoning (World := unit) (Stub.valid ["total revenue"])
              (Ok "SELECT SUM(total) FROM orders")
              (Ok "SELECT SUM(total) FROM o")
              (Ok "Total revenue was 1000."))
           (Stub.rejecting (Exception "Connection refused"))
           (fun _ => EmptyString) (Exception "tuple index out of range") (fun _ => None)
           Stub.format_tool_result Stub.chosen "orders"
           "{id: Int, total: Float}" "total revenue last week" 2
           (Exception "Connection refused") (fst (fst run)) (snd run)).
  - reflexivity.
  - reflexivity.
  - reflexivity.
  - lia.
  - reflexivity.
  - reflexivity.
  - intros question w. eexists; split; [reflexivity | discriminate].
  - intros. eexists; reflexivity.
  - intros. eexists; reflexivity.
Defined.

(** ** Dictionaries: assignment and lookup *)

Section Dict.
Context {V : Type}.
Implicit Types (d : list (string * V)) (k : string) (v : V).

Lemma dict_get_set_same k v d : dict_get k (dict_set k v d) = Some v.
Proof.
  induction d as [|[k' v'] d IH]; cbn [dict_set dict_get].
  - now rewrite String.eqb_refl.
  - destruct (String.eqb k k') eqn:E; cbn [dict_get]; rewrite ?String.eqb_refl;
      [reflexivity|]. now rewrite E.
Qed.

Lemma dict_get_set_other k k' v d :
  k <> k' -> dict_get k' (dict_set k v d) = dict_get k' d.
Proof.
  intros Hne. induction d as [|[k0 v0] d IH]; cbn [dict_set dict_get].
  - apply not_eq_sym, String.eqb_neq in Hne. now rewrite Hne.
  - destruct (String.eqb k k0) eqn:E; cbn [dict_get].
    + apply String.eqb_eq in E. subst k0.
      apply not_eq_sym, String.eqb_neq in Hne. now rewrite Hne.
    + destruct (String.eqb k' k0); [reflexivity | exact IH].
Qed.

Lemma dict_get_in_keys k d :
  In k (map fst d) <-> dict_get k d <> None.
Proof.
  induction d as [|[k' v'] d IH]; cbn [map fst In dict_get].
  - split; [intros [] | intros H; now elim H].
  - destruct (String.eqb k k') eqn:E.
    + apply String.eqb_eq in E. subst. split; [discriminate | auto].
    + apply String.eqb_neq in E. rewrite <- IH. split.
      * intros [H|H]; [now elim E | exact H].
      * auto.
Qed.

(** Assignment to a new key appends; assignment to a key that is there
    keeps the keys as they are. *)
Lemma dict_set_keys k v d :
  map fst (dict_set k v d)
  = if has_key k d then map fst d else map fst d ++ [k].
Proof.
  unfold has_key.
  induction d as [|[k' v'] d IH]; cbn [dict_set dict_get map fst app].
  - reflexivity.
  - destruct (String.eqb k k') eqn:E; cbn [map fst].
    + apply String.eqb_eq in E. now subst.
    + rewrite IH. now destruct (dict_get k d).
Qed.

Lemma dict_set_fresh k v d :
  ~ In k (map fst d) -> dict_set k v d = d ++ [(k, v)].
Proof.
  induction d as [|[k' v'] d IH]; cbn [map fst In dict_set app]; intros H.
  - reflexivity.
  - destruct (String.eqb k k') eqn:E.
    + apply String.eqb_eq in E. subst. elim H. auto.
    + rewrite IH; auto.
Qed.

Lemma dict_set_in_keys k k' v d :
  In k' (map fst (dict_set k v d)) <-> k' = k \/ In k' (map fst d).
Proof.
  rewrite dict_set_keys. unfold has_key.
  destruct (dict_get k d) eqn:E.
  - split; [auto|]. intros [->|H]; [|exact H].
    apply dict_get_in_keys. congruence.
  - rewrite in_app_iff. cbn [In]. intuition congruence.
Qed.

Lemma dict_set_nodup k v d :
  NoDup (map fst d) -> NoDup (map fst (dict_set k v d)).
Proof.
  intros Hd. rewrite dict_set_keys. unfold has_key.
  destruct (dict_get k d) eqn:E; [exact Hd|].
  apply NoDup_app; [exact Hd | repeat constructor; intros [] |].
  intros x Hx [<-|[]]. apply dict_get_in_keys in Hx. contradiction.
Qed.

End Dict.

(** ** The schema descriptor built by [get_table_schema] *)

Section Schema.
Variable index_error : PyException.

Local Abbreviation fill := (Server.fill_row_data index_error).

Lemma fill_cons (column data_type : string) (extra : list string)
  (rest : list (list string)) (acc : list (string * Json)) :
  fill ((column :: data_type :: extra) :: rest) acc
  = fill rest (dict_set column (JObject [("type", JString data_type)]) acc).
Proof. reflexivity. Qed.

Lemma fill_short (row : list string) (rest : list (list string))
  (acc : list (string * Json)) :
  (List.length row < 2)%nat -> fill (row :: rest) acc = Raise index_error.
Proof.
  destruct row as [|c [|t extra]]; cbn [List.length]; intros H;
    [reflexivity | reflexivity | lia].
Qed.

Lemma fill_raises (rows : list (list string)) :
  (exists row, In row rows /\ (List.length row < 2)%nat) ->
  forall acc, fill rows acc = Raise index_error.
Proof.
  induction rows as [|row rows IH]; intros (bad & Hin & Hlen) acc.
  - destruct Hin.
  - destruct row as [|c [|t extra]]; try reflexivity.
    rewrite fill_cons. apply IH. exists bad. split; [|exact Hlen].
    destruct Hin as [<-|Hin]; [cbn [List.length] in Hlen; lia | exact Hin].
Qed.

Lemma fill_answers (rows : list (list string)) :
  Forall (fun row => (2 <= List.length row)%nat) rows ->
  forall acc, exists row_data, fill rows acc = Ok row_data.
Proof.
  induction 1 as [|row rows Hrow _ IH]; intros acc.
  - now exists acc.
  - destruct row as [|c [|t extra]]; cbn [List.length] in Hrow; try lia.
    rewrite fill_cons. apply IH.
Qed.

Lemma fill_nodup (rows : list (list string)) :
  forall acc row_data,
    fill rows acc = Ok row_data ->
    NoDup (map fst acc) -> NoDup (map fst row_data).
Proof.
  induction rows as [|row rows IH]; intros acc row_data E Hacc.
  - now injection E as <-.
  - destruct row as [|c [|t extra]]; try discriminate E.
    rewrite fill_cons in E. eapply IH; [exact E|].
    now apply dict_set_nodup.
Qed.

Lemma fill_keys (rows : list (list string)) :
  forall acc row_data,
    fill rows acc = Ok row_data ->
    forall column,
      In column (map fst row_data) <->
      In column (map fst acc)
      \/ exists row, In row rows /\ nth_error row 0 = Some column.
Proof.
  induction rows as [|row rows IH]; intros acc row_data E column.
  - injection E as <-. split; [auto|]. intros [H|(row & [] & _)]. exact H.
  - destruct row as [|c [|t extra]]; try discriminate E.
    rewrite fill_cons in E. rewrite (IH _ _ E), dict_set_in_keys.
    split.
    + intros [[->|H]|(row & Hin & Hc)]; eauto.
      * right. eexists; split; [left; reflexivity | reflexivity].
      * right. exists row. split; [right; exact Hin | exact Hc].
    + intros [H|(row & [<-|Hin] & Hc)]; auto.
      * injection Hc as <-. auto.
      * right. eauto.
Qed.

Lemma fill_untouched (rows : list (list string)) :
  forall acc row_data column,
    fill rows acc = Ok row_data ->
    (forall row, In row rows -> nth_error row 0 <> Some column) ->
    dict_get column row_data = dict_get column acc.
Proof.
  induction rows as [|row rows IH]; intros acc row_data column E Hno.
  - now injection E as <-.
  - destruct row as [|c [|t extra]]; try discriminate E.
    rewrite fill_cons in E.
    rewrite (IH _ _ _ E); [|intros row Hin; apply Hno; now right].
    apply dict_get_set_other. intros ->.
    exact (Hno _ (or_introl eq_refl) eq_refl).
Qed.

Lemma fill_last_wins (rows : list (list string)) :
  forall acc row_data before column data_type extra after,
    fill rows acc = Ok row_data ->
    rows = before ++ (column :: data_type :: extra) :: after ->
    (forall row, In row after -> nth_error row 0 <> Some column) ->
    dict_get column row_data = Some (JObject [("type", JString data_type)]).
Proof.
  induction rows as [|row rows IH];
    intros acc row_data before column data_type extra after E Hrows Hno.
  - now destruct before.
  - destruct before as [|first before]; cbn [app] in Hrows;
      injection Hrows as -> ->.
    + rewrite fill_cons in E.
      rewrite (fill_untouched _ _ _ _ E Hno). apply dict_get_set_same.
    + destruct first as [|c [|t extra']]; try discriminate E.
      rewrite fill_cons in E. eapply IH; [exact E | reflexivity | exact Hno].
Qed.

End Schema.

(** X9.  For a table whose [DESCRIBE TABLE] gives rows of at least two
    cells, the [get_table_schema] tool answers with the JSON text of one
    object per distinct column name, each column of the answer being listed
    once, with the type of the last row that names it.  If some row has
    fewer than two cells the tool answers with the error text instead. *)
Theorem schema_descriptor_maps_columns
  (client_query : string -> outcome QueryResult)
  (json_dumps : Json -> string) (index_error : PyException)
  (dumps_error : Json -> option PyException)
  (arguments : list (string * string)) (table_name : string)
  (result : QueryResult) :
  dict_get "table_name" arguments = Some table_name ->
  client_query ("DESCRIBE TABLE " +++ table_name) = Ok result ->
  result_set result <> [] ->
  (Forall (fun row => (2 <= List.length row)%nat) (result_set result) ->
   exists row_data,
     Server.call_tool client_query json_dumps index_error dumps_error
       "get_table_schema"
       arguments
     = Ok [TextContent
             (json_dumps
                (JObject
                   [(table_name, JObject [("row_data", JObject row_data)])]))]
     /\ NoDup (map fst row_data)
     /\ (forall column,
           In column (map fst row_data) <->
           exists row,
             In row (result_set result) /\ nth_error row 0 = Some column)
     /\ (forall before column data_type extra after,
           result_set result
           = before ++ (column :: data_type :: extra) :: after ->
           (forall row, In row after -> nth_error row 0 <> Some column) ->
           dict_get column row_data
           = Some (JObject [("type", JString data_type)])))
  /\ ((exists row,
         In row (result_set result) /\ (List.length row < 2)%nat) ->
      Server.call_tool client_query json_dumps index_error dumps_error
       "get_table_schema"
        arguments
      = Ok [TextContent
              ("Error retrieving schema for table " +++ table_name +++ ": "
                 +++ str index_error)]).
Proof.
  intros Ha Hq Hrows.
  unfold Server.call_tool, Server.describe_table.
  cbn [String.eqb Ascii.eqb Bool.eqb]. rewrite Ha, Hq.
  destruct (result_set result) as [|row rows] eqn:Hset; [contradiction|].
  split.
  - intros Hwell.
    destruct (fill_answers index_error _ Hwell []) as (row_data & Hfill).
    exists row_data. rewrite Hfill. repeat split.
    + eapply fill_nodup; [exact Hfill | constructor].
    + intros Hin. apply (fill_keys _ _ _ _ Hfill) in Hin.
      destruct Hin as [[]|Hin]. exact Hin.
    + intros Hin. apply (fill_keys _ _ _ _ Hfill). now right.
    + intros before column data_type extra after Hsplit Hno.
      exact (fill_last_wins _ _ _ _ _ _ _ _ _ Hfill Hsplit Hno).
  - intros Hbad. now rewrite (fill_raises index_error _ Hbad []).
Qed.

Lemma schema_descriptor_maps_columns_witness :
  let rows := [["id"; "Int32"; ""]; ["total"; "Float64"; ""];
               ["id"; "Int64"; ""]] in
  let describe (_ : string) : outcome QueryResult :=
    Ok {| result_set := rows;
          column_names := ["name"; "type"; "default_type"] |} in
  exists row_data,
    Server.call_tool describe (fun _ => EmptyString)
      (Exception "tuple index out of range") (fun _ => None) "get_table_schema"
      [("table_name", "orders")]
    = Ok [TextContent EmptyString]
    /\ NoDup (map fst row_data)
    /\ (forall column,
          In column (map fst row_data) <->
          exists row, In row rows /\ nth_error row 0 = Some column)
    /\ (forall before column data_type extra after,
          rows = before ++ (column :: data_type :: extra) :: after ->
          (forall row, In row after -> nth_error row 0 <> Some column) ->
          dict_get column row_data
          = Some (JObject [("type", JString data_type)])).
Proof.
  intros rows describe.
  refine (proj1
            (schema_descriptor_maps_columns describe (fun _ => EmptyString)
               (Exception "tuple index out of range") (fun _ => None)
               [("table_name", "orders")] "orders"
               {| result_set := rows;
                  column_names := ["name"; "type"; "default_type"] |}
               _ _ _) _);
    first [reflexivity | discriminate | idtac].
  repeat constructor.
Defined.

(** ** The rows of [execute_custom_query] *)

Lemma zip_into_fresh (pairs : list (string * string)) :
  forall members : list (string * Json),
    NoDup (map fst members ++ map fst pairs) ->
    fold_left (fun members kv => dict_set (fst kv) (JString (snd kv)) members)
      pairs members
    = members ++ map (fun kv => (fst kv, JString (snd kv))) pairs.
Proof.
  induction pairs as [|[k c] pairs IH]; intros members Hnd;
    cbn [fold_left map fst snd].
  - now rewrite app_nil_r.
  - cbn [map fst] in Hnd.
    rewrite dict_set_fresh.
    + rewrite IH.
      * now rewrite <- app_assoc.
      * rewrite map_app, <- app_assoc. exact Hnd.
    + apply NoDup_remove_2 in Hnd. intros Hin. apply Hnd.
      apply in_or_app. now left.
Qed.

Lemma combine_map_cells (names row : list string) :
  map (fun kv => (fst kv, JString (snd kv))) (combine names row)
  = combine names (map JString row).
Proof.
  revert row; induction names as [|n names IH]; intros [|c row];
    cbn [combine map fst snd]; try reflexivity.
  now rewrite IH.
Qed.

Lemma combine_keys_nodup (names row : list string) :
  NoDup names -> NoDup (map fst (combine names row)).
Proof.
  intros Hnd. revert row.
  induction Hnd as [|n names Hn Hnd IH]; intros [|c row];
    cbn [combine map fst]; try constructor.
  - intros Hin. apply Hn.
    clear -Hin. revert row Hin.
    induction names as [|m names IH]; intros [|c row]; cbn; try tauto.
    intros [->|H]; [now left | right; eauto].
  - apply IH.
Qed.

(** With distinct column names, [dict(zip(names, row))] pairs the names with
    the cells in order, dropping what one list has more than the other. *)
Lemma row_object_distinct (names row : list string) :
  NoDup names ->
  Server.row_object names row = JObject (combine names (map JString row)).
Proof.
  intros Hnd. unfold Server.row_object.
  rewrite zip_into_fresh; cbn [map app].
  - now rewrite combine_map_cells.
  - now apply combine_keys_nodup.
Qed.

(** X10.  For a statement that gives rows under distinct column names, the
    [execute_custom_query] tool answers with one text.  The document handed
    to [json.dumps] holds the columns (each of type ["unknown"]) and the
    rows, each row being its cells paired with the column names in order.
    When [json.dumps] serialises it, the text is the success line, a blank
    line and the JSON text; when [json.dumps] raises on a cell it cannot
    serialise, the text is the error text of the handler, which starts with
    the sentinel phrase.  A statement that gives no row is answered with
    the fixed text saying so. *)
Theorem rows_answer_pairs_columns_with_cells
  (client_query : string -> outcome QueryResult)
  (json_dumps : Json -> string) (index_error : PyException)
  (dumps_error : Json -> option PyException)
  (arguments : list (string * string)) (query : string)
  (result : QueryResult) :
  dict_get "query" arguments = Some query ->
  client_query query = Ok result ->
  NoDup (column_names result) ->
  let document :=
    JObject
      [("columns",
        JArray
          (map (fun col =>
                  JObject [("name", JString col); ("type", JString "unknown")])
             (column_names result)));
       ("rows",
        JArray
          (map (fun row =>
                  JObject (combine (column_names result) (map JString row)))
             (result_set result)))] in
  Server.call_tool client_query json_dumps index_error dumps_error
    "execute_custom_query" arguments
  = Ok [TextContent
          (match result_set result with
           | [] => "Query executed successfully, but returned no data."
           | _ :: _ =>
               match dumps_error document with
               | None =>
                   "Query executed successfully:"
                     +++ String "010" (String "010" (json_dumps document))
               | Some e => "Error executing custom query: " +++ str e
               end
           end)].
Proof.
  intros Ha Hq Hnd document. unfold Server.call_tool, Server.run_query.
  cbn [String.eqb Ascii.eqb Bool.eqb]. rewrite Ha, Hq.
  destruct (result_set result) as [|row rows] eqn:Hset; [reflexivity|].
  assert (Server.result_json result = document) as ->.
  { unfold Server.result_json, document. rewrite Hset.
    rewrite (map_ext (Server.row_object (column_names result))
               (fun row =>
                  JObject (combine (column_names result) (map JString row))));
      [reflexivity|].
    intros r. now apply row_object_distinct. }
  now destruct (dumps_error document).
Qed.

Lemma rows_answer_pairs_columns_with_cells_witness :
  Server.call_tool
    (fun _ => Ok {| result_set := [["1"; "2024-05-01"]];
                    column_names := ["id"; "day"] |})
    (fun _ => "{}") (Exception "tuple index out of range")
    (fun _ => Some (Exception "Object of type date is not JSON serializable"))
    "execute_custom_query" [("query", "SELECT * FROM orders")]
  = Ok [TextContent
          "Error executing custom query: Object of type date is not JSON serializable"].
Proof.
  apply (rows_answer_pairs_columns_with_cells
           (fun _ => Ok {| result_set := [["1"; "2024-05-01"]];
                           column_names := ["id"; "day"] |})
           (fun _ => "{}") (Exception "tuple index out of range")
           (fun _ =>
              Some (Exception "Object of type date is not JSON serializable"))
           [("query", "SELECT * FROM orders")] "SELECT * FROM orders"
           {| result_set := [["1"; "2024-05-01"]];
              column_names := ["id"; "day"] |}).
  - reflexivity.
  - reflexivity.
  - repeat constructor; cbn [In]; intuition discriminate.
Defined.

(** ** The tools listed and the tools handled *)

(** X11.  [call_tool] handles exactly the tools that [list_tools] lists:
    for a listed tool called with its required arguments it answers with one
    text item whatever the database does; when a required argument is
    missing it raises the [KeyError] of that argument; and for any other
    name it raises "Tool not found". *)
Theorem call_tool_handles_listed_tools
  (client_query : string -> outcome QueryResult)
  (json_dumps : Json -> string) (index_error : PyException)
  (dumps_error : Json -> option PyException)
  (name : string) (arguments : list (string * string)) :
  (forall tool,
     In tool Explorer.list_tools ->
     Explorer.tool_name tool = name ->
     (forall key, In key (Explorer.required tool) ->
                  has_key key arguments = true) ->
     exists text,
       Server.call_tool client_query json_dumps index_error dumps_error name
          arguments
       = Ok [TextContent text])
  /\ (forall tool key,
        In tool Explorer.list_tools ->
        Explorer.tool_name tool = name ->
        In key (Explorer.required tool) ->
        has_key key arguments = false ->
        Server.call_tool client_query json_dumps index_error dumps_error name
          arguments
        = Raise (Exception ("'" +++ key +++ "'")))
  /\ ((forall tool, In tool Explorer.list_tools ->
                    Explorer.tool_name tool <> name) ->
      Server.call_tool client_query json_dumps index_error dumps_error name
          arguments
      = Raise (Exception ("Tool not found: " +++ name))).
Proof.
  unfold has_key. repeat split.
  - intros tool [<-|[<-|[]]] <- Hreq;
      cbn [Explorer.tool_name Explorer.required] in *;
      specialize (Hreq _ (or_introl eq_refl));
      unfold Server.call_tool; cbn [String.eqb Ascii.eqb Bool.eqb].
    + destruct (dict_get "table_name" arguments); [|discriminate Hreq].
      destruct (Server.describe_table _ _ _ _); eauto.
    + destruct (dict_get "query" arguments); [|discriminate Hreq].
      destruct (Server.run_query _ _ _); eauto.
  - intros tool key [<-|[<-|[]]] <- [<-|[]] Hmiss;
      cbn [Explorer.tool_name] in *;
      unfold Server.call_tool; cbn [String.eqb Ascii.eqb Bool.eqb].
    + destruct (dict_get "table_name" arguments); [discriminate Hmiss|].
      reflexivity.
    + destruct (dict_get "query" arguments); [discriminate Hmiss|].
      reflexivity.
  - intros Hnone. unfold Server.call_tool.
    assert (String.eqb name "get_table_schema" = false) as ->.
    { apply String.eqb_neq. intros ->.
      apply (Hnone _ (or_introl eq_refl)). reflexivity. }
    assert (String.eqb name "execute_custom_query" = false) as ->.
    { apply String.eqb_neq. intros ->.
      apply (Hnone _ (or_intror (or_introl eq_refl))). reflexivity. }
    reflexivity.
Qed.

(** ** Listing and reading resources *)

Lemma collect_named (index_error : PyException)
  (any_url : string -> string) (rows : list (list string)) :
  Forall (fun row => row <> []) rows ->
  forall resources,
    Explorer.collect_resources index_error any_url rows resources
    = Ok (resources
            ++ map (fun row =>
                      Explorer.resource_of any_url (hd EmptyString row)) rows).
Proof.
  induction 1 as [|row rows Hrow _ IH]; intros resources;
    cbn [Explorer.collect_resources map].
  - now rewrite app_nil_r.
  - destruct row as [|table_name cells]; [contradiction|].
    cbn [Server.index nth_error hd]. rewrite IH, <- app_assoc. reflexivity.
Qed.

Lemma collect_raises (index_error : PyException)
  (any_url : string -> string) (rows : list (list string)) :
  In [] rows ->
  forall resources,
    Explorer.collect_resources index_error any_url rows resources
    = Raise index_error.
Proof.
  induction rows as [|row rows IH]; intros Hin resources; [destruct Hin|].
  cbn [Explorer.collect_resources].
  destruct row as [|table_name cells]; [reflexivity|].
  cbn [Server.index nth_error]. apply IH.
  destruct Hin as [Hin|Hin]; [discriminate Hin | exact Hin].
Qed.

Lemma map_name_resource_of (any_url : string -> string)
  (rows : list (list string)) :
  map Explorer.name
    (map (fun row => Explorer.resource_of any_url (hd EmptyString row)) rows)
  = map (hd EmptyString) rows.
Proof. rewrite map_map. reflexivity. Qed.

(** X12.  Over the session served by the handlers, [GET /tables] answers
    with the first cell of each row of [SHOW TABLES], in order.  When the
    database raises, or when a row has no cell, it answers with the empty
    list rather than with an error; only a failure of the session itself
    leaves the endpoint, as status 500. *)
Theorem tables_endpoint_lists_names_or_nothing
  (client_query : string -> outcome QueryResult)
  (index_error : PyException) (any_url : string -> string) :
  (forall result,
     client_query "SHOW TABLES" = Ok result ->
     Forall (fun row => row <> []) (result_set result) ->
     Api.list_tables
       (resources := served_resources client_query index_error any_url) tt
     = (inr (map (hd EmptyString) (result_set result)), tt))
  /\ (forall e,
        client_query "SHOW TABLES" = Raise e ->
        Api.list_tables
          (resources := served_resources client_query index_error any_url)
          tt
        = (inr [], tt))
  /\ (forall result,
        client_query "SHOW TABLES" = Ok result ->
        In [] (result_set result) ->
        Api.list_tables
          (resources := served_resources client_query index_error any_url)
          tt
        = (inr [], tt))
  /\ (forall (World : Type) (resources : ResourceGateway World)
        (w w1 : World) (e : PyException),
        session_list_resources w = (Raise e, w1) ->
        Api.list_tables w
        = (inl {| status_code := 500;
                  detail := "Error fetching tables: " +++ str e |}, w1)).
Proof.
  repeat split.
  - intros result Hq Hrows.
    unfold Api.list_tables, Tables.list_tables.
    cbn [session_list_resources served_resources outcome_map].
    unfold Explorer.list_resources. rewrite Hq, (collect_named _ _ _ Hrows).
    cbn [app]. now rewrite map_name_resource_of.
  - intros e Hq.
    unfold Api.list_tables, Tables.list_tables.
    cbn [session_list_resources served_resources outcome_map].
    unfold Explorer.list_resources. now rewrite Hq.
  - intros result Hq Hin.
    unfold Api.list_tables, Tables.list_tables.
    cbn [session_list_resources served_resources outcome_map].
    unfold Explorer.list_resources. now rewrite Hq, (collect_raises _ _ _ Hin).
  - intros World resources w w1 e Hs.
    unfold Api.list_tables, Tables.list_tables. now rewrite Hs.
Qed.

(** X13.  The resource listed for a table carries as [uri] what the URL
    validation of [types.Resource] makes of the prefix followed by the
    table name.  When that validation leaves the text as it is, reading the
    listed [uri] describes that table and begins with the very text the
    [get_table_schema] tool gives for it, followed by at most one text of
    sample rows, provided the table name does not itself hold the URI
    prefix, [DESCRIBE TABLE] answers, and its rows have at least two
    cells. *)
Theorem resource_uri_reads_its_table
  (client_query : string -> outcome QueryResult)
  (json_dumps : Json -> string) (index_error : PyException)
  (dumps_error : Json -> option PyException)
  (frame_to_string : list (list string) -> list string -> outcome string)
  (any_url : string -> string)
  (table_name : string) (result : QueryResult) :
  any_url ("clickhouse:table:" +++ table_name)
  = "clickhouse:table:" +++ table_name ->
  PyStr.contains "clickhouse:table:" table_name = false ->
  client_query ("DESCRIBE TABLE " +++ table_name) = Ok result ->
  Forall (fun row => (2 <= List.length row)%nat) (result_set result) ->
  exists text rest,
    Server.call_tool client_query json_dumps index_error dumps_error
      "get_table_schema" [("table_name", table_name)] = Ok [TextContent text]
    /\ Explorer.read_resource client_query json_dumps index_error
         frame_to_string
         (Explorer.uri (Explorer.resource_of any_url table_name))
       = TextContent text :: rest
    /\ (rest = [] \/ exists sample, rest = [TextContent sample]).
Proof.
  intros Hurl Hname Hq Hwell.
  cbn [Explorer.uri Explorer.resource_of]. unfold Explorer.URI_PREFIX.
  rewrite Hurl.
  unfold Explorer.read_resource, Explorer.read_table, Server.call_tool,
    Server.describe_table.
  cbn [String.eqb Ascii.eqb Bool.eqb dict_get].
  rewrite prefix_append.
  rewrite split_leading; [|discriminate | exact Hname].
  cbn [nth_error]. rewrite Hq.
  destruct (result_set result) as [|row rows] eqn:Hset.
  - eexists _, []. repeat split; auto.
  - destruct (fill_answers index_error _ Hwell []) as (row_data & Hfill).
    rewrite Hfill.
    destruct (Explorer.sample_text _ _ _) as [sample|];
      eexists _, _; repeat split; eauto.
Qed.

Lemma resource_uri_reads_its_table_witness :
  let describe (_ : string) : outcome QueryResult :=
    Ok {| result_set := [["id"; "Int32"]; ["total"; "Float64"]];
          column_names := ["name"; "type"] |} in
  exists text rest,
    Server.call_tool describe (fun _ => "{}")
      (Exception "tuple index out of range") (fun _ => None) "get_table_schema"
      [("table_name", "orders")] = Ok [TextContent text]
    /\ Explorer.read_resource describe (fun _ => "{}")
         (Exception "tuple index out of range") (fun _ _ => Ok "id total")
         (Explorer.uri (Explorer.resource_of (fun text => text) "orders"))
       = TextContent text :: rest
    /\ (rest = [] \/ exists sample, rest = [TextContent sample]).
Proof.
  intros describe.
  apply (resource_uri_reads_its_table describe (fun _ => "{}")
           (Exception "tuple index out of range") (fun _ => None)
           (fun _ _ => Ok "id total") (fun text => text) "orders"
           {| result_set := [["id"; "Int32"]; ["total"; "Float64"]];
              column_names := ["name"; "type"] |}).
  - reflexivity.
  - reflexivity.
  - reflexivity.
  - repeat constructor.
Defined.

(** When the validation rewrites the text, the listed [uri] names another
    table: a URL holds no line feed, so the resource listed for a table
    whose name holds one is read as the table of the name without it. *)
Example rewritten_uri_reads_another_table :
  let describe (statement : string) : outcome QueryResult :=
    if String.eqb statement "DESCRIBE TABLE ab"
    then Ok {| result_set := [["id"; "Int32"]];
               column_names := ["name"; "type"] |}
    else Raise (Exception "Code: 60. Unknown table") in
  let any_url (_ : string) := "clickhouse:table:ab" in
  let listed :=
    Explorer.resource_of any_url ("a" +++ String "010" "b") in
  Explorer.name listed = "a" +++ String "010" "b"
  /\ Explorer.read_resource describe (fun _ => "{ab}")
       (Exception "tuple index out of range") (fun _ _ => Ok "id")
       (Explorer.uri listed)
     = [TextContent "{ab}"].
Proof. split; reflexivity. Qed.

(** ** The endpoints of [api/main.py] *)

(** X14.  [select_table] either stores the table name and a non-empty
    schema text on the client, both at once, and answers with that schema
    after exactly one schema call; or it leaves the client as it was and
    raises an [HTTPException] whose status is 500. *)
Theorem select_table_sets_both_or_nothing
  {World : Type} {execution : ExecutionGateway World}
  (str_http : HTTPException -> string) (table_name : string)
  (client : Session) (w w1 : World)
  (r : Result ((HTTPException + PyDict) * Session)) (log : list Event) :
  Main.select_table str_http table_name client w = (r, w1, log) ->
  exists answer client',
    r = Returned (answer, client')
    /\ ((exists schema rest c,
           schema = String c rest
           /\ answer
              = inr [("message",
                      PyStr ("Table '" +++ table_name
                               +++ "' selected successfully."));
                     ("schema", PyStr schema)]
           /\ client' = {| selected_table := Some table_name;
                           table_schema := Some schema |}
           /\ log = [EvGetSchema table_name (Ok (Some schema))])
        \/ (exists detail,
              answer = inl {| status_code := 500; detail := detail |}
              /\ client' = client)).
Proof.
  unfold Main.select_table, Run.try_except, Run.bind, Client.get_table_schema,
    Run.call.
  destruct (session_call_tool _ _ w) as [[tool_result|e] w2];
    cbn [outcome_map].
  - destruct (match content tool_result with
              | Some items => Client.first_text items
              | None => None
              end) as [[|c rest]|];
      cbn [Run.ret app]; intros E; injection E as <- <- <-;
      eexists _, _; (split; [reflexivity|]); eauto 8.
  - intros E. injection E as <- <- <-.
    eexists _, _; (split; [reflexivity|]); eauto.
Qed.

Lemma select_table_sets_both_or_nothing_witness :
  let run :=
    Main.select_table
      (execution :=
         Server.served
           (fun _ => Ok {| result_set := [["id"; "Int32"]];
                           column_names := ["name"; "type"] |})
           (fun _ => "{}") (Exception "tuple index out of range") (fun _ => None))
      (fun _ => EmptyString) "orders" Stub.unset tt in
  exists answer client',
    fst (fst run) = Returned (answer, client')
    /\ ((exists schema rest c,
           schema = String c rest
           /\ answer
              = inr [("message",
                      PyStr ("Table '" +++ "orders"
                               +++ "' selected successfully."));
                     ("schema", PyStr schema)]
           /\ client' = {| selected_table := Some "orders";
                           table_schema := Some schema |}
           /\ snd run = [EvGetSchema "orders" (Ok (Some schema))])
        \/ (exists detail,
              answer = inl {| status_code := 500; detail := detail |}
              /\ client' = Stub.unset)).
Proof.
  intros run.
  apply (select_table_sets_both_or_nothing
           (execution :=
              Server.served
                (fun _ => Ok {| result_set := [["id"; "Int32"]];
                                column_names := ["name"; "type"] |})
                (fun _ => "{}") (Exception "tuple index out of range") (fun _ => None))
           (fun _ => EmptyString) "orders" Stub.unset tt (snd (fst run))
           (fst (fst run)) (snd run)).
  reflexivity.
Defined.

Section QueryEndpoint.
Context {World : Type}.
Context {reasoning : ReasoningGateway World}.
Context {execution : ExecutionGateway World}.
Variable format_tool_result : ToolResult -> string.
Variable str_http : HTTPException -> string.
Variable format_list : list string -> string.
Variable json_loads : string -> outcome Json.

Local Abbreviation endpoint :=
  (Api.execute_query format_tool_result str_http format_list json_loads).
Local Abbreviation answer_of :=
  (Api.answer_of format_list json_loads).

(** What the endpoint gives is read off one run of the client. *)
Lemma endpoint_run (client : Session) (user_query : string) (w w1 : World)
  (r : Result (HTTPException + QueryResponse)) (log : list Event) :
  endpoint client user_query w = (r, w1, log) ->
  (exists t,
     r = Returned (inl (Api.wrap str_http t)) /\ log = []
     /\ (selected_table client = None \/ table_schema client = None))
  \/ exists result,
       Client.process_query_for_selected_table format_tool_result client
         user_query default_max_retries w = (Returned result, w1, log)
       /\ r = Returned
                (match answer_of result with
                 | inl t => inl (Api.wrap str_http t)
                 | inr response => inr response
                 end).
Proof.
  unfold Api.execute_query.
  destruct (selected_table client) as [table|] eqn:Ht;
    [destruct (table_schema client) as [schema|] eqn:Hs|].
  - unfold Run.try_except, Run.bind.
    destruct (process_run format_tool_result (Z.to_nat default_max_retries)
                client user_query default_max_retries w (Nat.le_refl _))
      as (result & w2 & log2 & E & _).
    fold (Client.process_query_for_selected_table format_tool_result client
            user_query default_max_retries w) in E.
    rewrite E. cbn [Run.ret]. rewrite app_nil_r.
    intros H. injection H as <- <- <-. right. eauto.
  - cbn [Run.ret]. intros H. injection H as <- _ <-. left. eauto.
  - cbn [Run.ret]. intros H. injection H as <- _ <-. left. eauto.
Qed.

(** When the answer is not an exception, the envelope had no [error], its
    [result] held a blank line, and what follows it was decoded to rows. *)
Lemma answer_of_response (result : option PyDict) (response : QueryResponse) :
  answer_of result = inr response ->
  exists envelope text before payload value,
    result = Some envelope
    /\ has_key "error" envelope = false
    /\ dict_get "result" envelope = Some (PyStr text)
    /\ PyStr.partition (String "010" (String "010" EmptyString)) text
       = Some (before, payload)
    /\ json_loads payload = Ok value
    /\ Api.rows_of value = inr (response_rows response)
    /\ response_sql response
       = match dict_get "sql_query" envelope with
         | Some sql => Some sql
         | None => dict_get "final_sql_query" envelope
         end.
Proof.
  unfold Api.answer_of, Api.payload_of, split_once.
  destruct result as [envelope|]; [|discriminate].
  destruct (has_key "error" envelope) eqn:Herr; [discriminate|].
  destruct (dict_get "result" envelope) as [[text|items]|] eqn:Hres;
    try discriminate.
  destruct (PyStr.partition _ text) as [[before payload]|] eqn:Hcut;
    cbn [nth_error]; [|discriminate].
  destruct (json_loads payload) as [value|e] eqn:Hload; [|discriminate].
  destruct (Api.rows_of value) as [t|rows] eqn:Hrows; [discriminate|].
  intros E. injection E as <-. cbn [response_rows response_sql].
  exists envelope, text, before, payload, value. repeat split; auto.
Qed.

Lemma process_last_execution (client : Session) (user_query : string)
  (max_retries : Z) log envelope query :
  ProcessRun client user_query max_retries log (Some envelope) ->
  dict_get "final_sql_query" envelope = Some (PyStr query)
  \/ dict_get "sql_query" envelope = Some (PyStr query) ->
  exists answer,
    Trace.last_execution log = Some (query, answer)
    /\ (has_key "summary" envelope = true ->
        exists text,
          answer = Ok text
          /\ dict_get "result" envelope = Some (PyStr text)).
Proof.
  inversion 1 as [| | | |table schema verdict sql log' o Ht Hs Hq Hloop E1 E2];
    subst; intros G; try (destruct G as [G|G]; discriminate G).
  destruct (loop_last_execution _ _ _ _ _ _ _ _ _ _ query Hloop
              (Z.le_refl 0) (fun _ => eq_refl) E2 G)
    as (answer & Hlast & Hsum).
  exists answer. cbn [Trace.last_execution]. now rewrite Hlast.
Qed.

Lemma last_execution_in (log : list Event) (query : string)
  (answer : outcome string) :
  Trace.last_execution log = Some (query, answer) ->
  exists table, In (EvExecute query table answer) log.
Proof.
  induction log as [|ev log IH]; cbn [Trace.last_execution];
    [discriminate|].
  destruct ev;
    try (intros H; destruct (IH H) as [table Hin]; exists table; now right).
  destruct (Trace.last_execution log) as [later|].
  - intros H. destruct (IH H) as [table Hin]. exists table. now right.
  - intros H. injection H as <- <-. eexists. now left.
Qed.

(** An answer of the endpoint comes from a run that ended in an envelope
    with rows and summary; it shows the statement of the last execution, and
    its rows are decoded from what follows the first blank line of that
    execution's answer. *)
Lemma endpoint_response (client : Session) (user_query : string)
  (w w1 : World) (log : list Event) (response : QueryResponse) :
  endpoint client user_query w = (Returned (inr response), w1, log) ->
  exists envelope query text before payload value,
    Client.process_query_for_selected_table format_tool_result client
      user_query default_max_retries w = (Returned (Some envelope), w1, log)
    /\ SuccessEnvelope user_query envelope
    /\ Trace.last_execution log = Some (query, Ok text)
    /\ response_sql response = Some (PyStr query)
    /\ PyStr.partition (String "010" (String "010" EmptyString)) text
       = Some (before, payload)
    /\ json_loads payload = Ok value
    /\ Api.rows_of value = inr (response_rows response).
Proof.
  intros E.
  destruct (endpoint_run _ _ _ _ _ _ E)
    as [(t & Habs & _)|(result & Hrun & Hr)]; [discriminate Habs|].
  injection Hr as Hr.
  destruct (answer_of result) as [t|response'] eqn:Hanswer;
    [discriminate Hr|]. injection Hr as <-.
  destruct (answer_of_response _ _ Hanswer)
    as (envelope & text & before & payload & value
        & -> & Herr & Hres & Hcut & Hload & Hrows & Hsql).
  destruct (process_run_of _ _ _ _ _ _ _ _ Hrun) as (result & Hret & R).
  injection Hret as <-.
  assert (SuccessEnvelope user_query envelope) as Hsuccess.
  { destruct (process_envelope _ _ _ _ _ R) as [->|[Hk|[Hk|Hk]]];
      [discriminate Herr | destruct Hk; discriminate Herr | | exact Hk].
    destruct Hk. injection Hres as <-. vm_compute in Hcut.
    discriminate Hcut. }
  assert (exists query,
            response_sql response = Some (PyStr query)
            /\ (dict_get "final_sql_query" envelope = Some (PyStr query)
                \/ dict_get "sql_query" envelope = Some (PyStr query)))
    as (query & Hshown & Hquery).
  { rewrite Hsql.
    destruct Hsuccess as [? ? sql ? ?|? ? ? ? final ? ?];
      [exists sql | exists final]; split; auto. }
  destruct (process_last_execution _ _ _ _ _ _ R Hquery)
    as (answer & Hlast & Hsum).
  destruct Hsum as (text' & -> & Hres');
    [destruct Hsuccess; reflexivity|].
  rewrite Hres in Hres'. injection Hres' as <-.
  exists envelope, query, text, before, payload, value. auto 10.
Qed.

End QueryEndpoint.

(** X15.  [POST /query] never lets an exception out with a status other
    than 500, the two it raises itself with status 400 included.  It
    answers only after a run that received rows and a summary; the
    [sql_query] of the answer is then the statement of the last execution,
    and its rows are decoded from what follows the first blank line in the
    answer of that execution. *)
Theorem query_endpoint_answers_after_summary
  {World : Type} {reasoning : ReasoningGateway World}
  {execution : ExecutionGateway World}
  (format_tool_result : ToolResult -> string)
  (str_http : HTTPException -> string)
  (format_list : list string -> string)
  (json_loads : string -> outcome Json)
  (client : Session) (user_query : string) (w w1 : World)
  (r : Result (HTTPException + QueryResponse)) (log : list Event) :
  Api.execute_query format_tool_result str_http format_list json_loads client
    user_query w = (r, w1, log) ->
  exists answer,
    r = Returned answer
    /\ (forall e, answer = inl e -> status_code e = 500)
    /\ (forall response,
          answer = inr response ->
          existsb Log.is_rows log = true
          /\ existsb Log.is_summary log = true
          /\ exists query text before payload value,
               Trace.last_execution log = Some (query, Ok text)
               /\ response_sql response = Some (PyStr query)
               /\ PyStr.partition (String "010" (String "010" EmptyString))
                    text = Some (before, payload)
               /\ json_loads payload = Ok value
               /\ Api.rows_of value = inr (response_rows response)).
Proof.
  intros E.
  assert (exists answer, r = Returned answer
                         /\ forall e, answer = inl e -> status_code e = 500)
    as (answer & -> & Hstatus).
  { destruct (endpoint_run _ _ _ _ _ _ _ _ _ _ E)
      as [(t & -> & _)|(result & _ & ->)].
    - eexists; split; [reflexivity|]. now intros e [= <-].
    - destruct (Api.answer_of _ _ result);
        (eexists; split; [reflexivity|]); intros e [= <-]; reflexivity. }
  exists answer. repeat split; [exact Hstatus|..]; subst answer;
    destruct (endpoint_response _ _ _ _ _ _ _ _ _ _ E)
      as (envelope & query & text & before & payload & value
          & Hrun & Hsuccess & Hlast & Hsql & Hcut & Hload & Hrows).
  - destruct (process_run_of _ _ _ _ _ _ _ _ Hrun) as (result & Hr & R).
    injection Hr as <-.
    pose proof (process_summary _ _ _ _ _ R) as Hsum.
    assert (carries "summary" (Some envelope) = true) as Hc
      by (destruct Hsuccess; reflexivity).
    rewrite Hc in Hsum. symmetry in Hsum.
    now apply andb_true_iff in Hsum.
  - destruct (process_run_of _ _ _ _ _ _ _ _ Hrun) as (result & Hr & R).
    injection Hr as <-.
    pose proof (process_summary _ _ _ _ _ R) as Hsum.
    assert (carries "summary" (Some envelope) = true) as Hc
      by (destruct Hsuccess; reflexivity).
    rewrite Hc in Hsum. symmetry in Hsum.
    now apply andb_true_iff in Hsum.
  - exists query, text, before, payload, value. auto.
Qed.

Lemma query_endpoint_answers_after_summary_witness :
  let run :=
    Api.execute_query
      (reasoning := Stub.stubborn) (execution := Stub.always_failing)
      Stub.format_tool_result (fun _ => EmptyString) (fun _ => EmptyString)
      (fun _ => Ok (JObject [])) Stub.chosen "total revenue last week"
      0%nat in
  exists answer,
    fst (fst run) = Returned answer
    /\ (forall e, answer = inl e -> status_code e = 500)
    /\ (forall response,
          answer = inr response ->
          existsb Log.is_rows (snd run) = true
          /\ existsb Log.is_summary (snd run) = true
          /\ exists query text before payload value,
               Trace.last_execution (snd run) = Some (query, Ok text)
               /\ response_sql response = Some (PyStr query)
               /\ PyStr.partition (String "010" (String "010" EmptyString))
                    text = Some (before, payload)
               /\ Ok (JObject []) = Ok value
               /\ Api.rows_of value = inr (response_rows response)).
Proof.
  intros run.
  apply (query_endpoint_answers_after_summary
           (reasoning := Stub.stubborn) (execution := Stub.always_failing)
           Stub.format_tool_result (fun _ => EmptyString)
           (fun _ => EmptyString) (fun _ => Ok (JObject [])) Stub.chosen
           "total revenue last week" 0%nat (snd (fst run)) (fst (fst run))
           (snd run)).
  reflexivity.
Defined.

(** What the client reads from the served session when every statement
    gives no row. *)
Lemma served_execution_empty (reasoning : ReasoningGateway unit)
  (client_query : string -> outcome QueryResult)
  (json_dumps : Json -> string) (index_error : PyException)
  (dumps_error : Json -> option PyException)
  (format_tool_result : ToolResult -> string)
  (query table : string) (answer : outcome string) :
  (forall statement,
     exists result,
       client_query statement = Ok result /\ result_set result = []) ->
  answered_by_services
    (execution := Server.served client_query json_dumps index_error dumps_error)
    format_tool_result (EvExecute query table answer) ->
  answer = Ok "Query executed successfully, but returned no data.".
Proof.
  intros Hdb [w <-].
  cbn [session_call_tool Server.served fst].
  unfold Server.call_tool, Server.run_query.
  cbn [String.eqb Ascii.eqb Bool.eqb dict_get].
  destruct (Hdb query) as (result & -> & ->). reflexivity.
Qed.

(** X16.  Against a database in which every statement succeeds without
    rows, [POST /query] never answers: the run ends well, with the text
    saying that no data came back, but that text has no blank line, so the
    endpoint raises and the request ends with status 500. *)
Theorem empty_result_never_answers
  (reasoning : ReasoningGateway unit)
  (client_query : string -> outcome QueryResult)
  (json_dumps : Json -> string) (index_error : PyException)
  (dumps_error : Json -> option PyException)
  (format_tool_result : ToolResult -> string)
  (str_http : HTTPException -> string)
  (format_list : list string -> string)
  (json_loads : string -> outcome Json)
  (client : Session) (user_query : string) (w1 : unit)
  (r : Result (HTTPException + QueryResponse)) (log : list Event) :
  (forall statement,
     exists result,
       client_query statement = Ok result /\ result_set result = []) ->
  Api.execute_query
    (execution := Server.served client_query json_dumps index_error dumps_error)
    format_tool_result str_http format_list json_loads client user_query tt
  = (r, w1, log) ->
  exists e, r = Returned (inl e) /\ status_code e = 500.
Proof.
  intros Hdb E.
  destruct (endpoint_run _ _ _ _ _ _ _ _ _ _ E)
    as [(t & -> & _)|(result & Hrun & ->)]; [eauto|].
  destruct (Api.answer_of format_list json_loads result) as [t|response]
    eqn:Hanswer; [eauto|exfalso].
  destruct (answer_of_response _ _ _ _ Hanswer)
    as (envelope & text & before & payload & value
        & -> & Herr & Hres & Hcut & _).
  destruct (process_run_of _ _ _ _ _ _ _ _ Hrun) as (result & Hr & R).
  injection Hr as <-.
  assert (SuccessEnvelope user_query envelope) as Hsuccess.
  { destruct (process_envelope _ _ _ _ _ R) as [->|[Hk|[Hk|Hk]]];
      [discriminate Herr | destruct Hk; discriminate Herr | | exact Hk].
    destruct Hk. injection Hres as <-. vm_compute in Hcut.
    discriminate Hcut. }
  assert (exists query,
            dict_get "final_sql_query" envelope = Some (PyStr query)
            \/ dict_get "sql_query" envelope = Some (PyStr query))
    as (query & Hquery).
  { destruct Hsuccess as [? ? sql ? ?|? ? ? ? final ? ?];
      [exists sql | exists final]; auto. }
  destruct (process_last_execution _ _ _ _ _ _ R Hquery)
    as (answer & Hlast & Hsum).
  destruct Hsum as (text' & -> & Hres');
    [destruct Hsuccess; reflexivity|].
  rewrite Hres in Hres'. injection Hres' as <-.
  destruct (last_execution_in _ _ _ Hlast) as (table & Hin).
  pose proof (faithful_process format_tool_result client user_query
                default_max_retries _ _ _ _ Hrun) as Hans.
  rewrite Forall_forall in Hans.
  pose proof (served_execution_empty _ _ _ _ _ _ _ _ _ Hdb (Hans _ Hin))
    as Htext.
  injection Htext as ->. vm_compute in Hcut. discriminate Hcut.
Qed.

Lemma empty_result_never_answers_witness :
  let run :=
    Api.execute_query
      (reasoning :=
         Stub.reasoning (World := unit) (Stub.valid ["orders of 1999"])
           (Ok "SELECT * FROM orders WHERE year = 1999") (Ok "SELECT 1")
           (Ok "There were no orders in 1999."))
      (execution :=
         Server.served Stub.no_columns (fun _ => "{}")
           (Exception "tuple index out of range") (fun _ => None))
      Stub.format_tool_result (fun _ => EmptyString) (fun _ => EmptyString)
      (fun _ => Ok (JObject [])) Stub.chosen "orders of 1999" tt in
  exists e, fst (fst run) = Returned (inl e) /\ status_code e = 500.
Proof.
  intros run.
  apply (empty_result_never_answers
           (Stub.reasoning (World := unit) (Stub.valid ["orders of 1999"])
              (Ok "SELECT * FROM orders WHERE year = 1999") (Ok "SELECT 1")
              (Ok "There were no orders in 1999."))
           Stub.no_columns (fun _ => "{}")
           (Exception "tuple index out of range") (fun _ => None)
           Stub.format_tool_result (fun _ => EmptyString)
           (fun _ => EmptyString) (fun _ => Ok (JObject [])) Stub.chosen
           "orders of 1999" (snd (fst run)) (fst (fst run)) (snd run)).
  - intros statement. eexists; split; reflexivity.
  - reflexivity.
Defined.

(** ** Rows from the database to the answer of [/query] *)

Lemma loop_starts user_query max_retries table schema rephrased sql
  st log o :
  LoopRun user_query max_retries table schema rephrased sql st log o ->
  retry_count st < max_retries ->
  exists answer rest,
    log = EvExecute (current_query st) table answer :: rest.
Proof. destruct 1; intros Hlt; try lia; eauto. Qed.

Lemma success_line_cut (payload : string) :
  PyStr.partition (String "010" (String "010" EmptyString))
    ("Query executed successfully:"
       +++ String "010" (String "010" payload))
  = Some ("Query executed successfully:", payload).
Proof. destruct payload; reflexivity. Qed.

Lemma success_line_sentinel (payload : string) :
  PyStr.contains SENTINEL
    ("Query executed successfully:"
       +++ String "010" (String "010" payload))
  = PyStr.contains SENTINEL payload.
Proof. reflexivity. Qed.

Lemma served_execution_rows (reasoning : ReasoningGateway unit)
  (client_query : string -> outcome QueryResult)
  (json_dumps : Json -> string) (index_error : PyException)
  (dumps_error : Json -> option PyException)
  (format_tool_result : ToolResult -> string) (result : QueryResult)
  (query table : string) (answer : outcome string) :
  (forall statement, client_query statement = Ok result) ->
  result_set result <> [] ->
  dumps_error (Server.result_json result) = None ->
  answered_by_services
    (execution := Server.served client_query json_dumps index_error dumps_error)
    format_tool_result (EvExecute query table answer) ->
  answer
  = Ok ("Query executed successfully:"
          +++ String "010" (String "010"
                (json_dumps (Server.result_json result)))).
Proof.
  intros Hdb Hrows Hser [w <-].
  cbn [session_call_tool Server.served fst].
  unfold Server.call_tool, Server.run_query.
  cbn [String.eqb Ascii.eqb Bool.eqb dict_get]. rewrite Hdb.
  destruct (result_set result); [contradiction|].
  now rewrite Hser.
Qed.

(** X17.  Against a database that answers every statement with the same
    non-empty rows, which [json.dumps] serialises and whose JSON text is
    decoded back by [json.loads] and does not hold the sentinel phrase, and
    with a chat service that accepts the question and answers,
    [POST /query] answers after a single execution and no repair with the
    generated statement, stripped, and with the rows as the handler built
    them. *)
Theorem rows_reach_the_endpoint
  (reasoning : ReasoningGateway unit)
  (client_query : string -> outcome QueryResult)
  (json_dumps : Json -> string) (index_error : PyException)
  (dumps_error : Json -> option PyException)
  (format_tool_result : ToolResult -> string)
  (str_http : HTTPException -> string)
  (format_list : list string -> string)
  (json_loads : string -> outcome Json)
  (client : Session) (table schema user_query : string)
  (result : QueryResult) (w1 : unit)
  (r : Result (HTTPException + QueryResponse)) (log : list Event) :
  selected_table client = Some table ->
  table_schema client = Some schema ->
  (forall statement, client_query statement = Ok result) ->
  result_set result <> [] ->
  dumps_error (Server.result_json result) = None ->
  PyStr.contains SENTINEL (json_dumps (Server.result_json result)) = false ->
  json_loads (json_dumps (Server.result_json result))
  = Ok (Server.result_json result) ->
  (forall question w,
     exists verdict,
       fst (classify question w) = Ok verdict
       /\ query_type verdict <> "wrong") ->
  (forall rephrased table' schema' w,
     exists sql, fst (generate rephrased table' schema' w) = Ok sql) ->
  (forall question output w,
     exists summary, fst (summarize question output w) = Ok summary) ->
  Api.execute_query
    (execution := Server.served client_query json_dumps index_error dumps_error)
    format_tool_result str_http format_list json_loads client user_query tt
  = (r, w1, log) ->
  exists rephrased sql,
    r = Returned
          (inr {| response_sql := Some (PyStr (PyStr.strip sql));
                  response_rows :=
                    JArray (map (Server.row_object (column_names result))
                              (result_set result)) |})
    /\ In (EvGenerate rephrased table schema (Ok sql)) log
    /\ Log.executions log = 1%nat
    /\ Log.repairs log = 0%nat.
Proof.
  intros Ht Hs Hdb Hrows Hser Hclean Hload Hclassify Hgenerate Hsummarize E.
  destruct (endpoint_run _ _ _ _ _ _ _ _ _ _ E)
    as [(t & _ & _ & [Hn|Hn])|(result0 & Hrun & ->)]; try congruence.
  pose proof (faithful_process format_tool_result client user_query
                default_max_retries _ _ _ _ Hrun) as Hans.
  rewrite Forall_forall in Hans.
  destruct (process_run_of _ _ _ _ _ _ _ _ Hrun) as (result1 & Hr & R).
  injection Hr as <-.
  destruct R
    as [[Hn|Hn]| | | |table0 schema0 verdict sql log o Ht0 Hs0 Hq Hloop];
    try congruence.
  - destruct (Hans _ (or_introl eq_refl)) as [w Hw].
    destruct (Hclassify user_query w) as (v & Hv & _). congruence.
  - destruct (Hans _ (or_introl eq_refl)) as [w Hw].
    destruct (Hclassify user_query w) as (v & Hv & Hok).
    rewrite Hw in Hv. injection Hv as <-. contradiction.
  - destruct (Hans _ (or_intror (or_introl eq_refl))) as [w Hw].
    destruct (Hgenerate (chosen_rephrasing user_query verdict) table0 schema0 w)
      as (s & Hg). congruence.
  - rewrite Ht in Ht0. injection Ht0 as <-.
    rewrite Hs in Hs0. injection Hs0 as <-.
    destruct (loop_starts _ _ _ _ _ _ _ _ _ Hloop) as (answer & rest & ->);
      [cbn [retry_count]; unfold default_max_retries; lia|].
    cbn [current_query] in *.
    pose proof (served_execution_rows _ _ _ _ _ _ _ _ _ _ Hdb Hrows Hser
                  (Hans _ (or_intror (or_intror (or_introl eq_refl)))))
      as ->.
    destruct (loop_first_rows _ _ _ _ _ _ _ _ _ (PyStr.strip sql) table
                ("Query executed successfully:"
                   +++ String "010" (String "010"
                         (json_dumps (Server.result_json result))))
                Hloop eq_refl)
      as (_ & _ & summary & Hlog & ->);
      [now rewrite success_line_sentinel|].
    injection Hlog as ->.
    destruct summary as [summary|e].
    + exists (chosen_rephrasing user_query verdict), sql.
      cbn [retry_count Z.eqb finish].
      unfold Api.answer_of, Api.payload_of, split_once.
      cbn [has_key dict_get Client.direct_envelope String.eqb Ascii.eqb
           Bool.eqb].
      rewrite success_line_cut. cbn [nth_error]. rewrite Hload.
      unfold Server.result_json, Api.rows_of.
      cbn [dict_get String.eqb Ascii.eqb Bool.eqb].
      repeat split. cbn [In]. auto.
    + destruct (Hans (EvSummarize user_query
                        ("Query executed successfully:"
                           +++ String "010" (String "010"
                                 (json_dumps (Server.result_json result))))
                        (Raise e))) as [w Hw];
        [cbn [In]; auto 6|].
      destruct (Hsummarize user_query
                  ("Query executed successfully:"
                     +++ String "010" (String "010"
                           (json_dumps (Server.result_json result)))) w)
        as (s & Hsum).
      congruence.
Qed.

Lemma rows_reach_the_endpoint_witness :
  let rows := {| result_set := [["1000"]]; column_names := ["total"] |} in
  let run :=
    Api.execute_query
      (reasoning :=
         Stub.reasoning (World := unit) (Stub.valid ["total revenue"])
           (Ok " SELECT SUM(total) AS total FROM orders ") (Ok "SELECT 1")
           (Ok "Total revenue was 1000."))
      (execution :=
         Server.served (fun _ => Ok rows) (fun _ => "{rows}")
           (Exception "tuple index out of range") (fun _ => None))
      Stub.format_tool_result (fun _ => EmptyString) (fun _ => EmptyString)
      (fun _ => Ok (Server.result_json rows)) Stub.chosen "total revenue" tt in
  exists rephrased sql,
    fst (fst run)
    = Returned
        (inr {| response_sql := Some (PyStr (PyStr.strip sql));
                response_rows :=
                  JArray (map (Server.row_object (column_names rows))
                            (result_set rows)) |})
    /\ In (EvGenerate rephrased "orders" "{id: Int, total: Float}" (Ok sql))
         (snd run)
    /\ Log.executions (snd run) = 1%nat
    /\ Log.repairs (snd run) = 0%nat.
Proof.
  intros rows run.
  apply (rows_reach_the_endpoint
           (Stub.reasoning (World := unit) (Stub.valid ["total revenue"])
              (Ok " SELECT SUM(total) AS total FROM orders ") (Ok "SELECT 1")
              (Ok "Total revenue was 1000."))
           (fun _ => Ok rows) (fun _ => "{rows}")
           (Exception "tuple index out of range") (fun _ => None)
           Stub.format_tool_result (fun _ => EmptyString)
           (fun _ => EmptyString) (fun _ => Ok (Server.result_json rows))
           Stub.chosen "orders" "{id: Int, total: Float}" "total revenue"
           rows (snd (fst run)) (fst (fst run)) (snd run)).
  - reflexivity.
  - reflexivity.
  - reflexivity.
  - discriminate.
  - reflexivity.
  - reflexivity.
  - reflexivity.
  - intros question w. eexists; split; [reflexivity | discriminate].
  - intros. eexists; reflexivity.
  - intros. eexists; reflexivity.
  - reflexivity.
Defined.

(** ** The display of the command-line client *)





Example display_of_one_repair :
  Cli.display (fun _ => EmptyString)
    (Some
       (Client.repaired_envelope "q" "rq" "orders" "SELECT a" ["no column a"]
          "SELECT b" "rows" "sum"))
  = ([String "010" "Rephrased Query:"; "rq";
      String "010" "Original SQL Query (Failed):"; "SELECT a";
      String "010" "Error Messages:"; "Attempt 1: no column a";
      String "010" "Final SQL Query:"; "SELECT b";
      String "010" "Result:"; "rows";
      String "010" "Summary:"; "sum"], None).
Proof. reflexivity. Qed.
